(** * Clockify MCP server: a shallow embedding of [src/index.ts]

    The server is a protocol adapter.  A tool invocation (operation name and
    argument bag) is dispatched by a [switch] to one handler; the handler
    reshapes the arguments into a path, a query string or a JSON body, calls
    the HTTP helper [makeRequest] once, and renders the JSON answer as text.

    The embedding keeps the structure of the source:
    - JavaScript values are a tagged union [JsVal]; objects are association
      lists of their own properties in enumeration order (keys that are
      array indices first, in ascending order, then the other keys in
      insertion order);
    - the effects of the source (outbound [fetch] calls and thrown errors)
      live in the monad [M]: a computation maps the log of requests issued so
      far to an outcome and the extended log; the log survives a throw, so the
      number of network calls of a failed invocation can be read off;
    - the conversions of the language that can throw ([String(v)], a
      template literal's substitution, [Math.min]) are computations of [M],
      placed where the source evaluates them;
    - what the JavaScript engine and the remote service supply (the date
      parser for non-ISO strings, the digits of a number outside the safe
      integers, [JSON.parse] on response bodies, the text of native error
      messages, the remote answers, the clock) is a parameter.

    Strings are sequences of bytes, read as UTF-8. *)

From Stdlib Require Import ZArith List String Ascii Bool Lia DecimalString.
Import ListNotations.
Open Scope string_scope.
Open Scope Z_scope.

Set Warnings "-register-all".

(** ** JavaScript values *)

(** A Number: [NaN], an integer (both zeros are [Int 0]), a finite value
    [n/d] that is no integer, or an infinity. *)
Inductive Number : Type :=
| NaN
| Int (z : Z)
| Frac (n : Z) (d : positive)
| Infinity (negative : bool).

Inductive JsVal : Type :=
| JUndefined
| JNull
| JBool (b : bool)
| JNum (x : Number)
| JStr (s : string)
| JArr (elems : list JsVal)
| JObj (props : list (string * JsVal)).

(** An object: its own enumerable properties, in enumeration order. *)
Definition JsObject : Type := list (string * JsVal).

(** [ToBoolean]: [undefined], [null], [false], [0], [NaN] and the empty
    string are falsy; every array and object is truthy. *)
Definition truthy (v : JsVal) : bool :=
  match v with
  | JUndefined | JNull => false
  | JBool b => b
  | JNum NaN => false
  | JNum (Int z) => negb (z =? 0)
  | JNum (Frac n _) => negb (n =? 0)
  | JNum (Infinity _) => true
  | JStr s => negb (s =? "")%string
  | JArr _ | JObj _ => true
  end.

(** [a || b] *)
Definition js_or (a b : JsVal) : JsVal := if truthy a then a else b.

(** [v === undefined] *)
Definition is_undefined (v : JsVal) : bool :=
  match v with JUndefined => true | _ => false end.

(** [v === undefined || v === null] *)
Definition is_nullish (v : JsVal) : bool :=
  match v with JUndefined | JNull => true | _ => false end.

(** *** Objects as ordered property lists *)

(** [o.k] on an object: the property's value, [undefined] when absent. *)
Fixpoint lookup (k : string) (o : JsObject) : JsVal :=
  match o with
  | [] => JUndefined
  | (k', v) :: rest => if (k =? k')%string then v else lookup k rest
  end.

(** The rest of a destructuring pattern, [{k, ...rest} = o]: every property
    but [k], order kept.  Also [delete o[k]]. *)
Fixpoint remove_key (k : string) (o : JsObject) : JsObject :=
  match o with
  | [] => []
  | (k', v) :: rest =>
      if (k =? k')%string then remove_key k rest else (k', v) :: remove_key k rest
  end.

(** [o.k = v] for a property that exists keeps its position; a new property
    goes last. *)
Fixpoint assign (k : string) (v : JsVal) (o : JsObject) : JsObject :=
  match o with
  | [] => [(k, v)]
  | (k', v') :: rest =>
      if (k =? k')%string then (k, v) :: rest else (k', v') :: assign k v rest
  end.

(** [args?.k] on the argument bag of a request, which may be absent. *)
Definition opt_lookup (k : string) (args : option JsObject) : JsVal :=
  match args with
  | None => JUndefined
  | Some o => lookup k o
  end.


(** Whether [o] has an own property [k]. *)
Definition has_own (k : string) (o : JsObject) : bool :=
  existsb (fun kv => (fst kv =? k)%string) o.

(** ** Errors and the engine *)

Inductive ErrorCode : Type := InvalidParams | MethodNotFound | InternalError.

(** What makes the engine throw a native error in this program. *)
Inductive Fault : Type :=
| DestructureNullish               (* TypeError: [const {..} = undefined] *)
| NullishAccess (v : JsVal) (prop : string)
                                   (* TypeError: [v.prop] with [v] undefined or null *)
| NotCallable (v : JsVal) (method : string)
                                   (* TypeError: [v.method] is not a function *)
| NotPrimitive                     (* TypeError: cannot convert object to primitive value *)
| InvalidTime                      (* RangeError: [toISOString] of an invalid Date *)
| BadJson (text : string).         (* SyntaxError: [response.json()] on such a body *)

(** A thrown value: an [McpError] with the code and message it was built
    from, a native error of the engine, or the error [fetch] rejects with. *)
Inductive Exn : Type :=
| McpError (code : ErrorCode) (message : string)
| NativeError (f : Fault)
| FetchError (message : string).

(** The parts of the JavaScript engine the program calls and the
    repository does not define. *)
Record Runtime : Type := {
  (* [Date.parse] on a string outside the ISO date-only form (engine-defined) *)
  date_parse_fallback : string -> option Z;
  (* [StringToNumber] *)
  string_to_number : string -> Number;
  (* [Number::toString] on a finite value that is no integer, or an integer
     beyond 2^53 in magnitude (shortest round-trip digits, exponent form
     from 1e21) *)
  number_text : Number -> string;
  (* [JSON.parse] on a text that is not empty; [None] is a SyntaxError *)
  json_parse_nonempty : string -> option JsVal;
  (* the [message] of a native error *)
  fault_message : Fault -> string
}.

(** *** Strings *)

Definition join (sep : string) (l : list string) : string := String.concat sep l.

(** The decimal digits of an integer, with a minus sign when negative. *)
Definition Z_to_string (z : Z) : string := NilZero.string_of_int (Z.to_int z).

(** [Number::toString]: an integer up to 2^53 in magnitude is written in
    decimal digits; what the engine writes for any other finite value is
    [number_text]. *)
Definition Number_toString (rt : Runtime) (x : Number) : string :=
  match x with
  | NaN => "NaN"
  | Int z => if Z.abs z <=? 9007199254740992 then Z_to_string z else number_text rt x
  | Frac _ _ => number_text rt x
  | Infinity false => "Infinity"
  | Infinity true => "-Infinity"
  end.

(** Whether [ToString(v)] completes.  An object that has an own property
    [toString] has no callable [toString] (no value of a JSON document is
    callable), and its inherited [valueOf] returns the object itself, so the
    conversion throws a TypeError; an array converts each element that is
    neither [null] nor [undefined]. *)
Fixpoint stringable (v : JsVal) : bool :=
  match v with
  | JArr l => forallb stringable l
  | JObj o => negb (has_own "toString" o)
  | _ => true
  end.

(** What [ToString(v)] returns when it completes.  An array joins its
    elements with a comma, [null] and [undefined] elements giving the empty
    string; an object without an own [toString] gives the fixed tag. *)
Fixpoint ToString (rt : Runtime) (v : JsVal) : string :=
  match v with
  | JUndefined => "undefined"
  | JNull => "null"
  | JBool true => "true"
  | JBool false => "false"
  | JNum x => Number_toString rt x
  | JStr s => s
  | JArr l =>
      join "," (map (fun e => if is_nullish e then "" else ToString rt e) l)
  | JObj _ => "[object Object]"
  end.

(** What [Array.prototype.join(sep)] returns when it completes. *)
Definition array_join (rt : Runtime) (sep : string) (l : list JsVal) : string :=
  join sep (map (fun e => if is_nullish e then "" else ToString rt e) l).

(** [s.includes(t)] for a one-character [t]. *)
Fixpoint includes_char (c : ascii) (s : string) : bool :=
  match s with
  | EmptyString => false
  | String c' rest => if Ascii.eqb c c' then true else includes_char c rest
  end.

(** [===] against a string literal, as [Array.prototype.includes] compares. *)
Definition is_string (t : string) (v : JsVal) : bool :=
  match v with JStr s => (s =? t)%string | _ => false end.

(** [s.length]: the number of UTF-16 code units of the text.  A byte that
    continues a UTF-8 sequence adds none, a byte that starts a four-byte
    sequence adds two (a surrogate pair), any other byte one. *)
Fixpoint utf16_length (s : string) : Z :=
  match s with
  | EmptyString => 0
  | String c rest =>
      let n := nat_of_ascii c in
      (if (n <? 128)%nat then 1
       else if (n <? 192)%nat then 0
       else if (n <? 240)%nat then 1 else 2)
      + utf16_length rest
  end.

(** *** URL query strings

    [URLSearchParams.prototype.toString]: the form-urlencoded serializer.
    A byte is kept when it is alphanumeric or one of [* - . _], a space
    becomes [+], any other byte is percent-encoded in upper-case hex. *)

Definition hex_digit (n : nat) : ascii :=
  nth n (list_ascii_of_string "0123456789ABCDEF") "0"%char.

Definition form_safe (c : ascii) : bool :=
  let n := nat_of_ascii c in
  ((48 <=? n) && (n <=? 57) || (65 <=? n) && (n <=? 90)
   || (97 <=? n) && (n <=? 122)
   || (n =? 42) || (n =? 45) || (n =? 46) || (n =? 95))%nat.

Definition form_encode_byte (c : ascii) : string :=
  if form_safe c then String c EmptyString
  else if Ascii.eqb c " "%char then "+"
  else let n := nat_of_ascii c in
       String "%"%char
         (String (hex_digit (n / 16)) (String (hex_digit (n mod 16)) EmptyString)).

Fixpoint form_encode (s : string) : string :=
  match s with
  | EmptyString => EmptyString
  | String c rest => form_encode_byte c ++ form_encode rest
  end.

(** A [URLSearchParams] object: its list of name-value pairs. *)
Definition URLSearchParams : Type := list (string * string).

(** [params.append(k, v)] *)
Definition append_param (params : URLSearchParams) (k v : string) : URLSearchParams :=
  (params ++ [(k, v)])%list.

(** [params.toString()] *)
Definition params_toString (params : URLSearchParams) : string :=
  join "&" (map (fun kv => form_encode (fst kv) ++ "=" ++ form_encode (snd kv)) params).

(** [qs ? `${endpoint}?${qs}` : endpoint] *)
Definition with_query (endpoint : string) (q : URLSearchParams) : string :=
  let qs := params_toString q in
  if (qs =? "")%string then endpoint else endpoint ++ "?" ++ qs.

(** *** Dates

    A time value is a number of milliseconds since the epoch.  Days are
    converted to and from civil dates in the proleptic Gregorian calendar. *)

Definition msPerDay : Z := 86400000.

Definition days_from_civil (y m d : Z) : Z :=
  let y' := if m <=? 2 then y - 1 else y in
  let era := y' / 400 in
  let yoe := y' - era * 400 in
  let mp := if 2 <? m then m - 3 else m + 9 in
  let doy := (153 * mp + 2) / 5 + d - 1 in
  let doe := yoe * 365 + yoe / 4 - yoe / 100 + doy in
  era * 146097 + doe - 719468.

(** Year, month and day of the day number [days]. *)
Definition civil_from_days (days : Z) : Z * Z * Z :=
  let z := days + 719468 in
  let era := z / 146097 in
  let doe := z - era * 146097 in
  let yoe := (doe - doe / 1460 + doe / 36524 - doe / 146096) / 365 in
  let doy := doe - (365 * yoe + yoe / 4 - yoe / 100) in
  let mp := (5 * doy + 2) / 153 in
  let d := doy - (153 * mp + 2) / 5 + 1 in
  let m := if mp <? 10 then mp + 3 else mp - 9 in
  let y := yoe + era * 400 in
  ((if m <=? 2 then y + 1 else y), m, d).

Definition digit_char (n : Z) : ascii := ascii_of_nat (48 + Z.to_nat (n mod 10)).

(** [n] in decimal, zero-padded to [width] digits. *)
Fixpoint pad (width : nat) (n : Z) : string :=
  match width with
  | O => EmptyString
  | S w => pad w (n / 10) ++ String (digit_char n) EmptyString
  end.

(** [Date.prototype.toISOString] on a valid time value:
    [YYYY-MM-DDTHH:mm:ss.sssZ], the year with a sign and six digits outside
    0..9999. *)
Definition toISOString (t : Z) : string :=
  let '(y, m, d) := civil_from_days (t / msPerDay) in
  let ms := t mod msPerDay in
  let year :=
    if (0 <=? y) && (y <=? 9999) then pad 4 y
    else (if y <? 0 then "-" else "+") ++ pad 6 (Z.abs y) in
  year ++ "-" ++ pad 2 m ++ "-" ++ pad 2 d ++ "T"
    ++ pad 2 (ms / 3600000) ++ ":" ++ pad 2 (ms / 60000 mod 60) ++ ":"
    ++ pad 2 (ms / 1000 mod 60) ++ "." ++ pad 3 (ms mod 1000) ++ "Z".

Definition digit_val (c : ascii) : option Z :=
  let n := nat_of_ascii c in
  if ((48 <=? n) && (n <=? 57))%nat then Some (Z.of_nat n - 48) else None.

Fixpoint digits_val (acc : Z) (cs : list ascii) : option Z :=
  match cs with
  | [] => Some acc
  | c :: rest =>
      match digit_val c with
      | Some d => digits_val (acc * 10 + d) rest
      | None => None
      end
  end.

Definition days_in_month (y m : Z) : Z :=
  if m =? 2 then
    (if ((y mod 4 =? 0) && negb (y mod 100 =? 0)) || (y mod 400 =? 0) then 29 else 28)
  else if (m =? 4) || (m =? 6) || (m =? 9) || (m =? 11) then 30 else 31.

(** The date-only form [YYYY-MM-DD] of the ECMAScript date-time string
    format, read as UTC midnight; [None] for any other string or a month or
    day out of range. *)
Definition parse_iso_date (s : string) : option Z :=
  match list_ascii_of_string s with
  | [y1; y2; y3; y4; s1; m1; m2; s2; d1; d2] =>
      if Ascii.eqb s1 "-"%char && Ascii.eqb s2 "-"%char then
        match digits_val 0 [y1; y2; y3; y4], digits_val 0 [m1; m2], digits_val 0 [d1; d2] with
        | Some y, Some m, Some d =>
            if (1 <=? m) && (m <=? 12) && (1 <=? d) && (d <=? days_in_month y m)
            then Some (days_from_civil y m d * msPerDay)
            else None
        | _, _, _ => None
        end
      else None
  | _ => None
  end.

(** *** JSON text

    [JSON.stringify(v)] as the document it writes, kept as a tree:
    [undefined] writes nothing, an [undefined] property is left out, an
    [undefined] array element, [NaN] and the infinities are written
    [null]. *)
Fixpoint JSON_stringify (v : JsVal) : option JsVal :=
  match v with
  | JUndefined => None
  | JNum NaN | JNum (Infinity _) => Some JNull
  | JArr l =>
      Some (JArr (map (fun e => match JSON_stringify e with
                                | Some j => j
                                | None => JNull
                                end) l))
  | JObj ps =>
      Some (JObj ((fix props (ps : list (string * JsVal)) : list (string * JsVal) :=
                     match ps with
                     | [] => []
                     | (k, x) :: rest =>
                         match JSON_stringify x with
                         | Some j => (k, j) :: props rest
                         | None => props rest
                         end
                     end) ps))
  | _ => Some v
  end.

(** The properties [JSON.stringify] writes for an object. *)
Fixpoint stringify_props (ps : JsObject) : JsObject :=
  match ps with
  | [] => []
  | (k, x) :: rest =>
      match JSON_stringify x with
      | Some j => (k, j) :: stringify_props rest
      | None => stringify_props rest
      end
  end.


(** ** The outside world *)

Inductive Method : Type := GET | POST | PUT | DELETE | PATCH.

(** One call of [fetch]: the URL, the method, the headers and the JSON
    document sent as body, if any. *)
Record HttpRequest : Type := {
  req_url : string;
  req_method : Method;
  req_headers : list (string * string);
  req_body : option JsVal
}.

Record Response : Type := {
  status : Z;
  body_text : string
}.

(** [response.ok]: the status is in the range 200-299. *)
Definition response_ok (r : Response) : bool :=
  (200 <=? status r) && (status r <=? 299).

(** What a call of [fetch] comes to: a rejection (no response at all) or a
    response. *)
Inductive FetchOutcome : Type :=
| FetchFailed (message : string)
| FetchResponse (r : Response).

(** The world outside the process: the remote service and the clock. *)
Record World : Type := {
  remote : HttpRequest -> FetchOutcome;
  clock : Z
}.

Record ClockifyConfig : Type := {
  apiKey : string;
  baseUrl : string
}.

(** The constructor's configuration:
    [apiKey: process.env.CLOCKIFY_API_KEY || ""]. *)
Definition config_of_env (CLOCKIFY_API_KEY : option string) : ClockifyConfig :=
  {| apiKey := match CLOCKIFY_API_KEY with Some k => k | None => "" end;
     baseUrl := "https://api.clockify.me/api/v1" |}.

Definition reports_base : string := "https://reports.api.clockify.me/v1".

(** ** The monad of the handlers *)

Inductive Outcome (A : Type) : Type :=
| Ok (a : A)
| Throw (e : Exn).
Arguments Ok {A} a.
Arguments Throw {A} e.

(** The log of requests issued so far goes in; the outcome and the log
    extended by the requests of this computation come out. *)
Definition M (A : Type) : Type := list HttpRequest -> Outcome A * list HttpRequest.

Definition ret {A : Type} (a : A) : M A := fun log => (Ok a, log).

Definition throw {A : Type} (e : Exn) : M A := fun log => (Throw e, log).

Definition bind {A B : Type} (c : M A) (k : A -> M B) : M B :=
  fun log =>
    match c log with
    | (Ok a, log') => k a log'
    | (Throw e, log') => (Throw e, log')
    end.

(** [try { c } catch (error) { handler(error) }] *)
Definition try_catch {A : Type} (c : M A) (handler : Exn -> M A) : M A :=
  fun log =>
    match c log with
    | (Ok a, log') => (Ok a, log')
    | (Throw e, log') => handler e log'
    end.

Notation "x <- c ;; k" := (bind c (fun x => k))
  (at level 61, c at next level, right associativity).

Fixpoint mapM {A B : Type} (f : A -> M B) (l : list A) : M (list B) :=
  match l with
  | [] => ret []
  | x :: rest => y <- f x ;; ys <- mapM f rest ;; ret (y :: ys)
  end.

(** The requests an invocation issues, started on an empty log. *)
Definition run {A : Type} (c : M A) : Outcome A * list HttpRequest := c [].


(** [l.forEach(x => { s = f(s, x) })]: the loop stops at the first throw. *)
Fixpoint for_each {A S : Type} (f : S -> A -> M S) (l : list A) (s : S) : M S :=
  match l with
  | [] => ret s
  | x :: rest => s' <- f s x ;; for_each f rest s'
  end.

(** *** Conversions that can throw *)

(** [String(v)], also the conversion a template literal applies to the
    value of a substitution. *)
Definition to_string (rt : Runtime) (v : JsVal) : M string :=
  if stringable v then ret (ToString rt v) else throw (NativeError NotPrimitive).

(** One substitution of a template literal: the expression is evaluated
    and its value converted, before the next substitution is evaluated. *)
Definition shown (rt : Runtime) (c : M JsVal) : M string :=
  v <- c ;; to_string rt v.

(** [ToPrimitive]: an array or an object is converted to its string (with
    either hint the inherited [valueOf] returns the object itself and the
    conversion falls to [toString]); a primitive stays. *)
Definition to_primitive (rt : Runtime) (v : JsVal) : M JsVal :=
  match v with
  | JArr _ | JObj _ => s <- to_string rt v ;; ret (JStr s)
  | _ => ret v
  end.

(** [ToNumber] of a primitive. *)
Definition prim_number (rt : Runtime) (p : JsVal) : Number :=
  match p with
  | JNull => Int 0
  | JBool b => Int (if b then 1 else 0)
  | JNum x => x
  | JStr s => string_to_number rt s
  | _ => NaN
  end.

(** [ToNumber] *)
Definition ToNumber (rt : Runtime) (v : JsVal) : M Number :=
  p <- to_primitive rt v ;; ret (prim_number rt p).

(** [x <= y] on Numbers other than [NaN]. *)
Definition Number_leb (x y : Number) : bool :=
  match x, y with
  | Infinity true, _ => true
  | _, Infinity false => true
  | Infinity false, _ => false
  | _, Infinity true => false
  | Int a, Int b => a <=? b
  | Int a, Frac n d => a * Zpos d <=? n
  | Frac n d, Int b => n <=? b * Zpos d
  | Frac n d, Frac n' d' => n * Zpos d' <=? n' * Zpos d
  | NaN, _ | _, NaN => false
  end.

(** The smaller of two Numbers, [NaN] when either is. *)
Definition Number_min (x y : Number) : Number :=
  match x, y with
  | NaN, _ | _, NaN => NaN
  | _, _ => if Number_leb x y then x else y
  end.

(** [Math.min(a, b)]: both arguments are converted, then compared. *)
Definition Math_min (rt : Runtime) (a b : JsVal) : M JsVal :=
  x <- ToNumber rt a ;; y <- ToNumber rt b ;; ret (JNum (Number_min x y)).

(** *** The query of a list request *)

(** The loop every list handler runs over the remaining arguments:
    [Object.entries(params).forEach(([key, value]) => { if (value !==
    undefined && value !== null) queryParams.append(key, String(value)) })]. *)
Definition append_defined (rt : Runtime) (q : URLSearchParams) (kv : string * JsVal)
    : M URLSearchParams :=
  if is_nullish (snd kv) then ret q
  else s <- to_string rt (snd kv) ;; ret (append_param q (fst kv) s).

Definition build_query (rt : Runtime) (params : JsObject) : M URLSearchParams :=
  for_each (append_defined rt) params [].

(** ** The operation catalogue

    The descriptors the [ListToolsRequestSchema] handler returns: each
    tool's name, the arguments its [inputSchema] lists and the ones it
    declares [required]. *)

Record ToolDescriptor : Type := {
  tool_name : string;
  properties : list string;
  required : list string
}.

Definition catalogue : list ToolDescriptor :=
  [
    {| tool_name := "get_current_user";
       properties := [];
       required := [] |};
    {| tool_name := "get_workspaces";
       properties := [];
       required := [] |};
    {| tool_name := "get_workspace_users";
       properties := ["workspaceId"];
       required := ["workspaceId"] |};
    {| tool_name := "create_time_entry";
       properties := ["workspaceId"; "description"; "start"; "end"; "projectId"; "taskId"; "tagIds"; "billable"];
       required := ["workspaceId"; "start"] |};
    {| tool_name := "get_time_entries";
       properties := ["workspaceId"; "userId"; "description"; "start"; "end"; "project"; "task"; "tags"; "projectRequired"; "taskRequired"; "consideredRunning"; "hydrated"; "inProgress"; "page"; "pageSize"];
       required := ["workspaceId"] |};
    {| tool_name := "update_time_entry";
       properties := ["workspaceId"; "timeEntryId"; "description"; "start"; "end"; "projectId"; "taskId"; "tagIds"; "billable"];
       required := ["workspaceId"; "timeEntryId"] |};
    {| tool_name := "delete_time_entry";
       properties := ["workspaceId"; "timeEntryId"];
       required := ["workspaceId"; "timeEntryId"] |};
    {| tool_name := "stop_time_entry";
       properties := ["workspaceId"; "userId"; "end"];
       required := ["workspaceId"; "userId"] |};
    {| tool_name := "create_project";
       properties := ["workspaceId"; "name"; "clientId"; "isPublic"; "billable"; "color"; "estimate"];
       required := ["workspaceId"; "name"] |};
    {| tool_name := "get_projects";
       properties := ["workspaceId"; "archived"; "name"; "clientIds"; "containsClient"; "clientStatus"; "users"; "isTemplate"; "sortColumn"; "sortOrder"; "page"; "pageSize"];
       required := ["workspaceId"] |};
    {| tool_name := "get_project";
       properties := ["workspaceId"; "projectId"];
       required := ["workspaceId"; "projectId"] |};
    {| tool_name := "update_project";
       properties := ["workspaceId"; "projectId"; "name"; "clientId"; "isPublic"; "billable"; "color"; "archived"];
       required := ["workspaceId"; "projectId"] |};
    {| tool_name := "delete_project";
       properties := ["workspaceId"; "projectId"];
       required := ["workspaceId"; "projectId"] |};
    {| tool_name := "create_task";
       properties := ["workspaceId"; "projectId"; "name"; "assigneeIds"; "estimate"; "status"];
       required := ["workspaceId"; "projectId"; "name"] |};
    {| tool_name := "get_tasks";
       properties := ["workspaceId"; "projectId"; "isActive"; "name"; "page"; "pageSize"];
       required := ["workspaceId"; "projectId"] |};
    {| tool_name := "get_task";
       properties := ["workspaceId"; "projectId"; "taskId"];
       required := ["workspaceId"; "projectId"; "taskId"] |};
    {| tool_name := "update_task";
       properties := ["workspaceId"; "projectId"; "taskId"; "name"; "assigneeIds"; "estimate"; "status"];
       required := ["workspaceId"; "projectId"; "taskId"] |};
    {| tool_name := "delete_task";
       properties := ["workspaceId"; "projectId"; "taskId"];
       required := ["workspaceId"; "projectId"; "taskId"] |};
    {| tool_name := "create_client";
       properties := ["workspaceId"; "name"; "archived"];
       required := ["workspaceId"; "name"] |};
    {| tool_name := "get_clients";
       properties := ["workspaceId"; "archived"; "name"; "page"; "pageSize"];
       required := ["workspaceId"] |};
    {| tool_name := "update_client";
       properties := ["workspaceId"; "clientId"; "name"; "archived"];
       required := ["workspaceId"; "clientId"] |};
    {| tool_name := "delete_client";
       properties := ["workspaceId"; "clientId"];
       required := ["workspaceId"; "clientId"] |};
    {| tool_name := "create_tag";
       properties := ["workspaceId"; "name"; "archived"];
       required := ["workspaceId"; "name"] |};
    {| tool_name := "get_tags";
       properties := ["workspaceId"; "archived"; "name"; "page"; "pageSize"];
       required := ["workspaceId"] |};
    {| tool_name := "update_tag";
       properties := ["workspaceId"; "tagId"; "name"; "archived"];
       required := ["workspaceId"; "tagId"] |};
    {| tool_name := "delete_tag";
       properties := ["workspaceId"; "tagId"];
       required := ["workspaceId"; "tagId"] |};
    {| tool_name := "get_detailed_report";
       properties := ["workspaceId"; "dateRangeStart"; "dateRangeEnd"; "users"; "clients"; "projects"; "tasks"; "tags"; "billable"; "description"; "withoutDescription"; "customFieldIds"; "sortColumn"; "sortOrder"; "page"; "pageSize"; "exportType"];
       required := ["workspaceId"; "dateRangeStart"; "dateRangeEnd"] |};
    {| tool_name := "get_summary_report";
       properties := ["workspaceId"; "dateRangeStart"; "dateRangeEnd"; "users"; "clients"; "projects"; "tasks"; "tags"; "billable"; "groups"; "sortColumn"; "sortOrder"; "exportType"];
       required := ["workspaceId"; "dateRangeStart"; "dateRangeEnd"] |}
  ].

Definition tool_names : list string := map tool_name catalogue.

(** ** The server *)

Definition nl : string := String (ascii_of_nat 10) EmptyString.

(** A tool result: [{content: [{type: "text", text}], isError}]. *)
Record ToolResult : Type := {
  text : string;
  isError : bool
}.

Definition text_result (t : string) : ToolResult := {| text := t; isError := false |}.

(** [v.k] on a value that is neither [undefined] nor [null].  Of the
    inherited properties only [length] is read by this program. *)
Definition get_prop (v : JsVal) (k : string) : JsVal :=
  match v with
  | JObj o => lookup k o
  | JArr l =>
      if (k =? "length")%string then JNum (Int (Z.of_nat (List.length l)))
      else JUndefined
  | JStr s => if (k =? "length")%string then JNum (Int (utf16_length s)) else JUndefined
  | _ => JUndefined
  end.

(** [v.k] *)
Definition read (v : JsVal) (k : string) : M JsVal :=
  if is_nullish v then throw (NativeError (NullishAccess v k)) else ret (get_prop v k).

(** [v?.k] *)
Definition read_opt (v : JsVal) (k : string) : JsVal :=
  if is_nullish v then JUndefined else get_prop v k.

(** [v?.[0]] *)
Definition first_opt (v : JsVal) : JsVal :=
  match v with
  | JArr (x :: _) => x
  | JStr (String c _) => JStr (String c EmptyString)
  | JObj o => lookup "0" o
  | _ => JUndefined
  end.

(** [xs.map(f)] with [f] rendering one line. *)
Definition map_lines (xs : JsVal) (f : JsVal -> M string) : M (list string) :=
  match xs with
  | JArr l => mapM f l
  | JUndefined | JNull => throw (NativeError (NullishAccess xs "map"))
  | _ => throw (NativeError (NotCallable xs "map"))
  end.

(** [v.includes("T")]: a substring test on a string, a membership test on
    an array, a TypeError on anything else. *)
Definition includes_T (v : JsVal) : M bool :=
  match v with
  | JUndefined | JNull => throw (NativeError (NullishAccess v "includes"))
  | JStr s => ret (includes_char "T"%char s)
  | JArr l => ret (existsb (is_string "T") l)
  | _ => throw (NativeError (NotCallable v "includes"))
  end.

(** [groups?.join(", ")]: [undefined] on [undefined] or [null], the joined
    elements of an array when each converts, a TypeError on anything
    else. *)
Definition join_opt (rt : Runtime) (v : JsVal) : M JsVal :=
  match v with
  | JUndefined | JNull => ret JUndefined
  | JArr l =>
      if forallb stringable l then ret (JStr (array_join rt ", " l))
      else throw (NativeError NotPrimitive)
  | _ => throw (NativeError (NotCallable v "join"))
  end.

(** [TimeClip] *)
Definition time_clip (t : Z) : option Z :=
  if Z.abs t <=? 8640000000000000 then Some t else None.

(** [{ ids: v }] when [v] is truthy, [undefined] otherwise. *)
Definition ids_filter (v : JsVal) : JsVal :=
  if truthy v then JObj [("ids", v)] else JUndefined.

(** The loop [Object.keys(payload).forEach(key => { if (payload[key] ===
    undefined) delete payload[key] })]. *)
Definition strip_undefined (payload : JsObject) : JsObject :=
  fold_left
    (fun p key => if is_undefined (lookup key p) then remove_key key p else p)
    (map fst payload) payload.

Section Server.

Variable rt : Runtime.
Variable world : World.
Variable config : ClockifyConfig.

(** [JSON.parse]: the empty text is no JSON value. *)
Definition JSON_parse (s : string) : option JsVal :=
  if (s =? "")%string then None else json_parse_nonempty rt s.

(** [Date.parse] *)
Definition Date_parse (s : string) : option Z :=
  match parse_iso_date s with
  | Some t => Some t
  | None => date_parse_fallback rt s
  end.

(** The time value of [new Date(p)] for a primitive [p]: a string is
    parsed, anything else converted to a Number and truncated; [None] is
    an invalid Date. *)
Definition new_Date (v : JsVal) : option Z :=
  match v with
  | JStr s => match Date_parse s with Some t => time_clip t | None => None end
  | _ =>
      match prim_number rt v with
      | Int z => time_clip z
      | Frac n d => time_clip (Z.quot n (Zpos d))
      | _ => None
      end
  end.

(** [new Date(v)]: [v] is converted to a primitive first. *)
Definition Date_construct (v : JsVal) : M (option Z) :=
  p <- to_primitive rt v ;; ret (new_Date p).


(** [d.toISOString()] *)
Definition Date_toISOString (d : option Z) : M string :=
  match d with
  | Some t => ret (toISOString t)
  | None => throw (NativeError InvalidTime)
  end.

(** What both [catch] blocks of the program throw:
    [if (error instanceof McpError) throw error; throw new McpError(
    ErrorCode.InternalError, `${prefix}${error.message}`)]. *)
Definition rethrow (prefix : string) (error : Exn) : Exn :=
  match error with
  | McpError _ _ => error
  | NativeError f => McpError InternalError (prefix ++ fault_message rt f)
  | FetchError m => McpError InternalError (prefix ++ m)
  end.

(** [fetch(url, {method, headers, body})]: the request goes out, and the
    call resolves to a response or rejects. *)
Definition fetch (req : HttpRequest) : M Response :=
  fun log =>
    match remote world req with
    | FetchResponse r => (Ok r, (log ++ [req])%list)
    | FetchFailed m => (Throw (FetchError m), (log ++ [req])%list)
    end.

(** [response.json()] *)
Definition response_json (r : Response) : M JsVal :=
  match JSON_parse (body_text r) with
  | Some v => ret v
  | None => throw (NativeError (BadJson (body_text r)))
  end.

(** The request [makeRequest] hands to [fetch]: the URL is
    [`${baseUrl || this.config.baseUrl}${endpoint}`], the body
    [data ? JSON.stringify(data) : undefined]. *)
Definition request_for (endpoint : string) (method : Method) (data : JsVal)
    (base : option string) : HttpRequest :=
  let url :=
    match base with
    | Some b => if (b =? "")%string then baseUrl config else b
    | None => baseUrl config
    end ++ endpoint in
  let headers := [("X-Api-Key", apiKey config); ("Content-Type", "application/json")] in
  {| req_url := url;
     req_method := method;
     req_headers := headers;
     req_body := if truthy data then JSON_stringify data else None |}.

(** [makeRequest(endpoint, method = "GET", data?, baseUrl?)].  The [try]
    block returns the promise of [response.json()] without awaiting it, so
    its rejection is settled outside the [catch]. *)
Definition makeRequest (endpoint : string) (method : Method) (data : JsVal)
    (base : option string) : M JsVal :=
  if (apiKey config =? "")%string then
    throw (McpError InvalidParams
             "Clockify API key not configured. Set CLOCKIFY_API_KEY environment variable.")
  else
    pending <-
      try_catch
        (response <- fetch (request_for endpoint method data base) ;;
         if negb (response_ok response) then
           throw (McpError InternalError
                    ("Clockify API error (" ++ Z_to_string (status response) ++ "): "
                       ++ body_text response))
         else ret (response_json response))
        (fun error => throw (rethrow "Request failed: " error)) ;;
    pending.


(** [x.k || d] *)
Definition read_or (x : JsVal) (k : string) (d : JsVal) : M JsVal :=
  v <- read x k ;; ret (js_or v d).

(** *** User and workspace handlers *)

Definition getCurrentUser : M ToolResult :=
  user <- makeRequest "/user" GET JUndefined None ;;
  name <- shown rt (read user "name") ;;
  email <- shown rt (read user "email") ;;
  active <- shown rt (read user "activeWorkspace") ;;
  id <- shown rt (read user "id") ;;
  ret (text_result
         ("Current user: " ++ name ++ " (" ++ email ++ ")" ++ nl
            ++ "Active Workspace: " ++ active ++ nl
            ++ "User ID: " ++ id)).

Definition getWorkspaces : M ToolResult :=
  workspaces <- makeRequest "/workspaces" GET JUndefined None ;;
  n <- shown rt (read workspaces "length") ;;
  lines <- map_lines workspaces
             (fun w =>
                name <- shown rt (read w "name") ;;
                id <- shown rt (read w "id") ;;
                ret ("- " ++ name ++ " (" ++ id ++ ")")) ;;
  ret (text_result ("Found " ++ n ++ " workspace(s):" ++ nl ++ join nl lines)).

Definition getWorkspaceUsers (workspaceId : JsVal) : M ToolResult :=
  ws <- to_string rt workspaceId ;;
  users <- makeRequest ("/workspaces/" ++ ws ++ "/users") GET JUndefined None ;;
  n <- shown rt (read users "length") ;;
  lines <- map_lines users
             (fun u =>
                name <- shown rt (read u "name") ;;
                email <- shown rt (read u "email") ;;
                id <- shown rt (read u "id") ;;
                ret ("- " ++ name ++ " (" ++ email ++ ") - " ++ id)) ;;
  ret (text_result
         ("Found " ++ n ++ " user(s) in workspace:" ++ nl ++ join nl lines)).

(** *** Time entry handlers *)

(** The text both [createTimeEntry] and [updateTimeEntry] render. *)
Definition render_time_entry (headline : string) (timeEntry : JsVal) : M ToolResult :=
  id <- shown rt (read timeEntry "id") ;;
  description <- shown rt (read_or timeEntry "description" (JStr "No description")) ;;
  start <- shown rt (interval <- read timeEntry "timeInterval" ;;
                     read interval "start") ;;
  stop <- shown rt (interval <- read timeEntry "timeInterval" ;;
                    read_or interval "end" (JStr "Ongoing")) ;;
  ret (text_result
         (headline ++ nl ++ "ID: " ++ id ++ nl
            ++ "Description: " ++ description ++ nl
            ++ "Start: " ++ start ++ nl
            ++ "End: " ++ stop)).

(** [data.k = new Date(data.k).toISOString()] *)
Definition reserialize (k : string) (data : JsObject) : M JsObject :=
  d <- Date_construct (lookup k data) ;;
  iso <- Date_toISOString d ;;
  ret (assign k (JStr iso) data).

(** [if (!data.k.includes("T")) data.k = new Date(data.k).toISOString()] *)
Definition normalize_required (k : string) (data : JsObject) : M JsObject :=
  has_T <- includes_T (lookup k data) ;;
  if negb has_T then reserialize k data else ret data.

(** [if (data.k && !data.k.includes("T")) data.k = new Date(data.k).toISOString()] *)
Definition normalize_if_present (k : string) (data : JsObject) : M JsObject :=
  if truthy (lookup k data) then normalize_required k data else ret data.

Definition createTimeEntry (args : JsObject) : M ToolResult :=
  let workspaceId := lookup "workspaceId" args in
  let timeEntryData := remove_key "workspaceId" args in
  timeEntryData <- normalize_required "start" timeEntryData ;;
  timeEntryData <- normalize_if_present "end" timeEntryData ;;
  ws <- to_string rt workspaceId ;;
  timeEntry <- makeRequest ("/workspaces/" ++ ws ++ "/time-entries") POST
                 (JObj timeEntryData) None ;;
  render_time_entry "Time entry created successfully!" timeEntry.

Definition updateTimeEntry (args : JsObject) : M ToolResult :=
  let workspaceId := lookup "workspaceId" args in
  let timeEntryId := lookup "timeEntryId" args in
  let updateData := remove_key "timeEntryId" (remove_key "workspaceId" args) in
  updateData <- normalize_if_present "start" updateData ;;
  updateData <- normalize_if_present "end" updateData ;;
  ws <- to_string rt workspaceId ;;
  id <- to_string rt timeEntryId ;;
  timeEntry <- makeRequest ("/workspaces/" ++ ws ++ "/time-entries/" ++ id) PUT
                 (JObj updateData) None ;;
  render_time_entry "Time entry updated successfully!" timeEntry.

Definition getTimeEntries (args : JsObject) : M ToolResult :=
  let workspaceId := lookup "workspaceId" args in
  let userId := lookup "userId" args in
  let params := remove_key "userId" (remove_key "workspaceId" args) in
  queryParams <- build_query rt params ;;
  endpoint <-
    (if truthy userId
     then ws <- to_string rt workspaceId ;;
          user <- to_string rt userId ;;
          ret ("/workspaces/" ++ ws ++ "/user/" ++ user ++ "/time-entries")
     else ws <- to_string rt workspaceId ;;
          ret ("/workspaces/" ++ ws ++ "/time-entries")) ;;
  timeEntries <- makeRequest (with_query endpoint queryParams) GET JUndefined None ;;
  n <- shown rt (read timeEntries "length") ;;
  lines <- map_lines timeEntries
             (fun entry =>
                description <-
                  shown rt (read_or entry "description" (JStr "No description")) ;;
                start <- shown rt (interval <- read entry "timeInterval" ;;
                                   read interval "start") ;;
                stop <- shown rt (interval <- read entry "timeInterval" ;;
                                  read_or interval "end" (JStr "Ongoing")) ;;
                duration <- shown rt (interval <- read entry "timeInterval" ;;
                                      read_or interval "duration" (JStr "Running")) ;;
                ret ("- " ++ description ++ " | " ++ start ++ " - " ++ stop
                       ++ " | " ++ duration)) ;;
  ret (text_result ("Found " ++ n ++ " time entries:" ++ nl ++ join nl lines)).

Definition deleteTimeEntry (workspaceId timeEntryId : JsVal) : M ToolResult :=
  ws <- to_string rt workspaceId ;;
  id <- to_string rt timeEntryId ;;
  _ <- makeRequest ("/workspaces/" ++ ws ++ "/time-entries/" ++ id)
         DELETE JUndefined None ;;
  deleted <- to_string rt timeEntryId ;;
  ret (text_result ("Time entry " ++ deleted ++ " deleted successfully!")).

Definition stopTimeEntry (args : JsObject) : M ToolResult :=
  let workspaceId := lookup "workspaceId" args in
  let userId := lookup "userId" args in
  let endTime := js_or (lookup "end" args) (JStr (toISOString (clock world))) in
  ws <- to_string rt workspaceId ;;
  user <- to_string rt userId ;;
  result <- makeRequest ("/workspaces/" ++ ws ++ "/user/" ++ user ++ "/time-entries")
              PATCH (JObj [("end", endTime)]) None ;;
  stopped <- to_string rt endTime ;;
  duration <- shown rt (interval <- read result "timeInterval" ;;
                        read interval "duration") ;;
  ret (text_result
         ("Time entry stopped at " ++ stopped ++ nl ++ "Duration: " ++ duration)).

(** *** Project handlers *)

Definition createProject (args : JsObject) : M ToolResult :=
  let workspaceId := lookup "workspaceId" args in
  let projectData := remove_key "workspaceId" args in
  ws <- to_string rt workspaceId ;;
  project <- makeRequest ("/workspaces/" ++ ws ++ "/projects") POST
               (JObj projectData) None ;;
  id <- shown rt (read project "id") ;;
  name <- shown rt (read project "name") ;;
  clientName <- shown rt (read_or project "clientName" (JStr "No client")) ;;
  public <- shown rt (read project "public") ;;
  billable <- shown rt (read project "billable") ;;
  ret (text_result
         ("Project created successfully!" ++ nl ++ "ID: " ++ id ++ nl
            ++ "Name: " ++ name ++ nl
            ++ "Client: " ++ clientName ++ nl
            ++ "Public: " ++ public ++ nl
            ++ "Billable: " ++ billable)).

(** The endpoint is [qs ? `/workspaces/${workspaceId}/projects?${qs}` :
    `/workspaces/${workspaceId}/projects`]: either template converts
    [workspaceId] once the loop has run. *)
Definition getProjects (args : JsObject) : M ToolResult :=
  let workspaceId := lookup "workspaceId" args in
  let params := remove_key "workspaceId" args in
  queryParams <- build_query rt params ;;
  ws <- to_string rt workspaceId ;;
  projects <- makeRequest (with_query ("/workspaces/" ++ ws ++ "/projects") queryParams)
                GET JUndefined None ;;
  n <- shown rt (read projects "length") ;;
  lines <- map_lines projects
             (fun p =>
                name <- shown rt (read p "name") ;;
                id <- shown rt (read p "id") ;;
                clientName <- shown rt (read_or p "clientName" (JStr "None")) ;;
                billable <- shown rt (read p "billable") ;;
                ret ("- " ++ name ++ " (" ++ id ++ ") | Client: " ++ clientName
                       ++ " | Billable: " ++ billable)) ;;
  ret (text_result ("Found " ++ n ++ " project(s):" ++ nl ++ join nl lines)).

Definition getProject (workspaceId projectId : JsVal) : M ToolResult :=
  ws <- to_string rt workspaceId ;;
  pid <- to_string rt projectId ;;
  project <- makeRequest ("/workspaces/" ++ ws ++ "/projects/" ++ pid)
               GET JUndefined None ;;
  name <- shown rt (read project "name") ;;
  id <- shown rt (read project "id") ;;
  clientName <- shown rt (read_or project "clientName" (JStr "No client")) ;;
  public <- shown rt (read project "public") ;;
  billable <- shown rt (read project "billable") ;;
  color <- shown rt (read project "color") ;;
  archived <- shown rt (read project "archived") ;;
  ret (text_result
         ("Project Details:" ++ nl ++ "Name: " ++ name ++ nl
            ++ "ID: " ++ id ++ nl
            ++ "Client: " ++ clientName ++ nl
            ++ "Public: " ++ public ++ nl
            ++ "Billable: " ++ billable ++ nl
            ++ "Color: " ++ color ++ nl
            ++ "Archived: " ++ archived)).

Definition updateProject (args : JsObject) : M ToolResult :=
  let workspaceId := lookup "workspaceId" args in
  let projectId := lookup "projectId" args in
  let updateData := remove_key "projectId" (remove_key "workspaceId" args) in
  ws <- to_string rt workspaceId ;;
  pid <- to_string rt projectId ;;
  project <- makeRequest ("/workspaces/" ++ ws ++ "/projects/" ++ pid) PUT
               (JObj updateData) None ;;
  name <- shown rt (read project "name") ;;
  clientName <- shown rt (read_or project "clientName" (JStr "No client")) ;;
  billable <- shown rt (read project "billable") ;;
  ret (text_result
         ("Project updated successfully!" ++ nl ++ "Name: " ++ name ++ nl
            ++ "Client: " ++ clientName ++ nl
            ++ "Billable: " ++ billable)).

Definition deleteProject (workspaceId projectId : JsVal) : M ToolResult :=
  ws <- to_string rt workspaceId ;;
  pid <- to_string rt projectId ;;
  _ <- makeRequest ("/workspaces/" ++ ws ++ "/projects/" ++ pid)
         DELETE JUndefined None ;;
  deleted <- to_string rt projectId ;;
  ret (text_result ("Project " ++ deleted ++ " deleted successfully!")).

(** *** Task handlers *)

(** [`/workspaces/${workspaceId}/projects/${projectId}/tasks`] *)
Definition tasks_path (workspaceId projectId : JsVal) : M string :=
  ws <- to_string rt workspaceId ;;
  pid <- to_string rt projectId ;;
  ret ("/workspaces/" ++ ws ++ "/projects/" ++ pid ++ "/tasks").

Definition createTask (args : JsObject) : M ToolResult :=
  let workspaceId := lookup "workspaceId" args in
  let projectId := lookup "projectId" args in
  let taskData := remove_key "projectId" (remove_key "workspaceId" args) in
  path <- tasks_path workspaceId projectId ;;
  task <- makeRequest path POST (JObj taskData) None ;;
  id <- shown rt (read task "id") ;;
  name <- shown rt (read task "name") ;;
  project <- to_string rt projectId ;;
  status <- shown rt (read task "status") ;;
  estimate <- shown rt (read_or task "estimate" (JStr "No estimate")) ;;
  ret (text_result
         ("Task created successfully!" ++ nl ++ "ID: " ++ id ++ nl
            ++ "Name: " ++ name ++ nl
            ++ "Project: " ++ project ++ nl
            ++ "Status: " ++ status ++ nl
            ++ "Estimate: " ++ estimate)).

(** The endpoint is [qs ? `${tasks}?${qs}` : tasks] with the tasks path
    written out in either template. *)
Definition getTasks (args : JsObject) : M ToolResult :=
  let workspaceId := lookup "workspaceId" args in
  let projectId := lookup "projectId" args in
  let params := remove_key "projectId" (remove_key "workspaceId" args) in
  queryParams <- build_query rt params ;;
  path <- tasks_path workspaceId projectId ;;
  tasks <- makeRequest (with_query path queryParams) GET JUndefined None ;;
  n <- shown rt (read tasks "length") ;;
  lines <- map_lines tasks
             (fun t =>
                name <- shown rt (read t "name") ;;
                id <- shown rt (read t "id") ;;
                status <- shown rt (read t "status") ;;
                estimate <- shown rt (read_or t "estimate" (JStr "None")) ;;
                ret ("- " ++ name ++ " (" ++ id ++ ") | Status: " ++ status
                       ++ " | Estimate: " ++ estimate)) ;;
  ret (text_result ("Found " ++ n ++ " task(s):" ++ nl ++ join nl lines)).

(** [`/workspaces/${workspaceId}/projects/${projectId}/tasks/${taskId}`] *)
Definition task_path (workspaceId projectId taskId : JsVal) : M string :=
  path <- tasks_path workspaceId projectId ;;
  tid <- to_string rt taskId ;;
  ret (path ++ "/" ++ tid).

Definition getTask (workspaceId projectId taskId : JsVal) : M ToolResult :=
  path <- task_path workspaceId projectId taskId ;;
  task <- makeRequest path GET JUndefined None ;;
  name <- shown rt (read task "name") ;;
  id <- shown rt (read task "id") ;;
  project <- to_string rt projectId ;;
  status <- shown rt (read task "status") ;;
  estimate <- shown rt (read_or task "estimate" (JStr "No estimate")) ;;
  assignees <- shown rt (assigneeIds <- read task "assigneeIds" ;;
                         ret (js_or (read_opt assigneeIds "length") (JNum (Int 0)))) ;;
  ret (text_result
         ("Task Details:" ++ nl ++ "Name: " ++ name ++ nl
            ++ "ID: " ++ id ++ nl
            ++ "Project: " ++ project ++ nl
            ++ "Status: " ++ status ++ nl
            ++ "Estimate: " ++ estimate ++ nl
            ++ "Assignees: " ++ assignees)).

Definition updateTask (args : JsObject) : M ToolResult :=
  let workspaceId := lookup "workspaceId" args in
  let projectId := lookup "projectId" args in
  let taskId := lookup "taskId" args in
  let updateData :=
    remove_key "taskId" (remove_key "projectId" (remove_key "workspaceId" args)) in
  path <- task_path workspaceId projectId taskId ;;
  task <- makeRequest path PUT (JObj updateData) None ;;
  name <- shown rt (read task "name") ;;
  status <- shown rt (read task "status") ;;
  estimate <- shown rt (read_or task "estimate" (JStr "No estimate")) ;;
  ret (text_result
         ("Task updated successfully!" ++ nl ++ "Name: " ++ name ++ nl
            ++ "Status: " ++ status ++ nl
            ++ "Estimate: " ++ estimate)).

Definition deleteTask (workspaceId projectId taskId : JsVal) : M ToolResult :=
  path <- task_path workspaceId projectId taskId ;;
  _ <- makeRequest path DELETE JUndefined None ;;
  deleted <- to_string rt taskId ;;
  ret (text_result ("Task " ++ deleted ++ " deleted successfully!")).

(** *** Client handlers *)

Definition createClient (args : JsObject) : M ToolResult :=
  let workspaceId := lookup "workspaceId" args in
  let clientData := remove_key "workspaceId" args in
  ws <- to_string rt workspaceId ;;
  client <- makeRequest ("/workspaces/" ++ ws ++ "/clients") POST
              (JObj clientData) None ;;
  id <- shown rt (read client "id") ;;
  name <- shown rt (read client "name") ;;
  archived <- shown rt (read client "archived") ;;
  ret (text_result
         ("Client created successfully!" ++ nl ++ "ID: " ++ id ++ nl
            ++ "Name: " ++ name ++ nl
            ++ "Archived: " ++ archived)).

Definition getClients (args : JsObject) : M ToolResult :=
  let workspaceId := lookup "workspaceId" args in
  let params := remove_key "workspaceId" args in
  queryParams <- build_query rt params ;;
  ws <- to_string rt workspaceId ;;
  clients <- makeRequest (with_query ("/workspaces/" ++ ws ++ "/clients") queryParams)
               GET JUndefined None ;;
  n <- shown rt (read clients "length") ;;
  lines <- map_lines clients
             (fun x =>
                name <- shown rt (read x "name") ;;
                id <- shown rt (read x "id") ;;
                archived <- shown rt (read x "archived") ;;
                ret ("- " ++ name ++ " (" ++ id ++ ") | Archived: " ++ archived)) ;;
  ret (text_result ("Found " ++ n ++ " client(s):" ++ nl ++ join nl lines)).

Definition updateClient (args : JsObject) : M ToolResult :=
  let workspaceId := lookup "workspaceId" args in
  let clientId := lookup "clientId" args in
  let updateData := remove_key "clientId" (remove_key "workspaceId" args) in
  ws <- to_string rt workspaceId ;;
  cid <- to_string rt clientId ;;
  client <- makeRequest ("/workspaces/" ++ ws ++ "/clients/" ++ cid) PUT
              (JObj updateData) None ;;
  name <- shown rt (read client "name") ;;
  archived <- shown rt (read client "archived") ;;
  ret (text_result
         ("Client updated successfully!" ++ nl ++ "Name: " ++ name ++ nl
            ++ "Archived: " ++ archived)).

Definition deleteClient (workspaceId clientId : JsVal) : M ToolResult :=
  ws <- to_string rt workspaceId ;;
  cid <- to_string rt clientId ;;
  _ <- makeRequest ("/workspaces/" ++ ws ++ "/clients/" ++ cid)
         DELETE JUndefined None ;;
  deleted <- to_string rt clientId ;;
  ret (text_result ("Client " ++ deleted ++ " deleted successfully!")).

(** *** Tag handlers *)

Definition createTag (args : JsObject) : M ToolResult :=
  let workspaceId := lookup "workspaceId" args in
  let tagData := remove_key "workspaceId" args in
  ws <- to_string rt workspaceId ;;
  tag <- makeRequest ("/workspaces/" ++ ws ++ "/tags") POST (JObj tagData) None ;;
  id <- shown rt (read tag "id") ;;
  name <- shown rt (read tag "name") ;;
  archived <- shown rt (read tag "archived") ;;
  ret (text_result
         ("Tag created successfully!" ++ nl ++ "ID: " ++ id ++ nl
            ++ "Name: " ++ name ++ nl
            ++ "Archived: " ++ archived)).

Definition getTags (args : JsObject) : M ToolResult :=
  let workspaceId := lookup "workspaceId" args in
  let params := remove_key "workspaceId" args in
  queryParams <- build_query rt params ;;
  ws <- to_string rt workspaceId ;;
  tags <- makeRequest (with_query ("/workspaces/" ++ ws ++ "/tags") queryParams)
            GET JUndefined None ;;
  n <- shown rt (read tags "length") ;;
  lines <- map_lines tags
             (fun t =>
                name <- shown rt (read t "name") ;;
                id <- shown rt (read t "id") ;;
                archived <- shown rt (read t "archived") ;;
                ret ("- " ++ name ++ " (" ++ id ++ ") | Archived: " ++ archived)) ;;
  ret (text_result ("Found " ++ n ++ " tag(s):" ++ nl ++ join nl lines)).

Definition updateTag (args : JsObject) : M ToolResult :=
  let workspaceId := lookup "workspaceId" args in
  let tagId := lookup "tagId" args in
  let updateData := remove_key "tagId" (remove_key "workspaceId" args) in
  ws <- to_string rt workspaceId ;;
  tid <- to_string rt tagId ;;
  tag <- makeRequest ("/workspaces/" ++ ws ++ "/tags/" ++ tid) PUT
           (JObj updateData) None ;;
  name <- shown rt (read tag "name") ;;
  archived <- shown rt (read tag "archived") ;;
  ret (text_result
         ("Tag updated successfully!" ++ nl ++ "Name: " ++ name ++ nl
            ++ "Archived: " ++ archived)).

Definition deleteTag (workspaceId tagId : JsVal) : M ToolResult :=
  ws <- to_string rt workspaceId ;;
  tid <- to_string rt tagId ;;
  _ <- makeRequest ("/workspaces/" ++ ws ++ "/tags/" ++ tid) DELETE JUndefined None ;;
  deleted <- to_string rt tagId ;;
  ret (text_result ("Tag " ++ deleted ++ " deleted successfully!")).

(** *** Report handlers *)

(** [totals?.[0]?.totalTime || "0:00:00"] *)
Definition total_time (totals : JsVal) : JsVal :=
  js_or (read_opt (first_opt totals) "totalTime") (JStr "0:00:00").

(** The [detailedFilter] object of the detailed report's payload, with the
    value [Math.min] returned for [pageSize]. *)
Definition detailed_filter (reportData : JsObject) (pageSize : JsVal) : JsObject :=
  [ ("sortColumn", js_or (lookup "sortColumn" reportData) (JStr "DATE"));
    ("sortOrder", js_or (lookup "sortOrder" reportData) (JStr "DESCENDING"));
    ("page", js_or (lookup "page" reportData) (JNum (Int 1)));
    ("pageSize", pageSize);
    ("options", JObj [("totals", JStr "CALCULATE")]) ].

Definition detailed_payload (reportData : JsObject) (pageSize : JsVal) : JsObject :=
  [ ("dateRangeStart", lookup "dateRangeStart" reportData);
    ("dateRangeEnd", lookup "dateRangeEnd" reportData);
    ("detailedFilter", JObj (detailed_filter reportData pageSize));
    ("users", ids_filter (lookup "users" reportData));
    ("clients", ids_filter (lookup "clients" reportData));
    ("projects", ids_filter (lookup "projects" reportData));
    ("tasks", ids_filter (lookup "tasks" reportData));
    ("tags", ids_filter (lookup "tags" reportData));
    ("billable", lookup "billable" reportData);
    ("description", lookup "description" reportData);
    ("withoutDescription", lookup "withoutDescription" reportData);
    ("customFieldIds", lookup "customFieldIds" reportData);
    ("exportType", js_or (lookup "exportType" reportData) (JStr "JSON")) ].

(** The only conversion in the payload literal is that of
    [Math.min(reportData.pageSize || 50, 1000)]. *)
Definition getDetailedReport (args : option JsObject) : M ToolResult :=
  match args with
  | None => throw (NativeError DestructureNullish)
  | Some args =>
      let workspaceId := lookup "workspaceId" args in
      let reportData := remove_key "workspaceId" args in
      pageSize <- Math_min rt (js_or (lookup "pageSize" reportData) (JNum (Int 50)))
                    (JNum (Int 1000)) ;;
      let payload := strip_undefined (detailed_payload reportData pageSize) in
      ws <- to_string rt workspaceId ;;
      report <- makeRequest ("/workspaces/" ++ ws ++ "/reports/detailed") POST
                  (JObj payload) (Some reports_base) ;;
      entries <- shown rt (timeentries <- read report "timeentries" ;;
                           ret (js_or (read_opt timeentries "length") (JNum (Int 0)))) ;;
      total <- shown rt (totals <- read report "totals" ;; ret (total_time totals)) ;;
      first <- to_string rt (lookup "dateRangeStart" reportData) ;;
      last <- to_string rt (lookup "dateRangeEnd" reportData) ;;
      ret (text_result
             ("Detailed Report Summary:" ++ nl
                ++ "Total Entries: " ++ entries ++ nl
                ++ "Total Duration: " ++ total ++ nl
                ++ "Date Range: " ++ first ++ " to " ++ last))
  end.

(** The [summaryFilter] object of the summary report's payload. *)
Definition summary_filter (reportData : JsObject) : JsObject :=
  [ ("groups", js_or (lookup "groups" reportData) (JArr [JStr "PROJECT"]));
    ("sortColumn", js_or (lookup "sortColumn" reportData) (JStr "DURATION"));
    ("sortOrder", js_or (lookup "sortOrder" reportData) (JStr "DESCENDING")) ].

Definition summary_payload (reportData : JsObject) : JsObject :=
  [ ("dateRangeStart", lookup "dateRangeStart" reportData);
    ("dateRangeEnd", lookup "dateRangeEnd" reportData);
    ("summaryFilter", JObj (summary_filter reportData));
    ("users", ids_filter (lookup "users" reportData));
    ("clients", ids_filter (lookup "clients" reportData));
    ("projects", ids_filter (lookup "projects" reportData));
    ("tasks", ids_filter (lookup "tasks" reportData));
    ("tags", ids_filter (lookup "tags" reportData));
    ("billable", lookup "billable" reportData);
    ("exportType", js_or (lookup "exportType" reportData) (JStr "JSON")) ].

Definition getSummaryReport (args : option JsObject) : M ToolResult :=
  match args with
  | None => throw (NativeError DestructureNullish)
  | Some args =>
      let workspaceId := lookup "workspaceId" args in
      let reportData := remove_key "workspaceId" args in
      let payload := strip_undefined (summary_payload reportData) in
      ws <- to_string rt workspaceId ;;
      report <- makeRequest ("/workspaces/" ++ ws ++ "/reports/summary") POST
                  (JObj payload) (Some reports_base) ;;
      groups <- shown rt (joined <- join_opt rt (lookup "groups" reportData) ;;
                          ret (js_or joined (JStr "PROJECT"))) ;;
      total <- shown rt (totals <- read report "totals" ;; ret (total_time totals)) ;;
      first <- to_string rt (lookup "dateRangeStart" reportData) ;;
      last <- to_string rt (lookup "dateRangeEnd" reportData) ;;
      count <- shown rt (groupOne <- read report "groupOne" ;;
                         ret (js_or (read_opt groupOne "length") (JNum (Int 0)))) ;;
      ret (text_result
             ("Summary Report:" ++ nl
                ++ "Groups: " ++ groups ++ nl
                ++ "Total Duration: " ++ total ++ nl
                ++ "Date Range: " ++ first ++ " to " ++ last ++ nl
                ++ "Group Count: " ++ count))
  end.


(** *** The dispatcher *)

(** [if (!args?.k1 || !args?.k2 ...) throw new McpError(InvalidParams, msg)] *)
Definition require (args : option JsObject) (keys : list string) (msg : string) : M unit :=
  if forallb (fun k => truthy (opt_lookup k args)) keys then ret tt
  else throw (McpError InvalidParams msg).

(** [args as any], handed to a handler after a guard found a truthy
    [args?.workspaceId]. *)
Definition bag (args : option JsObject) : JsObject :=
  match args with Some o => o | None => [] end.

Definition arg (k : string) (args : option JsObject) : JsVal := opt_lookup k args.

Definition name_is (name lit : string) : bool := (name =? lit)%string.

(** The [switch (name)] of the [CallToolRequestSchema] handler. *)
Definition dispatch (name : string) (args : option JsObject) : M ToolResult :=
  if name_is name "get_current_user" then getCurrentUser
  else if name_is name "get_workspaces" then getWorkspaces
  else if name_is name "get_workspace_users" then
    _ <- require args ["workspaceId"] "workspaceId is required" ;;
    getWorkspaceUsers (arg "workspaceId" args)
  else if name_is name "create_time_entry" then
    _ <- require args ["workspaceId"] "workspaceId is required" ;;
    createTimeEntry (bag args)
  else if name_is name "get_time_entries" then
    _ <- require args ["workspaceId"] "workspaceId is required" ;;
    getTimeEntries (bag args)
  else if name_is name "update_time_entry" then
    _ <- require args ["workspaceId"; "timeEntryId"]
           "workspaceId and timeEntryId are required" ;;
    updateTimeEntry (bag args)
  else if name_is name "delete_time_entry" then
    _ <- require args ["workspaceId"; "timeEntryId"]
           "workspaceId and timeEntryId are required" ;;
    deleteTimeEntry (arg "workspaceId" args) (arg "timeEntryId" args)
  else if name_is name "stop_time_entry" then
    _ <- require args ["workspaceId"; "userId"] "workspaceId and userId are required" ;;
    stopTimeEntry (bag args)
  else if name_is name "create_project" then
    _ <- require args ["workspaceId"] "workspaceId is required" ;;
    createProject (bag args)
  else if name_is name "get_projects" then
    _ <- require args ["workspaceId"] "workspaceId is required" ;;
    getProjects (bag args)
  else if name_is name "get_project" then
    _ <- require args ["workspaceId"; "projectId"]
           "workspaceId and projectId are required" ;;
    getProject (arg "workspaceId" args) (arg "projectId" args)
  else if name_is name "update_project" then
    _ <- require args ["workspaceId"; "projectId"]
           "workspaceId and projectId are required" ;;
    updateProject (bag args)
  else if name_is name "delete_project" then
    _ <- require args ["workspaceId"; "projectId"]
           "workspaceId and projectId are required" ;;
    deleteProject (arg "workspaceId" args) (arg "projectId" args)
  else if name_is name "create_task" then
    _ <- require args ["workspaceId"; "projectId"]
           "workspaceId and projectId are required" ;;
    createTask (bag args)
  else if name_is name "get_tasks" then
    _ <- require args ["workspaceId"; "projectId"]
           "workspaceId and projectId are required" ;;
    getTasks (bag args)
  else if name_is name "get_task" then
    _ <- require args ["workspaceId"; "projectId"; "taskId"]
           "workspaceId, projectId and taskId are required" ;;
    getTask (arg "workspaceId" args) (arg "projectId" args) (arg "taskId" args)
  else if name_is name "update_task" then
    _ <- require args ["workspaceId"; "projectId"; "taskId"]
           "workspaceId, projectId and taskId are required" ;;
    updateTask (bag args)
  else if name_is name "delete_task" then
    _ <- require args ["workspaceId"; "projectId"; "taskId"]
           "workspaceId, projectId and taskId are required" ;;
    deleteTask (arg "workspaceId" args) (arg "projectId" args) (arg "taskId" args)
  else if name_is name "create_client" then
    _ <- require args ["workspaceId"] "workspaceId is required" ;;
    createClient (bag args)
  else if name_is name "get_clients" then
    _ <- require args ["workspaceId"] "workspaceId is required" ;;
    getClients (bag args)
  else if name_is name "update_client" then
    _ <- require args ["workspaceId"; "clientId"]
           "workspaceId and clientId are required" ;;
    updateClient (bag args)
  else if name_is name "delete_client" then
    _ <- require args ["workspaceId"; "clientId"]
           "workspaceId and clientId are required" ;;
    deleteClient (arg "workspaceId" args) (arg "clientId" args)
  else if name_is name "create_tag" then
    _ <- require args ["workspaceId"] "workspaceId is required" ;;
    createTag (bag args)
  else if name_is name "get_tags" then
    _ <- require args ["workspaceId"] "workspaceId is required" ;;
    getTags (bag args)
  else if name_is name "update_tag" then
    _ <- require args ["workspaceId"; "tagId"] "workspaceId and tagId are required" ;;
    updateTag (bag args)
  else if name_is name "delete_tag" then
    _ <- require args ["workspaceId"; "tagId"] "workspaceId and tagId are required" ;;
    deleteTag (arg "workspaceId" args) (arg "tagId" args)
  else if name_is name "get_detailed_report" then getDetailedReport args
  else if name_is name "get_summary_report" then getSummaryReport args
  else throw (McpError MethodNotFound ("Unknown tool: " ++ name)).

(** The [CallToolRequestSchema] handler: the switch inside
    [try { ... } catch (error)], which passes an [McpError] on and wraps
    anything else as an internal error. *)
Definition callTool (name : string) (args : option JsObject) : M ToolResult :=
  try_catch (dispatch name args)
    (fun error => throw (rethrow "Tool execution failed: " error)).

End Server.

(** ** Concrete engines and remotes

    A small engine and scripted remotes on which the model is run on
    concrete invocations.  The engine parses decimal integers, reads two
    JSON texts, writes one text for every number outside the safe integers
    and reports a native error by its kind. *)

Definition small_engine : Runtime :=
  {| date_parse_fallback := fun _ => None;
     string_to_number :=
       fun s => match digits_val 0 (list_ascii_of_string s) with
                | Some z => Int z
                | None => NaN
                end;
     number_text := fun _ => "1e+21";
     json_parse_nonempty :=
       fun s => if (s =? "{}")%string then Some (JObj [])
                else if (s =? "[]")%string then Some (JArr [])
                else None;
     fault_message :=
       fun f => match f with
                | InvalidTime => "Invalid time value"
                | BadJson _ => "Unexpected end of JSON input"
                | _ => "TypeError"
                end |}.

(** A remote that gives every request the same answer, at a fixed time. *)
Definition scripted (answer : FetchOutcome) (now : Z) : World :=
  {| remote := fun _ => answer; clock := now |}.

Definition answers (code : Z) (body : string) : FetchOutcome :=
  FetchResponse {| status := code; body_text := body |}.

Definition configured : ClockifyConfig := config_of_env (Some "secret").

Definition unconfigured : ClockifyConfig := config_of_env None.

(** A computation that issues no request: it leaves the log as it was. *)
Definition silent {A : Type} (c : M A) : Prop := forall log, snd (c log) = log.

(** The error [makeRequest] throws when no API key is configured. *)
Definition config_error : Exn :=
  McpError InvalidParams
    "Clockify API key not configured. Set CLOCKIFY_API_KEY environment variable.".

(** [c0] fails without a request, either with the configuration error or
    in the very way [c1] fails without a request. *)
Definition shadow {A : Type} (c0 c1 : M A) : Prop :=
  forall log,
    c0 log = (Throw config_error, log)
    \/ exists e, c0 log = (Throw e, log) /\ c1 log = (Throw e, log).

(** The error [makeRequest] throws on a response whose status is not in
    the success range. *)
Definition api_error (r : Response) : Exn :=
  McpError InternalError
    ("Clockify API error (" ++ Z_to_string (status r) ++ "): " ++ body_text r).

(** After a remote that turns requests down with [r], [c] has either
    issued no request or thrown [api_error r] after one request. *)
Definition turned_down (r : Response) {A : Type} (c : M A) : Prop :=
  forall log,
    snd (c log) = log
    \/ exists req, c log = (Throw (api_error r), (log ++ [req])%list).

(** What goes out for a date field the caller gave as the string [s]: the
    string itself when it has a [T]; the empty string itself where the
    handler guards the field by its truthiness; otherwise the ISO-8601
    instant of the date the engine parses [s] to, which has a [T]. *)
Definition date_field_sent (rt : Runtime) (guarded : bool) (s : string)
    (sent : JsVal) : Prop :=
  if includes_char "T"%char s then sent = JStr s
  else if guarded && (s =? "")%string then sent = JStr ""
  else exists t,
      new_Date rt (JStr s) = Some t
      /\ sent = JStr (toISOString t)
      /\ includes_char "T"%char (toISOString t) = true.

(** [c] either fails without a request or issues exactly one. *)
Definition one_shot {A : Type} (c : M A) : Prop :=
  forall log,
    (exists e, c log = (Throw e, log))
    \/ exists req, snd (c log) = (log ++ [req])%list.

(** ** Predicates on whole invocations *)

(** [c] has either issued no request or issued exactly one, and that one
    satisfies [P]. *)
Definition requests_satisfy (P : HttpRequest -> Prop) {A : Type} (c : M A) : Prop :=
  forall log,
    snd (c log) = log
    \/ exists req, snd (c log) = (log ++ [req])%list /\ P req.

(** [c] has either issued no request or thrown [e] after one request. *)
Definition stopped_by (e : Exn) {A : Type} (c : M A) : Prop :=
  forall log,
    snd (c log) = log
    \/ exists req, c log = (Throw e, (log ++ [req])%list).

(** A result of [c] is never flagged as an error. *)
Definition plain_result (c : M ToolResult) : Prop :=
  forall log,
    match fst (c log) with
    | Ok r => isError r = false
    | Throw _ => True
    end.

(** [c] never throws the method-not-found error. *)
Definition dispatched {A : Type} (c : M A) : Prop :=
  forall log m, fst (c log) <> Throw (McpError MethodNotFound m).

(** The handlers of the switch, to unfold them all at once. *)
Ltac unfold_handlers :=
  unfold getCurrentUser, getWorkspaces, getWorkspaceUsers, createTimeEntry,
    getTimeEntries, updateTimeEntry, deleteTimeEntry, stopTimeEntry, createProject,
    getProjects, getProject, updateProject, deleteProject, createTask, getTasks,
    getTask, updateTask, deleteTask, createClient, getClients, updateClient,
    deleteClient, createTag, getTags, updateTag, deleteTag, getDetailedReport,
    getSummaryReport; cbv zeta.

(** Takes the branch of the switch for a literal name. *)
Ltac take_case :=
  unfold dispatch, name_is; cbn [String.eqb Ascii.eqb Bool.eqb].

(** The transport error [makeRequest] throws when [fetch] rejects. *)
Definition transport_error (m : string) : Exn :=
  McpError InternalError ("Request failed: " ++ m).

(** The query parameters of a list request in closed form: the arguments
    that are neither [null] nor [undefined], in their order, each value
    turned into a string. *)
Definition query_of (rt : Runtime) (params : JsObject) : URLSearchParams :=
  map (fun kv => (fst kv, ToString rt (snd kv)))
    (filter (fun kv => negb (is_nullish (snd kv))) params).

(** Every value of the object converts to a string. *)
Definition all_stringable (o : JsObject) : bool :=
  forallb (fun kv => stringable (snd kv)) o.

(** The primitive a value that converts is turned into, and the value of
    [Math.min(a, b)] when both arguments convert. *)
Definition primitive (rt : Runtime) (v : JsVal) : JsVal :=
  match v with
  | JArr _ | JObj _ => JStr (ToString rt v)
  | _ => v
  end.

Definition min_of (rt : Runtime) (a b : JsVal) : JsVal :=
  JNum (Number_min (prim_number rt (primitive rt a)) (prim_number rt (primitive rt b))).

(** The page size of a detailed report when it converts:
    [Math.min(reportData.pageSize || 50, 1000)]. *)
Definition page_size_sent (rt : Runtime) (args : JsObject) : JsVal :=
  min_of rt (js_or (lookup "pageSize" args) (JNum (Int 50))) (JNum (Int 1000)).

(** An object without the properties named in [ids], the others in their
    order. *)
Definition without (ids : list string) (o : JsObject) : JsObject :=
  filter (fun kv => negb (existsb (String.eqb (fst kv)) ids)) o.

(** [c] either leaves the log alone or issues one request and returns a
    result that is no error. *)
Definition answered (c : M ToolResult) : Prop :=
  forall log,
    snd (c log) = log
    \/ exists req res, c log = (Ok res, (log ++ [req])%list) /\ isError res = false.

Definition is_object (v : JsVal) : bool :=
  match v with JObj _ => true | _ => false end.

(** No object inside [v], at any depth, has an own [toString] property:
    [v] and whatever is read from it convert to a string. *)
Fixpoint plain (v : JsVal) : bool :=
  match v with
  | JArr l => forallb plain l
  | JObj o => negb (has_own "toString" o) && forallb (fun kv => plain (snd kv)) o
  | _ => true
  end.

(** [c] has either issued no request or thrown, after one request, a
    native error that satisfies [P]. *)
Definition fails_after (P : Fault -> Prop) {A : Type} (c : M A) : Prop :=
  forall log,
    snd (c log) = log
    \/ exists req fault,
         c log = (Throw (NativeError fault), (log ++ [req])%list) /\ P fault.

(** The line a renderer makes of one element, when it makes one. *)
Definition line_of (f : JsVal -> M string) (x : JsVal) : string :=
  match fst (f x []) with Ok s => s | Throw _ => "" end.

(** The characters of a serialized query: the ones the form-urlencoded
    serializer keeps, its [+] and [%], and the separators [=] and [&]. *)
Definition query_char (c : ascii) : bool :=
  form_safe c || Ascii.eqb c "+" || Ascii.eqb c "%" || Ascii.eqb c "="
  || Ascii.eqb c "&".

Definition is_array (v : JsVal) : bool :=
  match v with JArr _ => true | _ => false end.

(** *** The calendar, one era at a time *)

(** The steps of [days_from_civil] and [civil_from_days] inside one
    400-year era, whose years start in March: the first day of the year
    [yoe] of the era, the day of the year of the date [m]/[d], and the way
    back from the day of the era. *)
Definition year_start (yoe : Z) : Z := yoe * 365 + yoe / 4 - yoe / 100.

Definition doy_of (m d : Z) : Z :=
  let mp := if 2 <? m then m - 3 else m + 9 in
  (153 * mp + 2) / 5 + d - 1.

Definition years_before (doe : Z) : Z := doe - doe / 1460 + doe / 36524.

Definition yoe_of (doe : Z) : Z := (years_before doe - doe / 146096) / 365.

Definition month_day_of (doy : Z) : Z * Z :=
  let mp := (5 * doy + 2) / 153 in
  let d := doy - (153 * mp + 2) / 5 + 1 in
  let m := if mp <? 10 then mp + 3 else mp - 9 in
  (m, d).

(** The check of one date of a year: a day that exists in its month (in a
    leap year for February) has a day of the year within 0..365 that leads
    back to the date, and only the 29th of February is the 366th day. *)
Definition month_day_ok (m d : Z) : bool :=
  if d <=? days_in_month 0 m then
    let doy := doy_of m d in
    let '(m', d') := month_day_of doy in
    (m' =? m) && (d' =? d) && (0 <=? doy) && (doy <=? 365)
    && (if d <=? days_in_month 1 m then doy <=? 364 else doy =? 365)
  else true.

(** The check of one year of the era: its days 0..364 are told to be of
    that year, and so is its day 365 when the year that starts in its
    January is a leap year. *)
Definition year_ok (yoe : Z) : bool :=
  let lo := year_start yoe in
  (0 <=? lo) && (lo + 364 <? 146096)
  && (365 * yoe <=? years_before lo) && (years_before (lo + 364) <? 365 * (yoe + 1))
  && (if days_in_month (yoe + 1) 2 =? 29
      then (yoe_of (lo + 365) =? yoe) && (lo + 365 <? 146097)
      else true).

Definition upto (lo : Z) (n : nat) : list Z := map (fun i => lo + Z.of_nat i) (seq 0 n).

(** ** Properties *)

(** *** Concrete runs of the pure helpers *)

Example toISOString_epoch : toISOString 0 = "1970-01-01T00:00:00.000Z".
Proof. reflexivity. Qed.

Example toISOString_before_epoch : toISOString (-1) = "1969-12-31T23:59:59.999Z".
Proof. reflexivity. Qed.

Example toISOString_largest : toISOString 8640000000000000 = "+275760-09-13T00:00:00.000Z".
Proof. reflexivity. Qed.

Example date_only_is_utc_midnight :
  option_map toISOString (parse_iso_date "2024-01-15") = Some "2024-01-15T00:00:00.000Z".
Proof. reflexivity. Qed.

Example no_30th_of_february : parse_iso_date "2024-02-30" = None.
Proof. reflexivity. Qed.

Example query_is_form_encoded :
  fst (run (q <- build_query small_engine
                   [("archived", JBool true); ("clientIds", JNull);
                    ("name", JStr "R&D dept");
                    ("users", JArr [JStr "u1"; JStr "u2"])] ;;
            ret (params_toString q)))
  = Ok "archived=true&name=R%26D+dept&users=u1%2Cu2".
Proof. reflexivity. Qed.

Example object_with_own_toString_stops_the_query :
  run (build_query small_engine
         [("archived", JBool true); ("name", JObj [("toString", JNum (Int 1))]);
          ("page", JNum (Int 2))])
  = (Throw (NativeError NotPrimitive), []).
Proof. reflexivity. Qed.

Example large_number_is_written_by_the_engine :
  ToString small_engine (JNum (Int 1000000000000000000000)) = "1e+21"
  /\ ToString small_engine (JNum (Int 9007199254740992)) = "9007199254740992".
Proof. split; reflexivity. Qed.

Example length_counts_code_units :
  get_prop (JStr ("na" ++ String (ascii_of_nat 195) (String (ascii_of_nat 175) "ve")))
    "length"
  = JNum (Int 5).
Proof. reflexivity. Qed.

Example stripping_keeps_null :
  strip_undefined [("a", JUndefined); ("b", JNull); ("c", JNum (Int 1))]
  = [("b", JNull); ("c", JNum (Int 1))].
Proof. reflexivity. Qed.

Example get_workspaces_renders :
  run (getWorkspaces
         {| date_parse_fallback := fun _ => None;
            string_to_number := fun _ => NaN;
            number_text := fun _ => "";
            json_parse_nonempty :=
              fun _ => Some (JArr [JObj [("id", JStr "w1"); ("name", JStr "Acme")]]);
            fault_message := fun _ => "" |}
         (scripted (answers 200 "[{...}]") 0) configured)
  = (Ok {| text := "Found 1 workspace(s):" ++ nl ++ "- Acme (w1)"; isError := false |},
     [ {| req_url := "https://api.clockify.me/api/v1/workspaces";
          req_method := GET;
          req_headers := [("X-Api-Key", "secret"); ("Content-Type", "application/json")];
          req_body := None |} ]).
Proof. reflexivity. Qed.

(** *** Objects *)

Lemma lookup_remove_key (k k' : string) (o : JsObject) :
  lookup k (remove_key k' o) = if (k =? k')%string then JUndefined else lookup k o.
Proof.
  induction o as [|[k0 v] o IH]; simpl.
  - now destruct (k =? k')%string.
  - destruct (String.eqb_spec k' k0) as [->|Hne]; simpl.
    + rewrite IH. destruct (String.eqb_spec k k0); reflexivity.
    + rewrite IH. destruct (String.eqb_spec k k0) as [->|]; [|reflexivity].
      destruct (String.eqb_spec k0 k'); congruence.
Qed.

Lemma lookup_assign (k k' : string) (v : JsVal) (o : JsObject) :
  lookup k (assign k' v o) = if (k =? k')%string then v else lookup k o.
Proof.
  induction o as [|[k0 v0] o IH]; simpl.
  - reflexivity.
  - destruct (String.eqb_spec k' k0) as [->|Hne]; simpl.
    + destruct (String.eqb_spec k k0); reflexivity.
    + rewrite IH. destruct (String.eqb_spec k k0) as [->|]; [|reflexivity].
      destruct (String.eqb_spec k0 k'); congruence.
Qed.


Lemma remove_key_In (k k' : string) (v : JsVal) (o : JsObject) :
  In (k, v) (remove_key k' o) <-> In (k, v) o /\ k <> k'.
Proof.
  induction o as [|[k0 v0] o IH]; simpl; [tauto|].
  destruct (String.eqb_spec k' k0) as [->|Hne]; simpl; rewrite IH.
  - split; [tauto|]. intros [[E|H] Hk]; [congruence|tauto].
  - split; [|tauto]. intros [E|H]; [|tauto].
    split; [tauto|]. congruence.
Qed.

Lemma NoDup_lookup (o : JsObject) (k : string) (v : JsVal) :
  NoDup (map fst o) -> In (k, v) o -> lookup k o = v.
Proof.
  induction o as [|[k0 v0] o IH]; simpl; [tauto|].
  intros Hnd [E|H].
  - inversion E; subst. now rewrite String.eqb_refl.
  - inversion Hnd as [|? ? Hnotin Hnd']; subst.
    destruct (String.eqb_spec k k0) as [->|]; [|now apply IH].
    exfalso. apply Hnotin. apply in_map_iff. now exists (k0, v).
Qed.

(** *** The monad: computations that issue no request *)

Lemma silent_ret {A : Type} (a : A) : silent (ret a).
Proof. intro; reflexivity. Qed.

Lemma silent_throw {A : Type} (e : Exn) : silent (@throw A e).
Proof. intro; reflexivity. Qed.

Lemma silent_bind {A B : Type} (c : M A) (k : A -> M B) :
  silent c -> (forall a, silent (k a)) -> silent (bind c k).
Proof.
  intros Hc Hk log. unfold bind. specialize (Hc log).
  destruct (c log) as [[a|e] log']; simpl in *; subst; [apply Hk | reflexivity].
Qed.

Lemma silent_mapM {A B : Type} (f : A -> M B) (l : list A) :
  (forall a, silent (f a)) -> silent (mapM f l).
Proof.
  intro Hf. induction l; simpl.
  - apply silent_ret.
  - apply silent_bind; [apply Hf|]. intro. apply silent_bind; [assumption|].
    intro. apply silent_ret.
Qed.

Lemma silent_read (v : JsVal) (k : string) : silent (read v k).
Proof. unfold read. destruct (is_nullish v); [apply silent_throw | apply silent_ret]. Qed.

Lemma silent_read_or (v : JsVal) (k : string) (d : JsVal) : silent (read_or v k d).
Proof.
  unfold read_or. apply silent_bind; [apply silent_read | intro; apply silent_ret].
Qed.

Lemma silent_to_string (rt : Runtime) (v : JsVal) : silent (to_string rt v).
Proof.
  unfold to_string. destruct (stringable v); [apply silent_ret | apply silent_throw].
Qed.

Lemma silent_shown (rt : Runtime) (c : M JsVal) : silent c -> silent (shown rt c).
Proof.
  intro H. unfold shown. apply silent_bind; [exact H | intro; apply silent_to_string].
Qed.

Lemma silent_to_primitive (rt : Runtime) (v : JsVal) : silent (to_primitive rt v).
Proof.
  destruct v; simpl; try apply silent_ret;
    (apply silent_bind; [apply silent_to_string | intro; apply silent_ret]).
Qed.

Lemma silent_ToNumber (rt : Runtime) (v : JsVal) : silent (ToNumber rt v).
Proof.
  unfold ToNumber. apply silent_bind; [apply silent_to_primitive | intro; apply silent_ret].
Qed.

Lemma silent_Math_min (rt : Runtime) (a b : JsVal) : silent (Math_min rt a b).
Proof.
  unfold Math_min. apply silent_bind; [apply silent_ToNumber|]. intro.
  apply silent_bind; [apply silent_ToNumber | intro; apply silent_ret].
Qed.

Lemma silent_for_each {A S : Type} (f : S -> A -> M S) (l : list A) (s : S) :
  (forall s a, silent (f s a)) -> silent (for_each f l s).
Proof.
  intro Hf. revert s. induction l as [|x l IH]; intro s; simpl.
  - apply silent_ret.
  - apply silent_bind; [apply Hf | exact IH].
Qed.

Lemma silent_build_query (rt : Runtime) (params : JsObject) :
  silent (build_query rt params).
Proof.
  apply silent_for_each. intros q kv. unfold append_defined.
  destruct (is_nullish (snd kv)); [apply silent_ret|].
  apply silent_bind; [apply silent_to_string | intro; apply silent_ret].
Qed.

Lemma silent_map_lines (xs : JsVal) (f : JsVal -> M string) :
  (forall a, silent (f a)) -> silent (map_lines xs f).
Proof.
  intro Hf. destruct xs; simpl; try apply silent_throw. now apply silent_mapM.
Qed.

Lemma silent_includes_T (v : JsVal) : silent (includes_T v).
Proof. destruct v; simpl; first [apply silent_throw | apply silent_ret]. Qed.

Lemma silent_join_opt (rt : Runtime) (v : JsVal) : silent (join_opt rt v).
Proof.
  destruct v; simpl; try first [apply silent_throw | apply silent_ret].
  destruct (forallb stringable elems); [apply silent_ret | apply silent_throw].
Qed.

Lemma silent_Date_toISOString (d : option Z) : silent (Date_toISOString d).
Proof. destruct d; simpl; [apply silent_ret | apply silent_throw]. Qed.

Lemma silent_Date_construct (rt : Runtime) (v : JsVal) : silent (Date_construct rt v).
Proof.
  unfold Date_construct.
  apply silent_bind; [apply silent_to_primitive | intro; apply silent_ret].
Qed.

Lemma silent_reserialize (rt : Runtime) (k : string) (data : JsObject) :
  silent (reserialize rt k data).
Proof.
  unfold reserialize. apply silent_bind; [apply silent_Date_construct|]. intro.
  apply silent_bind; [apply silent_Date_toISOString|].
  intro. apply silent_ret.
Qed.

Lemma silent_tasks_path (rt : Runtime) (workspaceId projectId : JsVal) :
  silent (tasks_path rt workspaceId projectId).
Proof.
  unfold tasks_path. apply silent_bind; [apply silent_to_string|]. intro.
  apply silent_bind; [apply silent_to_string | intro; apply silent_ret].
Qed.

Lemma silent_task_path (rt : Runtime) (workspaceId projectId taskId : JsVal) :
  silent (task_path rt workspaceId projectId taskId).
Proof.
  unfold task_path. apply silent_bind; [apply silent_tasks_path|]. intro.
  apply silent_bind; [apply silent_to_string | intro; apply silent_ret].
Qed.

Lemma silent_normalize_required (rt : Runtime) (k : string) (data : JsObject) :
  silent (normalize_required rt k data).
Proof.
  unfold normalize_required.
  apply silent_bind; [apply silent_includes_T|].
  intros []; simpl; [apply silent_ret | apply silent_reserialize].
Qed.

Lemma silent_normalize_if_present (rt : Runtime) (k : string) (data : JsObject) :
  silent (normalize_if_present rt k data).
Proof.
  unfold normalize_if_present. destruct (truthy _); [|apply silent_ret].
  apply silent_normalize_required.
Qed.

Lemma silent_require (args : option JsObject) (keys : list string) (msg : string) :
  silent (require args keys msg).
Proof. unfold require. destruct (forallb _ _); [apply silent_ret | apply silent_throw]. Qed.

Lemma silent_response_json (rt : Runtime) (r : Response) : silent (response_json rt r).
Proof. unfold response_json. destruct (JSON_parse _ _); [apply silent_ret | apply silent_throw]. Qed.

Create HintDb silent.

#[local] Hint Resolve silent_ret silent_throw silent_read silent_read_or
  silent_to_string silent_to_primitive silent_ToNumber silent_Math_min
  silent_build_query silent_includes_T silent_join_opt silent_Date_toISOString
  silent_Date_construct silent_reserialize silent_normalize_required
  silent_normalize_if_present silent_tasks_path silent_task_path silent_require
  silent_response_json : silent.

(** Closes a goal [silent c] for a rendering continuation. *)
Ltac silence :=
  repeat first
    [ progress intros
    | apply silent_bind
    | apply silent_shown
    | apply silent_map_lines
    | solve [auto with silent]
    | match goal with |- silent (if ?b then _ else _) => destruct b end ].

(** A [catch] block that only throws adds no request. *)
Lemma try_catch_log {A : Type} (c : M A) (h : Exn -> M A) (log : list HttpRequest) :
  (forall e, silent (h e)) -> snd (try_catch c h log) = snd (c log).
Proof.
  intro Hh. unfold try_catch. destruct (c log) as [[a|e] log']; simpl; [reflexivity|].
  apply Hh.
Qed.

(** *** The HTTP helper *)

Section MakeRequest.

Variable rt : Runtime.
Variable world : World.
Variable config : ClockifyConfig.

Lemma makeRequest_unconfigured endpoint method data base log :
  apiKey config = "" ->
  makeRequest rt world config endpoint method data base log = (Throw config_error, log).
Proof. intro H. unfold makeRequest. now rewrite H. Qed.

(** With a key, [makeRequest] issues exactly the request [request_for]
    builds, and its outcome is read off the remote's answer. *)
Lemma makeRequest_configured endpoint method data base log :
  apiKey config <> "" ->
  makeRequest rt world config endpoint method data base log =
    (match remote world (request_for config endpoint method data base) with
     | FetchFailed m => Throw (McpError InternalError ("Request failed: " ++ m))
     | FetchResponse r =>
         if response_ok r then
           match JSON_parse rt (body_text r) with
           | Some v => Ok v
           | None => Throw (NativeError (BadJson (body_text r)))
           end
         else Throw (api_error r)
     end,
     (log ++ [request_for config endpoint method data base])%list).
Proof.
  intro H. unfold makeRequest.
  destruct (String.eqb_spec (apiKey config) "") as [E|_]; [contradiction|].
  unfold bind, try_catch, fetch.
  destruct (remote world _) as [m|r]; simpl; [reflexivity|].
  destruct (response_ok r); simpl; [|reflexivity].
  unfold response_json. destruct (JSON_parse rt (body_text r)); reflexivity.
Qed.

Lemma makeRequest_log endpoint method data base log :
  snd (makeRequest rt world config endpoint method data base log) =
    if (apiKey config =? "")%string then log
    else (log ++ [request_for config endpoint method data base])%list.
Proof.
  destruct (String.eqb_spec (apiKey config) "") as [E|N].
  - now rewrite makeRequest_unconfigured.
  - now rewrite makeRequest_configured.
Qed.

(** A handler that calls [makeRequest] and then only renders issues at
    most that one request. *)
Lemma request_then_render {A : Type} endpoint method data base
    (k : JsVal -> M A) log :
  (forall v, silent (k v)) ->
  snd (bind (makeRequest rt world config endpoint method data base) k log) =
    if (apiKey config =? "")%string then log
    else (log ++ [request_for config endpoint method data base])%list.
Proof.
  intro Hk. unfold bind.
  pose proof (makeRequest_log endpoint method data base log) as Hlog.
  destruct (makeRequest rt world config endpoint method data base log) as [[v|e] log'];
    simpl in *; subst log'; [apply Hk | reflexivity].
Qed.

(** Without a key, such a handler throws the configuration error and
    leaves the log alone. *)
Lemma request_unconfigured {A : Type} endpoint method data base
    (k : JsVal -> M A) log :
  apiKey config = "" ->
  bind (makeRequest rt world config endpoint method data base) k log =
    (Throw config_error, log).
Proof. intro H. unfold bind. now rewrite makeRequest_unconfigured. Qed.

End MakeRequest.

(** *** Without an API key *)

Section Unconfigured.

Variable rt : Runtime.
Variable world : World.
Variables config0 config1 : ClockifyConfig.
Hypothesis no_key : apiKey config0 = "".

Lemma shadow_throw {A : Type} (e : Exn) : shadow (@throw A e) (throw e).
Proof. intro log. right. now exists e. Qed.

Lemma shadow_request {A : Type} endpoint method data base (k : JsVal -> M A)
    (c1 : M A) :
  shadow (bind (makeRequest rt world config0 endpoint method data base) k) c1.
Proof. intro log. left. now apply request_unconfigured. Qed.

Lemma shadow_bind {A B : Type} (pre : M A) (k0 k1 : A -> M B) :
  silent pre -> (forall a, shadow (k0 a) (k1 a)) -> shadow (bind pre k0) (bind pre k1).
Proof.
  intros Hpre Hk log. unfold bind. specialize (Hpre log).
  destruct (pre log) as [[a|e] log']; simpl in Hpre; subst log'.
  - apply Hk.
  - right. now exists e.
Qed.

Ltac shadows :=
  repeat first
    [ apply shadow_throw
    | apply shadow_request
    | apply shadow_bind; [solve [silence] | intros]
    | match goal with
      | |- shadow (match ?x with _ => _ end) _ => destruct x
      end ].

Lemma dispatch_shadow name args :
  shadow (dispatch rt world config0 name args) (dispatch rt world config1 name args).
Proof.
  unfold dispatch.
  repeat match goal with
         | |- context [name_is name ?l] => destruct (name_is name l)
         end;
    unfold getCurrentUser, getWorkspaces, getWorkspaceUsers, createTimeEntry,
      getTimeEntries, updateTimeEntry, deleteTimeEntry, stopTimeEntry, createProject,
      getProjects, getProject, updateProject, deleteProject, createTask, getTasks,
      getTask, updateTask, deleteTask, createClient, getClients, updateClient,
      deleteClient, createTag, getTags, updateTag, deleteTag, getDetailedReport,
      getSummaryReport; cbv zeta; shadows.
Qed.

Lemma callTool_shadow name args :
  shadow (callTool rt world config0 name args) (callTool rt world config1 name args).
Proof.
  intro log. unfold callTool, try_catch.
  destruct (dispatch_shadow name args log) as [H|[e [H0 H1]]].
  - left. now rewrite H.
  - rewrite H0, H1. right. eexists; split; reflexivity.
Qed.

End Unconfigured.

(** C7.  Without an API key (the environment variable absent or empty, so
    the configured key is the empty string) every call of [makeRequest]
    throws the configuration error at once and issues no request.  So does
    every tool invocation: it fails without a request, with the
    configuration error unless it fails before it reaches [makeRequest], in
    which case it fails the same way when a key is configured. *)
Theorem no_api_key_fails_before_any_request :
  forall (rt : Runtime) (world : World) (config0 : ClockifyConfig),
    apiKey config0 = "" ->
    (forall endpoint method data base log,
        makeRequest rt world config0 endpoint method data base log
        = (Throw config_error, log))
    /\ (forall config1 name args log,
          callTool rt world config0 name args log = (Throw config_error, log)
          \/ exists e,
               callTool rt world config0 name args log = (Throw e, log)
               /\ callTool rt world config1 name args log = (Throw e, log)).
Proof.
  intros rt world config0 Hkey. split.
  - intros. now apply makeRequest_unconfigured.
  - intros. now apply callTool_shadow.
Qed.

Lemma no_api_key_fails_before_any_request_witness :
  apiKey unconfigured = ""
  /\ run (callTool small_engine (scripted (answers 200 "{}") 0) unconfigured
            "get_project"
            (Some [("workspaceId", JStr "w1"); ("projectId", JStr "p1")]))
     = (Throw config_error, []).
Proof.
  split; [reflexivity|].
  destruct (no_api_key_fails_before_any_request small_engine
              (scripted (answers 200 "{}") 0) unconfigured eq_refl) as [_ H].
  destruct (H configured "get_project"
              (Some [("workspaceId", JStr "w1"); ("projectId", JStr "p1")]) [])
    as [H0|[e [_ H1]]].
  - exact H0.
  - vm_compute in H1. discriminate H1.
Defined.

(** *** Unknown operations *)

Lemma name_is_outside (name lit : string) :
  ~ In name tool_names ->
  existsb (String.eqb lit) tool_names = true ->
  name_is name lit = false.
Proof.
  intros Hout Hin. unfold name_is.
  destruct (String.eqb_spec name lit) as [->|]; [|reflexivity].
  exfalso. apply Hout. apply existsb_exists in Hin as [x [Hx E]].
  apply String.eqb_eq in E. now subst.
Qed.

(** C9.  An operation name that matches no catalogue entry makes the
    dispatcher throw the method-not-found error; no handler runs and no
    request is issued. *)
Theorem unknown_tool_is_method_not_found :
  forall (rt : Runtime) (world : World) (config : ClockifyConfig)
         (name : string) (args : option JsObject) (log : list HttpRequest),
    ~ In name tool_names ->
    callTool rt world config name args log
    = (Throw (McpError MethodNotFound ("Unknown tool: " ++ name)), log).
Proof.
  intros rt world config name args log Hout.
  unfold callTool, try_catch, dispatch.
  repeat match goal with
         | |- context [name_is name ?l] =>
             rewrite (@name_is_outside name l Hout eq_refl)
         end.
  reflexivity.
Qed.

Lemma unknown_tool_is_method_not_found_witness :
  ~ In "start_timer" tool_names
  /\ run (callTool small_engine (scripted (answers 200 "{}") 0) configured
            "start_timer" (Some [("workspaceId", JStr "w1")]))
     = (Throw (McpError MethodNotFound "Unknown tool: start_timer"), []).
Proof.
  assert (Hout : ~ In "start_timer" tool_names).
  { intro H. vm_compute in H.
    repeat match type of H with _ \/ _ => destruct H as [H|H] end;
      first [discriminate H | exact H]. }
  split; [exact Hout|].
  exact (unknown_tool_is_method_not_found small_engine
           (scripted (answers 200 "{}") 0) configured "start_timer"
           (Some [("workspaceId", JStr "w1")]) [] Hout).
Defined.

(** *** The dispatcher, case by case *)

Lemma callTool_log rt world config name args log :
  snd (callTool rt world config name args log)
  = snd (dispatch rt world config name args log).
Proof. unfold callTool. apply try_catch_log. intro e. apply silent_throw. Qed.

Lemma require_true args keys msg log :
  forallb (fun k => truthy (opt_lookup k args)) keys = true ->
  require args keys msg log = (Ok tt, log).
Proof. intro H. unfold require. now rewrite H. Qed.

Lemma require_false args keys msg log :
  forallb (fun k => truthy (opt_lookup k args)) keys = false ->
  require args keys msg log = (Throw (McpError InvalidParams msg), log).
Proof. intro H. unfold require. now rewrite H. Qed.


(** *** Conversions *)

Lemma to_string_ok (rt : Runtime) (v : JsVal) (log : list HttpRequest) :
  stringable v = true -> to_string rt v log = (Ok (ToString rt v), log).
Proof. intro H. unfold to_string. now rewrite H. Qed.

Lemma to_string_throws (rt : Runtime) (v : JsVal) (log : list HttpRequest) :
  stringable v = false -> to_string rt v log = (Throw (NativeError NotPrimitive), log).
Proof. intro H. unfold to_string. now rewrite H. Qed.

(** A conversion returns the text of [ToString] or throws, and leaves the
    log alone. *)
Lemma to_string_cases (rt : Runtime) (v : JsVal) (log : list HttpRequest) :
  to_string rt v log = (Ok (ToString rt v), log) /\ stringable v = true
  \/ to_string rt v log = (Throw (NativeError NotPrimitive), log) /\ stringable v = false.
Proof. unfold to_string. destruct (stringable v); [left | right]; now split. Qed.

(** A step that returns [a] and leaves the log alone hands [a] on. *)
Lemma prefix_ok {A B : Type} (pre : M A) (a : A) (k : A -> M B)
    (log : list HttpRequest) :
  (forall l, pre l = (Ok a, l)) -> bind pre k log = k a log.
Proof. intro H. unfold bind. now rewrite H. Qed.

(** *** Remote errors *)

Section RemoteError.

Variable rt : Runtime.
Variable world : World.
Variable config : ClockifyConfig.
Variable r : Response.
Hypothesis has_key : apiKey config <> "".
Hypothesis answer : forall req, remote world req = FetchResponse r.
Hypothesis not_ok : response_ok r = false.

Lemma makeRequest_turned_down endpoint method data base log :
  makeRequest rt world config endpoint method data base log
  = (Throw (api_error r), (log ++ [request_for config endpoint method data base])%list).
Proof. rewrite makeRequest_configured by assumption. now rewrite answer, not_ok. Qed.

Lemma turned_down_throw {A : Type} (e : Exn) : turned_down r (@throw A e).
Proof. intro log. now left. Qed.

Lemma turned_down_request {A : Type} endpoint method data base (k : JsVal -> M A) :
  turned_down r (bind (makeRequest rt world config endpoint method data base) k).
Proof.
  intro log. right. eexists. unfold bind. now rewrite makeRequest_turned_down.
Qed.

Lemma turned_down_bind {A B : Type} (pre : M A) (k : A -> M B) :
  silent pre -> (forall a, turned_down r (k a)) -> turned_down r (bind pre k).
Proof.
  intros Hpre Hk log. unfold bind. specialize (Hpre log).
  destruct (pre log) as [[a|e] log']; simpl in Hpre; subst log'.
  - apply Hk.
  - now left.
Qed.

Lemma dispatch_turned_down name args :
  turned_down r (dispatch rt world config name args).
Proof.
  unfold dispatch.
  repeat match goal with
         | |- context [name_is name ?l] => destruct (name_is name l)
         end;
    unfold getCurrentUser, getWorkspaces, getWorkspaceUsers, createTimeEntry,
      getTimeEntries, updateTimeEntry, deleteTimeEntry, stopTimeEntry, createProject,
      getProjects, getProject, updateProject, deleteProject, createTask, getTasks,
      getTask, updateTask, deleteTask, createClient, getClients, updateClient,
      deleteClient, createTag, getTags, updateTag, deleteTag, getDetailedReport,
      getSummaryReport; cbv zeta;
    repeat first
      [ apply turned_down_throw
      | apply turned_down_request
      | apply turned_down_bind; [solve [silence] | intros]
      | match goal with
        | |- turned_down _ (match ?x with _ => _ end) => destruct x
        end ].
Qed.

Lemma callTool_turned_down name args :
  turned_down r (callTool rt world config name args).
Proof.
  intro log. unfold callTool, try_catch.
  destruct (dispatch_turned_down name args log) as [H|[req H]].
  - left. destruct (dispatch rt world config name args log) as [[a|e] log'];
      simpl in *; exact H.
  - right. exists req. now rewrite H.
Qed.

Lemma get_project_turned_down args log :
  truthy (arg "workspaceId" args) = true ->
  truthy (arg "projectId" args) = true ->
  stringable (arg "workspaceId" args) = true ->
  stringable (arg "projectId" args) = true ->
  callTool rt world config "get_project" args log
  = (Throw (api_error r),
     (log ++ [request_for config
                ("/workspaces/" ++ ToString rt (arg "workspaceId" args) ++ "/projects/"
                   ++ ToString rt (arg "projectId" args))
                GET JUndefined None])%list).
Proof.
  intros Hw Hp Sw Sp. unfold callTool, try_catch.
  change (dispatch rt world config "get_project" args)
    with (_ <- require args ["workspaceId"; "projectId"]
                 "workspaceId and projectId are required" ;;
          getProject rt world config (arg "workspaceId" args) (arg "projectId" args)).
  unfold bind at 1. rewrite require_true.
  - unfold getProject, bind. rewrite !to_string_ok by assumption.
    now rewrite makeRequest_turned_down.
  - simpl. unfold arg in Hw, Hp. now rewrite Hw, Hp.
Qed.

(** An identifier that does not convert to a string stops the read before
    its request. *)
Lemma get_project_not_sent args log :
  truthy (arg "workspaceId" args) = true ->
  truthy (arg "projectId" args) = true ->
  stringable (arg "workspaceId" args) && stringable (arg "projectId" args) = false ->
  callTool rt world config "get_project" args log
  = (Throw (McpError InternalError
              ("Tool execution failed: " ++ fault_message rt NotPrimitive)), log).
Proof.
  intros Hw Hp Hs. unfold callTool, try_catch.
  change (dispatch rt world config "get_project" args)
    with (_ <- require args ["workspaceId"; "projectId"]
                 "workspaceId and projectId are required" ;;
          getProject rt world config (arg "workspaceId" args) (arg "projectId" args)).
  unfold bind at 1. rewrite require_true.
  - unfold getProject, bind, to_string.
    destruct (stringable (arg "workspaceId" args)); simpl in Hs |- *; [|reflexivity].
    rewrite Hs. reflexivity.
  - simpl. unfold arg in Hw, Hp. now rewrite Hw, Hp.
Qed.

Lemma get_task_turned_down args log :
  truthy (arg "workspaceId" args) = true ->
  truthy (arg "projectId" args) = true ->
  truthy (arg "taskId" args) = true ->
  stringable (arg "workspaceId" args) = true ->
  stringable (arg "projectId" args) = true ->
  stringable (arg "taskId" args) = true ->
  callTool rt world config "get_task" args log
  = (Throw (api_error r),
     (log ++ [request_for config
                (("/workspaces/" ++ ToString rt (arg "workspaceId" args) ++ "/projects/"
                    ++ ToString rt (arg "projectId" args) ++ "/tasks")
                   ++ "/" ++ ToString rt (arg "taskId" args))
                GET JUndefined None])%list).
Proof.
  intros Hw Hp Ht Sw Sp St. unfold callTool, try_catch.
  change (dispatch rt world config "get_task" args)
    with (_ <- require args ["workspaceId"; "projectId"; "taskId"]
                 "workspaceId, projectId and taskId are required" ;;
          getTask rt world config (arg "workspaceId" args) (arg "projectId" args)
            (arg "taskId" args)).
  unfold bind at 1. rewrite require_true.
  - unfold getTask, task_path, tasks_path, bind, ret.
    repeat (rewrite to_string_ok by assumption; cbv beta iota).
    now rewrite makeRequest_turned_down.
  - simpl. unfold arg in Hw, Hp, Ht. now rewrite Hw, Hp, Ht.
Qed.

End RemoteError.

(** C8.  When the remote answers with a status outside the success range,
    [makeRequest] throws an [McpError] whose message carries the numeric
    status and the raw body text.  That error is what every tool
    invocation that issued a request ends with.  The reads by identifier
    [get_project] and [get_task] issue their request, and so end with that
    error, whenever their identifiers are truthy and convert to a string;
    an identifier that does not convert stops [get_project] before any
    request, with another error.  A 404 with body [Not found] surfaces as
    [Clockify API error (404): Not found]. *)
Theorem remote_error_carries_status_and_body :
  forall (rt : Runtime) (world : World) (config : ClockifyConfig) (r : Response),
    apiKey config <> "" ->
    (forall req, remote world req = FetchResponse r) ->
    response_ok r = false ->
    (forall endpoint method data base log,
        makeRequest rt world config endpoint method data base log
        = (Throw (api_error r),
           (log ++ [request_for config endpoint method data base])%list))
    /\ (forall name args log,
          snd (callTool rt world config name args log) = log
          \/ exists req,
               callTool rt world config name args log
               = (Throw (api_error r), (log ++ [req])%list))
    /\ (forall args log,
          truthy (arg "workspaceId" args) = true ->
          truthy (arg "projectId" args) = true ->
          stringable (arg "workspaceId" args) = true ->
          stringable (arg "projectId" args) = true ->
          callTool rt world config "get_project" args log
          = (Throw (api_error r),
             (log ++ [request_for config
                        ("/workspaces/" ++ ToString rt (arg "workspaceId" args)
                           ++ "/projects/" ++ ToString rt (arg "projectId" args))
                        GET JUndefined None])%list))
    /\ (forall args log,
          truthy (arg "workspaceId" args) = true ->
          truthy (arg "projectId" args) = true ->
          stringable (arg "workspaceId" args) && stringable (arg "projectId" args)
          = false ->
          callTool rt world config "get_project" args log
          = (Throw (McpError InternalError
                      ("Tool execution failed: " ++ fault_message rt NotPrimitive)),
             log))
    /\ (forall args log,
          truthy (arg "workspaceId" args) = true ->
          truthy (arg "projectId" args) = true ->
          truthy (arg "taskId" args) = true ->
          stringable (arg "workspaceId" args) = true ->
          stringable (arg "projectId" args) = true ->
          stringable (arg "taskId" args) = true ->
          callTool rt world config "get_task" args log
          = (Throw (api_error r),
             (log ++ [request_for config
                        (("/workspaces/" ++ ToString rt (arg "workspaceId" args)
                            ++ "/projects/" ++ ToString rt (arg "projectId" args)
                            ++ "/tasks")
                           ++ "/" ++ ToString rt (arg "taskId" args))
                        GET JUndefined None])%list))
    /\ (status r = 404 -> body_text r = "Not found" ->
        api_error r = McpError InternalError "Clockify API error (404): Not found").
Proof.
  intros rt world config r Hkey Hans Hno. repeat split.
  - intros. now apply makeRequest_turned_down.
  - intros. now apply callTool_turned_down.
  - intros. now apply get_project_turned_down.
  - intros. now apply get_project_not_sent.
  - intros. now apply get_task_turned_down.
  - intros Hs Hb. unfold api_error. now rewrite Hs, Hb.
Qed.

Lemma remote_error_carries_status_and_body_witness :
  apiKey configured <> ""
  /\ response_ok {| status := 404; body_text := "Not found" |} = false
  /\ run (callTool small_engine (scripted (answers 404 "Not found") 0) configured
            "get_project"
            (Some [("workspaceId", JStr "w1"); ("projectId", JStr "p1")]))
     = (Throw (McpError InternalError "Clockify API error (404): Not found"),
        [ {| req_url := "https://api.clockify.me/api/v1/workspaces/w1/projects/p1";
             req_method := GET;
             req_headers := [("X-Api-Key", "secret"); ("Content-Type", "application/json")];
             req_body := None |} ]).
Proof.
  assert (Hkey : apiKey configured <> "") by (simpl; discriminate).
  split; [exact Hkey|]. split; [reflexivity|].
  destruct (remote_error_carries_status_and_body small_engine
              (scripted (answers 404 "Not found") 0) configured
              {| status := 404; body_text := "Not found" |}
              Hkey (fun _ => eq_refl) eq_refl) as (_ & _ & Hproject & _ & _ & Hmsg).
  unfold run. rewrite Hproject by reflexivity.
  rewrite (Hmsg eq_refl eq_refl). reflexivity.
Defined.

(** *** Successful responses *)

(** C2, amended.  On a response whose status is in the success range
    [makeRequest] yields the parsed JSON body when the body parses.  When
    the body does not parse, and an empty body never does, the call does
    not yield an empty result: it fails, the request having gone out. *)
Theorem success_yields_parsed_body :
  forall (rt : Runtime) (world : World) (config : ClockifyConfig)
         endpoint method data base (r : Response) (log : list HttpRequest),
    apiKey config <> "" ->
    remote world (request_for config endpoint method data base) = FetchResponse r ->
    response_ok r = true ->
    (forall v, JSON_parse rt (body_text r) = Some v ->
               makeRequest rt world config endpoint method data base log
               = (Ok v, (log ++ [request_for config endpoint method data base])%list))
    /\ (JSON_parse rt (body_text r) = None ->
        exists e,
          makeRequest rt world config endpoint method data base log
          = (Throw e, (log ++ [request_for config endpoint method data base])%list))
    /\ (body_text r = "" ->
        exists e,
          makeRequest rt world config endpoint method data base log
          = (Throw e, (log ++ [request_for config endpoint method data base])%list)).
Proof.
  intros rt world config endpoint method data base r log Hkey Hans Hok.
  rewrite makeRequest_configured by assumption. rewrite Hans, Hok.
  repeat split.
  - intros v Hv. now rewrite Hv.
  - intros Hnone. rewrite Hnone. eexists. reflexivity.
  - intros Hempty. rewrite Hempty. eexists. reflexivity.
Qed.

Lemma success_yields_parsed_body_witness :
  apiKey configured <> ""
  /\ response_ok {| status := 200; body_text := "[]" |} = true
  /\ run (makeRequest small_engine (scripted (answers 200 "[]") 0) configured
            "/workspaces" GET JUndefined None)
     = (Ok (JArr []),
        [ {| req_url := "https://api.clockify.me/api/v1/workspaces";
             req_method := GET;
             req_headers := [("X-Api-Key", "secret"); ("Content-Type", "application/json")];
             req_body := None |} ]).
Proof.
  assert (Hkey : apiKey configured <> "") by (simpl; discriminate).
  split; [exact Hkey|]. split; [reflexivity|].
  destruct (success_yields_parsed_body small_engine
              (scripted (answers 200 "[]") 0) configured
              "/workspaces" GET JUndefined None
              {| status := 200; body_text := "[]" |} [] Hkey eq_refl eq_refl)
    as (Hparsed & _ & _).
  exact (Hparsed (JArr []) eq_refl).
Defined.

(** A 204 with an empty body: the remote deleted the time entry, and the
    call fails; the invocation reports an internal error. *)
Lemma empty_success_body_is_a_failure :
  response_ok {| status := 204; body_text := "" |} = true
  /\ run (makeRequest small_engine (scripted (answers 204 "") 0) configured
            "/workspaces/w1/time-entries/t1" DELETE JUndefined None)
     = (Throw (NativeError (BadJson "")),
        [ {| req_url := "https://api.clockify.me/api/v1/workspaces/w1/time-entries/t1";
             req_method := DELETE;
             req_headers := [("X-Api-Key", "secret"); ("Content-Type", "application/json")];
             req_body := None |} ])
  /\ fst (run (callTool small_engine (scripted (answers 204 "") 0) configured
                 "delete_time_entry"
                 (Some [("workspaceId", JStr "w1"); ("timeEntryId", JStr "t1")])))
     = Throw (McpError InternalError
                "Tool execution failed: Unexpected end of JSON input").
Proof. repeat split. Qed.

(** *** Mandatory arguments *)

(** C1, on the code.  The catalogue declares [name] mandatory for
    [create_project] and [workspaceId] mandatory for
    [get_detailed_report], and [start] mandatory for [create_time_entry].
    Invoked without [name], [create_project] sends its POST; invoked
    without [workspaceId], [get_detailed_report] sends its POST to the
    path of workspace [undefined]; invoked without [start],
    [create_time_entry] issues no request and fails with an internal
    error, not an invalid-parameters error. *)
Theorem omitted_mandatory_argument_reaches_remote :
  forall (rt : Runtime) (world : World),
    In {| tool_name := "create_project";
          properties := ["workspaceId"; "name"; "clientId"; "isPublic"; "billable";
                         "color"; "estimate"];
          required := ["workspaceId"; "name"] |} catalogue
    /\ snd (run (callTool rt world configured "create_project"
                   (Some [("workspaceId", JStr "w1")])))
       = [ {| req_url := "https://api.clockify.me/api/v1/workspaces/w1/projects";
              req_method := POST;
              req_headers := [("X-Api-Key", "secret");
                              ("Content-Type", "application/json")];
              req_body := Some (JObj []) |} ]
    /\ (exists d, In d catalogue /\ tool_name d = "get_detailed_report"
                  /\ In "workspaceId" (required d))
    /\ (exists body,
          snd (run (callTool rt world configured "get_detailed_report"
                      (Some [("dateRangeStart", JStr "2024-01-01T00:00:00Z");
                             ("dateRangeEnd", JStr "2024-01-31T23:59:59Z")])))
          = [ {| req_url :=
                   "https://reports.api.clockify.me/v1/workspaces/undefined/reports/detailed";
                 req_method := POST;
                 req_headers := [("X-Api-Key", "secret");
                                 ("Content-Type", "application/json")];
                 req_body := Some body |} ])
    /\ (exists d, In d catalogue /\ tool_name d = "create_time_entry"
                  /\ In "start" (required d))
    /\ run (callTool rt world configured "create_time_entry"
              (Some [("workspaceId", JStr "w1")]))
       = (Throw (McpError InternalError
                   ("Tool execution failed: "
                      ++ fault_message rt (NullishAccess JUndefined "includes"))),
          []).
Proof.
  intros rt world.
  split; [simpl; tauto|]. split.
  { unfold run. rewrite callTool_log.
    change (dispatch rt world configured "create_project"
              (Some [("workspaceId", JStr "w1")]))
      with (createProject rt world configured [("workspaceId", JStr "w1")]).
    unfold createProject; cbv zeta.
    erewrite prefix_ok by (intro; reflexivity).
    rewrite request_then_render by silence. reflexivity. }
  split.
  { eexists. split; [unfold catalogue; do 26 right; left; reflexivity|].
    split; [reflexivity | simpl; tauto]. }
  split.
  { eexists. unfold run. rewrite callTool_log.
    change (dispatch rt world configured "get_detailed_report" ?a)
      with (getDetailedReport rt world configured a).
    unfold getDetailedReport; cbv zeta.
    do 2 erewrite prefix_ok by (intro; reflexivity).
    rewrite request_then_render by silence. reflexivity. }
  split.
  { eexists. split; [unfold catalogue; do 3 right; left; reflexivity|].
    split; [reflexivity | simpl; tauto]. }
  reflexivity.
Qed.

(** *** Query strings *)

(** A step that returns hands its value on; a step that throws ends the
    computation. *)
Lemma bind_ok {A B : Type} (pre : M A) (k : A -> M B) (a : A)
    (log : list HttpRequest) :
  pre log = (Ok a, log) -> bind pre k log = k a log.
Proof. intro H. unfold bind. now rewrite H. Qed.

Lemma bind_throw {A B : Type} (pre : M A) (k : A -> M B) (e : Exn)
    (log log' : list HttpRequest) :
  pre log = (Throw e, log') -> bind pre k log = (Throw e, log').
Proof. intro H. unfold bind. now rewrite H. Qed.

(** What the dispatcher makes of an error that is no [McpError]. *)
Lemma callTool_native rt world config name args fault log log' :
  dispatch rt world config name args log = (Throw (NativeError fault), log') ->
  callTool rt world config name args log
  = (Throw (McpError InternalError ("Tool execution failed: " ++ fault_message rt fault)),
     log').
Proof. intro H. unfold callTool, try_catch. now rewrite H. Qed.

(** The [forEach] loop over the remaining arguments appends, in their
    order, every argument that is neither [undefined] nor [null], its
    value turned into a string; it stops at the first value that has no
    string. *)
Lemma for_each_append_defined (rt : Runtime) (params : JsObject)
    (acc : URLSearchParams) (log : list HttpRequest) :
  for_each (append_defined rt) params acc log
  = if all_stringable params
    then (Ok (acc ++ query_of rt params)%list, log)
    else (Throw (NativeError NotPrimitive), log).
Proof.
  revert acc. induction params as [|[k v] params IH]; intro acc; simpl.
  - unfold ret. now rewrite app_nil_r.
  - unfold bind, append_defined at 1. simpl.
    destruct (is_nullish v) eqn:Hn.
    + replace (stringable v) with true by (destruct v; simpl in *; congruence).
      unfold ret. simpl. rewrite IH. unfold query_of. simpl. now rewrite Hn.
    + unfold to_string, bind. destruct (stringable v); simpl; [|reflexivity].
      unfold ret. rewrite IH. unfold query_of, append_param. simpl. rewrite Hn. simpl.
      destruct (all_stringable params); [|reflexivity].
      now rewrite <- app_assoc.
Qed.

Lemma build_query_ok (rt : Runtime) (params : JsObject) (log : list HttpRequest) :
  all_stringable params = true ->
  build_query rt params log = (Ok (query_of rt params), log).
Proof.
  intro H. unfold build_query. rewrite for_each_append_defined. now rewrite H.
Qed.

Lemma build_query_throws (rt : Runtime) (params : JsObject) (log : list HttpRequest) :
  all_stringable params = false ->
  build_query rt params log = (Throw (NativeError NotPrimitive), log).
Proof.
  intro H. unfold build_query. rewrite for_each_append_defined. now rewrite H.
Qed.

(** C4, amended.  With a key and a truthy [workspaceId], [get_projects]
    issues its request when [workspaceId] and every remaining argument
    convert to a string: [workspaceId] is in the path and nowhere else,
    and every remaining argument that is neither [null] nor [undefined]
    becomes one query parameter, its value the string [String(value)]
    gives, in the enumeration order of the argument bag, written by the
    form-urlencoded serializer after a question mark.  When one of them
    has no string, the invocation fails before any request. *)
Theorem get_projects_query_parameters :
  forall (rt : Runtime) (world : World) (config : ClockifyConfig)
         (args : JsObject) (log : list HttpRequest),
    apiKey config <> "" ->
    truthy (lookup "workspaceId" args) = true ->
    let remaining :=
      filter (fun kv => negb (is_nullish (snd kv))) (remove_key "workspaceId" args) in
    let query := map (fun kv => (fst kv, ToString rt (snd kv))) remaining in
    (stringable (lookup "workspaceId" args) = true ->
     all_stringable remaining = true ->
     snd (callTool rt world config "get_projects" (Some args) log)
     = (log ++ [ {| req_url :=
                      baseUrl config
                        ++ with_query
                             ("/workspaces/" ++ ToString rt (lookup "workspaceId" args)
                                ++ "/projects")
                             query;
                    req_method := GET;
                    req_headers := [("X-Api-Key", apiKey config);
                                    ("Content-Type", "application/json")];
                    req_body := None |} ])%list)
    /\ (stringable (lookup "workspaceId" args) && all_stringable remaining = false ->
        callTool rt world config "get_projects" (Some args) log
        = (Throw (McpError InternalError
                    ("Tool execution failed: " ++ fault_message rt NotPrimitive)),
           log))
    /\ ~ In "workspaceId" (map fst query)
    /\ (forall k x, In (k, x) args -> k <> "workspaceId" -> is_nullish x = false ->
                    In (k, ToString rt x) query)
    /\ (forall k v, In (k, v) query ->
                    exists x, In (k, x) args /\ is_nullish x = false
                              /\ v = ToString rt x).
Proof.
  intros rt world config args log Hkey Hws remaining query.
  assert (Hall : all_stringable (remove_key "workspaceId" args)
                 = all_stringable remaining).
  { unfold remaining, all_stringable.
    induction (remove_key "workspaceId" args) as [|[k v] o IH]; simpl; [reflexivity|].
    destruct (is_nullish v) eqn:Hn; simpl; rewrite IH; [|reflexivity].
    destruct v; simpl in *; congruence. }
  assert (Hcase : dispatch rt world config "get_projects" (Some args) log
                  = getProjects rt world config args log).
  { change (dispatch rt world config "get_projects" (Some args))
      with (_ <- require (Some args) ["workspaceId"] "workspaceId is required" ;;
            getProjects rt world config args).
    unfold bind at 1. now rewrite require_true by (simpl; now rewrite Hws). }
  split; [|split; [|repeat split]].
  - intros Hs Hr. rewrite callTool_log, Hcase.
    unfold getProjects; cbv zeta.
    erewrite bind_ok by (apply build_query_ok; now rewrite Hall).
    erewrite bind_ok by (now apply to_string_ok).
    rewrite request_then_render by silence.
    destruct (String.eqb_spec (apiKey config) ""); [contradiction | reflexivity].
  - intro Hno. apply callTool_native. rewrite Hcase.
    unfold getProjects; cbv zeta.
    destruct (all_stringable remaining) eqn:Hr.
    + erewrite bind_ok by (apply build_query_ok; now rewrite Hall).
      rewrite andb_true_r in Hno.
      apply bind_throw. now apply to_string_throws.
    + apply bind_throw. apply build_query_throws. now rewrite Hall.
  - unfold query, remaining. rewrite map_map. simpl. intro H.
    apply in_map_iff in H as [[k v] [E H]]. simpl in E. subst k.
    apply filter_In in H as [H _]. apply remove_key_In in H. tauto.
  - intros k x Hin Hk Hx. unfold query, remaining.
    apply in_map_iff. exists (k, x). split; [reflexivity|].
    apply filter_In. split; [apply remove_key_In; tauto | simpl; now rewrite Hx].
  - intros k v Hin. unfold query, remaining in Hin.
    apply in_map_iff in Hin as [[k' x] [E H]]. simpl in E. inversion E; subst.
    apply filter_In in H as [H Hx]. apply remove_key_In in H as [H _].
    exists x. simpl in Hx. destruct (is_nullish x); [discriminate|]. tauto.
Qed.

Lemma get_projects_query_parameters_witness :
  apiKey configured <> ""
  /\ snd (run (callTool small_engine (scripted (answers 200 "[]") 0) configured
                 "get_projects"
                 (Some [("workspaceId", JStr "w1"); ("archived", JBool true);
                        ("pageSize", JNum (Int 10))])))
     = [ {| req_url :=
              "https://api.clockify.me/api/v1/workspaces/w1/projects?archived=true&pageSize=10";
            req_method := GET;
            req_headers := [("X-Api-Key", "secret"); ("Content-Type", "application/json")];
            req_body := None |} ].
Proof.
  assert (Hkey : apiKey configured <> "") by (simpl; discriminate).
  split; [exact Hkey|].
  destruct (get_projects_query_parameters small_engine
              (scripted (answers 200 "[]") 0) configured
              [("workspaceId", JStr "w1"); ("archived", JBool true);
               ("pageSize", JNum (Int 10))] [] Hkey eq_refl) as (Hreq & _).
  exact (Hreq eq_refl eq_refl).
Defined.

(** An argument that has no string: [String(value)] throws on an object
    with an own [toString] property, and no request goes out. *)
Lemma unconvertible_argument_stops_get_projects :
  run (callTool small_engine (scripted (answers 200 "[]") 0) configured
         "get_projects"
         (Some [("workspaceId", JStr "w1");
                ("archived", JObj [("toString", JNum (Int 1))])]))
  = (Throw (McpError InternalError "Tool execution failed: TypeError"), []).
Proof. reflexivity. Qed.

(** A number from 1e21 on is written by the engine in exponent form. *)
Lemma large_page_is_sent_in_exponent_form :
  snd (run (callTool small_engine (scripted (answers 200 "[]") 0) configured
              "get_projects"
              (Some [("workspaceId", JStr "w1");
                     ("page", JNum (Int 1000000000000000000000))])))
  = [ {| req_url :=
           "https://api.clockify.me/api/v1/workspaces/w1/projects?page=1e%2B21";
         req_method := GET;
         req_headers := [("X-Api-Key", "secret"); ("Content-Type", "application/json")];
         req_body := None |} ].
Proof. reflexivity. Qed.

(** *** Report payloads *)

Lemma remove_key_filter (k : string) (o : JsObject) :
  remove_key k o = filter (fun kv => negb (k =? fst kv)%string) o.
Proof.
  induction o as [|[k' v] o IH]; simpl; [reflexivity|].
  destruct (k =? k')%string; simpl; now rewrite IH.
Qed.

Lemma filter_twice {A : Type} (f g : A -> bool) (l : list A) :
  filter f (filter g l) = filter (fun x => g x && f x) l.
Proof.
  induction l as [|x l IH]; simpl; [reflexivity|].
  destruct (g x); simpl; [destruct (f x)|]; now rewrite IH.
Qed.

Lemma NoDup_keys_filter (f : string * JsVal -> bool) (o : JsObject) :
  NoDup (map fst o) -> NoDup (map fst (filter f o)).
Proof.
  induction o as [|[k v] o IH]; simpl; intro H; [constructor|].
  inversion H as [|? ? Hout Hnd]; subst.
  destruct (f (k, v)); simpl; [|now apply IH].
  constructor; [|now apply IH].
  intro Hin. apply Hout. apply in_map_iff in Hin as [x [E Hx]].
  apply filter_In in Hx as [Hx _]. apply in_map_iff. now exists x.
Qed.

(** One round of the stripping loop, for the key [k]. *)
Lemma strip_step (k : string) (ks : list string) (p : JsObject) :
  NoDup (map fst p) ->
  filter (fun kv => negb (existsb (String.eqb (fst kv)) ks && is_undefined (snd kv)))
    (if is_undefined (lookup k p) then remove_key k p else p)
  = filter (fun kv => negb (existsb (String.eqb (fst kv)) (k :: ks)
                            && is_undefined (snd kv))) p.
Proof.
  intro Hnd. destruct (is_undefined (lookup k p)) eqn:Hu.
  - rewrite remove_key_filter, filter_twice. apply filter_ext_in.
    intros [k' v] Hin. simpl.
    destruct (String.eqb_spec k k') as [<-|Hne].
    + rewrite String.eqb_refl. simpl.
      pose proof (NoDup_lookup p k v Hnd Hin) as E. subst v. now rewrite Hu.
    + destruct (String.eqb_spec k' k); [congruence | reflexivity].
  - apply filter_ext_in. intros [k' v] Hin. simpl.
    destruct (String.eqb_spec k' k) as [->|Hne]; [|reflexivity].
    pose proof (NoDup_lookup p k v Hnd Hin) as E. subst v.
    rewrite Hu. now rewrite !andb_false_r.
Qed.

Lemma strip_loop (ks : list string) (p : JsObject) :
  NoDup (map fst p) ->
  fold_left (fun p key => if is_undefined (lookup key p) then remove_key key p else p)
    ks p
  = filter (fun kv => negb (existsb (String.eqb (fst kv)) ks && is_undefined (snd kv))) p.
Proof.
  revert p. induction ks as [|k ks IH]; intros p Hnd; simpl.
  - clear Hnd. induction p as [|x p IHp]; simpl; congruence.
  - rewrite IH.
    + now apply strip_step.
    + destruct (is_undefined (lookup k p)); [|assumption].
      rewrite remove_key_filter. now apply NoDup_keys_filter.
Qed.

(** The stripping loop removes exactly the properties bound to
    [undefined]. *)
Lemma strip_undefined_spec (payload : JsObject) :
  NoDup (map fst payload) ->
  strip_undefined payload = filter (fun kv => negb (is_undefined (snd kv))) payload.
Proof.
  intro Hnd. unfold strip_undefined. rewrite strip_loop by assumption.
  apply filter_ext_in. intros [k v] Hin. simpl.
  replace (existsb (String.eqb k) (map fst payload)) with true; [reflexivity|].
  symmetry. apply existsb_exists. exists k. split; [|apply String.eqb_refl].
  apply in_map_iff. now exists (k, v).
Qed.

Lemma JSON_stringify_obj (ps : JsObject) :
  JSON_stringify (JObj ps) = Some (JObj (stringify_props ps)).
Proof.
  reflexivity.
Qed.

Lemma JSON_stringify_none (v : JsVal) :
  JSON_stringify v = None <-> v = JUndefined.
Proof.
  destruct v as [| | |x| | |]; try destruct x; simpl; split; intro H; congruence.
Qed.

Lemma JSON_stringify_defined (v j : JsVal) :
  JSON_stringify v = Some j -> j <> JUndefined.
Proof.
  destruct v as [| | |x| | |]; try destruct x; simpl; intro H; inversion H; discriminate.
Qed.

Lemma stringify_props_In (k : string) (j : JsVal) (ps : JsObject) :
  In (k, j) (stringify_props ps) <->
  exists v, In (k, v) ps /\ JSON_stringify v = Some j.
Proof.
  induction ps as [|[k' v'] ps IH]; simpl.
  - split; [tauto | intros [v [[] _]]].
  - destruct (JSON_stringify v') as [j'|] eqn:E; simpl; rewrite IH; split.
    + intros [H|[v [H1 H2]]].
      * inversion H; subst. exists v'. tauto.
      * exists v. tauto.
    + intros [v [[H|H] H2]].
      * inversion H; subst. left. congruence.
      * right. now exists v.
    + intros [v [H1 H2]]. exists v. tauto.
    + intros [v [[H|H] H2]].
      * inversion H; subst. congruence.
      * now exists v.
Qed.

(** Stripping first changes nothing in what is written: [JSON.stringify]
    leaves out an [undefined] property by itself. *)
Lemma stringify_props_defined (ps : JsObject) :
  stringify_props (filter (fun kv => negb (is_undefined (snd kv))) ps)
  = stringify_props ps.
Proof.
  induction ps as [|[k v] ps IH]; simpl; [reflexivity|].
  destruct v; simpl; now rewrite IH.
Qed.

Lemma lookup_stringify_props (k : string) (j : JsVal) (ps : JsObject) :
  JSON_stringify (lookup k ps) = Some j -> lookup k (stringify_props ps) = j.
Proof.
  induction ps as [|[k' v'] ps IH]; simpl; [discriminate|].
  destruct (String.eqb_spec k k') as [->|Hne].
  - intro H. rewrite H. simpl. now rewrite String.eqb_refl.
  - intro H. destruct (JSON_stringify v'); simpl.
    + destruct (String.eqb_spec k k'); [contradiction | now apply IH].
    + now apply IH.
Qed.

Lemma stringify_props_keys (k : string) (ps : JsObject) :
  In k (map fst (stringify_props ps)) -> In k (map fst ps).
Proof.
  intro H. apply in_map_iff in H as [[k' j] [E H]]. simpl in E. subst k'.
  apply stringify_props_In in H as [v [H _]].
  apply in_map_iff. now exists (k, v).
Qed.

Lemma truthy_stringify (v : JsVal) :
  truthy v = true -> exists j, JSON_stringify v = Some j.
Proof.
  destruct v as [| | |x| | |]; try destruct x; simpl; intro H; try discriminate;
    eexists; reflexivity.
Qed.

Lemma js_or_truthy (a d : JsVal) : truthy d = true -> truthy (js_or a d) = true.
Proof. intro H. unfold js_or. destruct (truthy a) eqn:E; assumption. Qed.

Lemma js_or_falsy (a d : JsVal) : truthy a = false -> js_or a d = d.
Proof. intro H. unfold js_or. now rewrite H. Qed.

Lemma js_or_stringable (a d : JsVal) :
  stringable a = true -> stringable d = true -> stringable (js_or a d) = true.
Proof. intros Ha Hd. unfold js_or. now destruct (truthy a). Qed.

(** A value that does not convert is an object, so it is truthy. *)
Lemma unstringable_truthy (v : JsVal) : stringable v = false -> truthy v = true.
Proof. destruct v; simpl; intro H; congruence. Qed.

(** The keys of an explicit payload are pairwise distinct. *)
Ltac distinct_keys :=
  simpl;
  repeat (constructor; [simpl; intuition discriminate|]);
  constructor.

Lemma detailed_payload_keys reportData pageSize :
  NoDup (map fst (detailed_payload reportData pageSize)).
Proof. distinct_keys. Qed.

Lemma summary_payload_keys reportData :
  NoDup (map fst (summary_payload reportData)).
Proof. distinct_keys. Qed.

(** [Math.min] converts its arguments, then compares. *)
Lemma to_primitive_ok rt v log :
  stringable v = true -> to_primitive rt v log = (Ok (primitive rt v), log).
Proof.
  intro H. destruct v; try reflexivity;
    unfold to_primitive, primitive; now erewrite bind_ok by (now apply to_string_ok).
Qed.

Lemma to_primitive_throws rt v log :
  stringable v = false ->
  to_primitive rt v log = (Throw (NativeError NotPrimitive), log).
Proof.
  intro H. destruct v; try discriminate;
    unfold to_primitive; apply bind_throw; now apply to_string_throws.
Qed.

Lemma Math_min_ok rt a b log :
  stringable a = true -> stringable b = true ->
  Math_min rt a b log = (Ok (min_of rt a b), log).
Proof.
  intros Ha Hb. unfold Math_min, ToNumber.
  erewrite bind_ok by (erewrite bind_ok by (now apply to_primitive_ok); reflexivity).
  erewrite bind_ok by (erewrite bind_ok by (now apply to_primitive_ok); reflexivity).
  reflexivity.
Qed.

Lemma Math_min_throws rt a b log :
  stringable a = false ->
  Math_min rt a b log = (Throw (NativeError NotPrimitive), log).
Proof.
  intro Ha. unfold Math_min, ToNumber.
  apply bind_throw. apply bind_throw. now apply to_primitive_throws.
Qed.

(** The minimum with a whole number is [NaN] or at most that number. *)
Lemma Number_min_le (x : Number) (m : Z) :
  Number_min x (Int m) = NaN \/ Number_leb (Number_min x (Int m)) (Int m) = true.
Proof.
  unfold Number_min. destruct x as [|z|n d|[|]]; simpl; try tauto; right.
  - destruct (z <=? m) eqn:E; simpl; [exact E | apply Z.leb_refl].
  - destruct (n <=? m * Z.pos d) eqn:E; simpl; [exact E | apply Z.leb_refl].
  - apply Z.leb_refl.
Qed.

Section Reports.

Variable rt : Runtime.
Variable world : World.
Variable config : ClockifyConfig.
Hypothesis has_key : apiKey config <> "".

(** What goes out for a report: the payload after the stripping loop is
    handed to [makeRequest] with the report-service base URL. *)
Lemma detailed_report_request args log :
  stringable (lookup "workspaceId" args) = true ->
  stringable (lookup "pageSize" args) = true ->
  snd (callTool rt world config "get_detailed_report" (Some args) log)
  = (log ++ [request_for config
               ("/workspaces/" ++ ToString rt (lookup "workspaceId" args)
                  ++ "/reports/detailed") POST
               (JObj (strip_undefined
                        (detailed_payload (remove_key "workspaceId" args)
                           (page_size_sent rt args))))
               (Some reports_base)])%list.
Proof.
  intros Hws Hps. rewrite callTool_log.
  change (dispatch rt world config "get_detailed_report" (Some args))
    with (getDetailedReport rt world config (Some args)).
  unfold getDetailedReport; cbv zeta.
  rewrite lookup_remove_key; simpl (_ =? _)%string; cbv iota.
  erewrite bind_ok
    by (apply Math_min_ok; [apply js_or_stringable; [exact Hps|] |]; reflexivity).
  erewrite bind_ok by (now apply to_string_ok).
  rewrite request_then_render by silence.
  destruct (String.eqb_spec (apiKey config) ""); [contradiction | reflexivity].
Qed.

(** Without a string for [workspaceId] or a number for [pageSize] the
    detailed report fails before its request. *)
Lemma detailed_report_not_sent args log :
  stringable (lookup "workspaceId" args) && stringable (lookup "pageSize" args) = false ->
  callTool rt world config "get_detailed_report" (Some args) log
  = (Throw (McpError InternalError
              ("Tool execution failed: " ++ fault_message rt NotPrimitive)), log).
Proof.
  intro Hno. apply callTool_native.
  change (dispatch rt world config "get_detailed_report" (Some args))
    with (getDetailedReport rt world config (Some args)).
  unfold getDetailedReport; cbv zeta.
  rewrite lookup_remove_key; simpl (_ =? _)%string; cbv iota.
  destruct (stringable (lookup "pageSize" args)) eqn:Hps.
  - erewrite bind_ok
      by (apply Math_min_ok; [apply js_or_stringable; [exact Hps|] |]; reflexivity).
    rewrite andb_true_r in Hno.
    apply bind_throw. now apply to_string_throws.
  - apply bind_throw. apply Math_min_throws.
    unfold js_or. now rewrite (unstringable_truthy _ Hps).
Qed.

Lemma summary_report_request args log :
  stringable (lookup "workspaceId" args) = true ->
  snd (callTool rt world config "get_summary_report" (Some args) log)
  = (log ++ [request_for config
               ("/workspaces/" ++ ToString rt (lookup "workspaceId" args)
                  ++ "/reports/summary") POST
               (JObj (strip_undefined (summary_payload (remove_key "workspaceId" args))))
               (Some reports_base)])%list.
Proof.
  intro Hws. rewrite callTool_log.
  change (dispatch rt world config "get_summary_report" (Some args))
    with (getSummaryReport rt world config (Some args)).
  unfold getSummaryReport; cbv zeta.
  erewrite bind_ok by (now apply to_string_ok).
  rewrite request_then_render by silence.
  destruct (String.eqb_spec (apiKey config) ""); [contradiction | reflexivity].
Qed.

Lemma summary_report_not_sent args log :
  stringable (lookup "workspaceId" args) = false ->
  callTool rt world config "get_summary_report" (Some args) log
  = (Throw (McpError InternalError
              ("Tool execution failed: " ++ fault_message rt NotPrimitive)), log).
Proof.
  intro Hno. apply callTool_native.
  change (dispatch rt world config "get_summary_report" (Some args))
    with (getSummaryReport rt world config (Some args)).
  unfold getSummaryReport; cbv zeta.
  apply bind_throw. now apply to_string_throws.
Qed.

(** The body written for a stripped payload. *)
Lemma stripped_body endpoint method payload base :
  NoDup (map fst payload) ->
  req_body (request_for config endpoint method (JObj (strip_undefined payload)) base)
  = Some (JObj (stringify_props payload)).
Proof.
  intro Hnd. simpl. rewrite strip_undefined_spec by assumption.
  now rewrite stringify_props_defined.
Qed.

(** The [detailedFilter] and [summaryFilter] of the body. *)
Lemma detailed_filter_sent reportData pageSize :
  lookup "detailedFilter" (stringify_props (detailed_payload reportData pageSize))
  = JObj (stringify_props (detailed_filter reportData pageSize)).
Proof. apply lookup_stringify_props. simpl lookup. apply JSON_stringify_obj. Qed.

Lemma summary_filter_sent reportData :
  lookup "summaryFilter" (stringify_props (summary_payload reportData))
  = JObj (stringify_props (summary_filter reportData)).
Proof. apply lookup_stringify_props. simpl lookup. apply JSON_stringify_obj. Qed.

Lemma detailed_filter_body reportData x :
  exists df,
    lookup "detailedFilter" (stringify_props (detailed_payload reportData (JNum x)))
    = JObj df
    /\ map fst df = ["sortColumn"; "sortOrder"; "page"; "pageSize"; "options"]
    /\ lookup "options" df = JObj [("totals", JStr "CALCULATE")]
    /\ JSON_stringify (js_or (lookup "sortColumn" reportData) (JStr "DATE"))
       = Some (lookup "sortColumn" df)
    /\ JSON_stringify (js_or (lookup "sortOrder" reportData) (JStr "DESCENDING"))
       = Some (lookup "sortOrder" df)
    /\ JSON_stringify (js_or (lookup "page" reportData) (JNum (Int 1)))
       = Some (lookup "page" df)
    /\ JSON_stringify (JNum x) = Some (lookup "pageSize" df).
Proof.
  eexists. split; [apply detailed_filter_sent|].
  destruct (truthy_stringify (js_or (lookup "sortColumn" reportData) (JStr "DATE")))
    as [j1 E1]; [now apply js_or_truthy|].
  destruct (truthy_stringify (js_or (lookup "sortOrder" reportData) (JStr "DESCENDING")))
    as [j2 E2]; [now apply js_or_truthy|].
  destruct (truthy_stringify (js_or (lookup "page" reportData) (JNum (Int 1))))
    as [j3 E3]; [now apply js_or_truthy|].
  unfold detailed_filter, stringify_props. rewrite E1, E2, E3.
  destruct x as [|z|n d|s]; simpl; repeat split.
Qed.

End Reports.

(** C5.  With a key, [get_detailed_report] issues its request when
    [workspaceId] and [pageSize] convert (neither is an object with an own
    [toString] property), and fails before any request otherwise.  The
    request is one POST to the report-service base URL, not to the primary
    API base URL.  Its body nests [sortColumn], [sortOrder], [page] and
    [pageSize] under [detailedFilter], next to the fixed [options.totals]
    of [CALCULATE], and has none of them at top level.  [sortColumn],
    [sortOrder] and [page] are the caller's values when these are truthy,
    and [DATE], [DESCENDING] and 1 otherwise.  The [pageSize] sent never
    exceeds 1000: a numeric [pageSize] is sent as its minimum with 1000
    (50 when it is 0). *)
Theorem detailed_report_request_shape :
  forall (rt : Runtime) (world : World) (key : string)
         (args : JsObject) (log : list HttpRequest),
    key <> "" ->
    (stringable (lookup "workspaceId" args) && stringable (lookup "pageSize" args)
     = false ->
     callTool rt world (config_of_env (Some key)) "get_detailed_report" (Some args) log
     = (Throw (McpError InternalError
                 ("Tool execution failed: " ++ fault_message rt NotPrimitive)), log))
    /\ (stringable (lookup "workspaceId" args) = true ->
        stringable (lookup "pageSize" args) = true ->
        exists url body df,
          snd (callTool rt world (config_of_env (Some key)) "get_detailed_report"
                 (Some args) log)
          = (log ++ [ {| req_url := url;
                         req_method := POST;
                         req_headers := [("X-Api-Key", key);
                                         ("Content-Type", "application/json")];
                         req_body := Some (JObj body) |} ])%list
          /\ url = reports_base ++ "/workspaces/"
                     ++ ToString rt (lookup "workspaceId" args) ++ "/reports/detailed"
          /\ prefix (baseUrl (config_of_env (Some key))) url = false
          /\ lookup "detailedFilter" body = JObj df
          /\ map fst df = ["sortColumn"; "sortOrder"; "page"; "pageSize"; "options"]
          /\ lookup "options" df = JObj [("totals", JStr "CALCULATE")]
          /\ JSON_stringify (js_or (lookup "sortColumn" args) (JStr "DATE"))
             = Some (lookup "sortColumn" df)
          /\ JSON_stringify (js_or (lookup "sortOrder" args) (JStr "DESCENDING"))
             = Some (lookup "sortOrder" df)
          /\ JSON_stringify (js_or (lookup "page" args) (JNum (Int 1)))
             = Some (lookup "page" df)
          /\ (forall x, lookup "pageSize" df = JNum x -> Number_leb x (Int 1000) = true)
          /\ (forall z, lookup "pageSize" args = JNum (Int z) ->
                        lookup "pageSize" df
                        = JNum (Int (if z =? 0 then 50 else Z.min z 1000)))
          /\ (forall k, In k ["sortColumn"; "sortOrder"; "page"; "pageSize"] ->
                        ~ In k (map fst body))).
Proof.
  intros rt world key args log Hkey.
  split; [now apply detailed_report_not_sent|].
  intros Hws Hps.
  set (reportData := remove_key "workspaceId" args).
  set (x := Number_min
              (prim_number rt
                 (primitive rt (js_or (lookup "pageSize" args) (JNum (Int 50)))))
              (Int 1000)).
  assert (Hpage : page_size_sent rt args = JNum x) by reflexivity.
  destruct (detailed_filter_body reportData x)
    as (df & Hdf & Hkeys & Hopt & Hcol & Hord & Hpg & Hsize).
  unfold reportData in Hcol, Hord, Hpg.
  rewrite lookup_remove_key in Hcol, Hord, Hpg. simpl in Hcol, Hord, Hpg.
  exists (reports_base ++ "/workspaces/" ++ ToString rt (lookup "workspaceId" args)
            ++ "/reports/detailed"),
    (stringify_props (detailed_payload reportData (JNum x))), df.
  split.
  { rewrite detailed_report_request by assumption. rewrite Hpage. do 2 f_equal.
    unfold request_for. f_equal.
    exact (stripped_body (config_of_env (Some key)) "" POST
             (detailed_payload reportData (JNum x)) None
             (detailed_payload_keys reportData (JNum x))). }
  split; [reflexivity|]. split; [reflexivity|].
  split; [exact Hdf|]. split; [exact Hkeys|]. split; [exact Hopt|].
  split; [exact Hcol|]. split; [exact Hord|]. split; [exact Hpg|].
  split; [|split].
  - intros y Hy. rewrite Hy in Hsize.
    destruct (Number_min_le
                (prim_number rt
                   (primitive rt (js_or (lookup "pageSize" args) (JNum (Int 50)))))
                1000) as [E|E]; fold x in E.
    + rewrite E in Hsize. discriminate.
    + destruct x; simpl in Hsize; inversion Hsize; subst; exact E.
  - intros z Hz. assert (Hx : x = Int (if z =? 0 then 50 else Z.min z 1000)).
    { unfold x. rewrite Hz. unfold js_or. simpl.
      destruct (Z.eqb_spec z 0) as [->|Hne]; simpl; [reflexivity|].
      unfold Number_min. simpl.
      destruct (Z.leb_spec z 1000); f_equal; lia. }
    rewrite Hx in Hsize. simpl in Hsize. congruence.
  - intros k Hk Hin. apply stringify_props_keys in Hin. simpl in Hk, Hin.
    repeat match type of Hk with _ \/ _ => destruct Hk as [<-|Hk] end;
      [intuition discriminate .. | exact Hk].
Qed.

Lemma detailed_report_request_shape_witness :
  "secret" <> ""
  /\ exists url body df,
       snd (run (callTool small_engine (scripted (answers 200 "{}") 0) configured
                   "get_detailed_report"
                   (Some [("workspaceId", JStr "w1");
                          ("dateRangeStart", JStr "2024-01-01T00:00:00Z");
                          ("dateRangeEnd", JStr "2024-01-31T23:59:59Z");
                          ("sortColumn", JStr "USER");
                          ("pageSize", JNum (Int 5000))])))
       = [ {| req_url := url;
              req_method := POST;
              req_headers := [("X-Api-Key", "secret");
                              ("Content-Type", "application/json")];
              req_body := Some (JObj body) |} ]
       /\ url = "https://reports.api.clockify.me/v1/workspaces/w1/reports/detailed"
       /\ lookup "detailedFilter" body = JObj df
       /\ lookup "sortColumn" df = JStr "USER"
       /\ lookup "sortOrder" df = JStr "DESCENDING"
       /\ lookup "page" df = JNum (Int 1)
       /\ lookup "pageSize" df = JNum (Int 1000).
Proof.
  assert (Hkey : "secret" <> "") by discriminate.
  split; [exact Hkey|].
  destruct (detailed_report_request_shape small_engine
              (scripted (answers 200 "{}") 0) "secret"
              [("workspaceId", JStr "w1");
               ("dateRangeStart", JStr "2024-01-01T00:00:00Z");
               ("dateRangeEnd", JStr "2024-01-31T23:59:59Z");
               ("sortColumn", JStr "USER");
               ("pageSize", JNum (Int 5000))] [] Hkey) as [_ Hsent].
  destruct (Hsent eq_refl eq_refl)
    as (url & body & df & Hreq & Hurl & _ & Hdf & _ & _ & Hcol & Hord & Hpg & _
        & Hsize & _).
  exists url, body, df. split; [exact Hreq|]. split; [exact Hurl|].
  split; [exact Hdf|].
  split; [simpl in Hcol; congruence|].
  split; [simpl in Hord; congruence|].
  split; [simpl in Hpg; congruence|].
  exact (Hsize 5000 eq_refl).
Defined.

Lemma stripped_In (payload : JsObject) (k : string) (v : JsVal) :
  NoDup (map fst payload) ->
  In (k, v) (strip_undefined payload) <-> In (k, v) payload /\ v <> JUndefined.
Proof.
  intro Hnd. rewrite strip_undefined_spec by assumption. rewrite filter_In. simpl.
  destruct v; simpl; intuition congruence.
Qed.

Lemma body_defined (payload : JsObject) (k : string) (j : JsVal) :
  In (k, j) (stringify_props payload) -> j <> JUndefined.
Proof.
  intro H. apply stringify_props_In in H as [v [_ Hv]].
  now apply JSON_stringify_defined in Hv.
Qed.

(** C6, amended.  With a key, either report issues its request when its
    converted arguments convert ([workspaceId], and [pageSize] for the
    detailed report), and fails before any request otherwise.  When
    [groups] is omitted (or falsy), [get_summary_report] sends
    [summaryFilter.groups] as [["PROJECT"]].  For either report the
    stripping loop removes exactly the top-level payload fields bound to
    [undefined], so the body has no key bound to [undefined]; a field the
    caller passes as [null], such as [billable], is not stripped and is
    sent as [null]. *)
Theorem report_defaults_and_stripping :
  forall (rt : Runtime) (world : World) (config : ClockifyConfig)
         (args : JsObject) (log : list HttpRequest),
    apiKey config <> "" ->
    (stringable (lookup "workspaceId" args) = true ->
     exists payload body sf,
        snd (callTool rt world config "get_summary_report" (Some args) log)
        = (log ++ [request_for config
                     ("/workspaces/" ++ ToString rt (lookup "workspaceId" args)
                        ++ "/reports/summary") POST
                     (JObj payload) (Some reports_base)])%list
        /\ req_body (request_for config
                       ("/workspaces/" ++ ToString rt (lookup "workspaceId" args)
                          ++ "/reports/summary") POST
                       (JObj payload) (Some reports_base))
           = Some (JObj body)
        /\ (forall k v,
              In (k, v) payload <->
              In (k, v) (summary_payload (remove_key "workspaceId" args))
              /\ v <> JUndefined)
        /\ (forall k j, In (k, j) body -> j <> JUndefined)
        /\ lookup "summaryFilter" body = JObj sf
        /\ (truthy (lookup "groups" args) = false ->
            lookup "groups" sf = JArr [JStr "PROJECT"])
        /\ (lookup "billable" args = JNull -> In ("billable", JNull) body))
    /\ (stringable (lookup "workspaceId" args) = true ->
        stringable (lookup "pageSize" args) = true ->
        exists payload body,
          snd (callTool rt world config "get_detailed_report" (Some args) log)
          = (log ++ [request_for config
                       ("/workspaces/" ++ ToString rt (lookup "workspaceId" args)
                          ++ "/reports/detailed") POST
                       (JObj payload) (Some reports_base)])%list
          /\ req_body (request_for config
                         ("/workspaces/" ++ ToString rt (lookup "workspaceId" args)
                            ++ "/reports/detailed")
                         POST (JObj payload) (Some reports_base))
             = Some (JObj body)
          /\ (forall k v,
                In (k, v) payload <->
                In (k, v) (detailed_payload (remove_key "workspaceId" args)
                             (page_size_sent rt args))
                /\ v <> JUndefined)
          /\ (forall k j, In (k, j) body -> j <> JUndefined)
          /\ (lookup "billable" args = JNull -> In ("billable", JNull) body))
    /\ (stringable (lookup "workspaceId" args) = false ->
        snd (callTool rt world config "get_summary_report" (Some args) log) = log)
    /\ (stringable (lookup "workspaceId" args) && stringable (lookup "pageSize" args)
        = false ->
        snd (callTool rt world config "get_detailed_report" (Some args) log) = log).
Proof.
  intros rt world config args log Hkey.
  set (reportData := remove_key "workspaceId" args).
  assert (Hbill : lookup "billable" reportData = lookup "billable" args).
  { unfold reportData. now rewrite lookup_remove_key. }
  split; [|split; [|split]].
  - intro Hws.
    exists (strip_undefined (summary_payload reportData)),
      (stringify_props (summary_payload reportData)).
    exists (stringify_props (summary_filter reportData)).
    split; [now apply summary_report_request|].
    split; [apply stripped_body, summary_payload_keys|].
    split; [intros; apply stripped_In, summary_payload_keys|].
    split; [intros k j; apply body_defined|].
    split; [|split].
    + apply summary_filter_sent.
    + intro Hg. apply lookup_stringify_props. simpl lookup.
      unfold reportData. rewrite lookup_remove_key. simpl.
      now rewrite (js_or_falsy _ _ Hg).
    + intro Hnull. apply stringify_props_In. exists JNull. split; [|reflexivity].
      rewrite <- Hnull, <- Hbill. simpl. tauto.
  - intros Hws Hps.
    exists (strip_undefined (detailed_payload reportData (page_size_sent rt args))),
      (stringify_props (detailed_payload reportData (page_size_sent rt args))).
    split; [now apply detailed_report_request|].
    split; [apply stripped_body, detailed_payload_keys|].
    split; [intros; apply stripped_In, detailed_payload_keys|].
    split; [intros k j; apply body_defined|].
    intro Hnull. apply stringify_props_In. exists JNull. split; [|reflexivity].
    rewrite <- Hnull, <- Hbill. simpl. tauto.
  - intro Hno. now rewrite summary_report_not_sent.
  - intro Hno. now rewrite detailed_report_not_sent.
Qed.

Lemma report_defaults_and_stripping_witness :
  apiKey configured <> ""
  /\ exists payload body sf,
       snd (run (callTool small_engine (scripted (answers 200 "{}") 0) configured
                   "get_summary_report"
                   (Some [("workspaceId", JStr "w1");
                          ("dateRangeStart", JStr "2024-01-01T00:00:00Z");
                          ("dateRangeEnd", JStr "2024-01-31T23:59:59Z")])))
       = [request_for configured "/workspaces/w1/reports/summary" POST
            (JObj payload) (Some reports_base)]
       /\ req_body (request_for configured "/workspaces/w1/reports/summary" POST
                      (JObj payload) (Some reports_base))
          = Some (JObj body)
       /\ lookup "summaryFilter" body = JObj sf
       /\ lookup "groups" sf = JArr [JStr "PROJECT"].
Proof.
  assert (Hkey : apiKey configured <> "") by (simpl; discriminate).
  split; [exact Hkey|].
  destruct (report_defaults_and_stripping small_engine
              (scripted (answers 200 "{}") 0) configured
              [("workspaceId", JStr "w1");
               ("dateRangeStart", JStr "2024-01-01T00:00:00Z");
               ("dateRangeEnd", JStr "2024-01-31T23:59:59Z")] [] Hkey)
    as (Hsummary & _).
  destruct (Hsummary eq_refl)
    as (payload & body & sf & Hreq & Hbody & _ & _ & Hsf & Hgroups & _).
  exists payload, body, sf.
  split; [exact Hreq|]. split; [exact Hbody|]. split; [exact Hsf|].
  exact (Hgroups eq_refl).
Defined.

(** A body with a key bound to [null]: the caller passed [billable: null]. *)
Lemma null_filter_is_sent_as_null :
  snd (run (callTool small_engine (scripted (answers 200 "{}") 0) configured
              "get_summary_report"
              (Some [("workspaceId", JStr "w1");
                     ("dateRangeStart", JStr "2024-01-01T00:00:00Z");
                     ("dateRangeEnd", JStr "2024-01-31T23:59:59Z");
                     ("billable", JNull)])))
  = [ {| req_url := "https://reports.api.clockify.me/v1/workspaces/w1/reports/summary";
         req_method := POST;
         req_headers := [("X-Api-Key", "secret"); ("Content-Type", "application/json")];
         req_body :=
           Some (JObj [("dateRangeStart", JStr "2024-01-01T00:00:00Z");
                       ("dateRangeEnd", JStr "2024-01-31T23:59:59Z");
                       ("summaryFilter",
                         JObj [("groups", JArr [JStr "PROJECT"]);
                               ("sortColumn", JStr "DURATION");
                               ("sortOrder", JStr "DESCENDING")]);
                       ("billable", JNull);
                       ("exportType", JStr "JSON")]) |} ].
Proof. reflexivity. Qed.

(** *** Defaulted arguments *)

(** Decides the comparisons of literal keys left by [lookup_remove_key]. *)
Ltac compare_keys :=
  rewrite ?lookup_remove_key;
  cbn [String.eqb Ascii.eqb Bool.eqb].

Section Defaults.

Variable rt : Runtime.
Variable world : World.
Variable config : ClockifyConfig.

Lemma detailed_payload_falsy f args pageSize :
  In f ["sortColumn"; "sortOrder"; "page"; "pageSize"; "exportType"] ->
  truthy (lookup f args) = false ->
  detailed_payload (remove_key "workspaceId" (remove_key f args)) pageSize
  = detailed_payload (remove_key "workspaceId" args) pageSize.
Proof.
  intros Hf H. simpl in Hf.
  repeat match type of Hf with _ \/ _ => destruct Hf as [<-|Hf] end;
    [ .. | contradiction];
    unfold detailed_payload, detailed_filter; compare_keys;
    rewrite ?(js_or_falsy _ _ H); reflexivity.
Qed.

Lemma summary_payload_falsy f args :
  In f ["sortColumn"; "sortOrder"; "exportType"] ->
  truthy (lookup f args) = false ->
  summary_payload (remove_key "workspaceId" (remove_key f args))
  = summary_payload (remove_key "workspaceId" args).
Proof.
  intros Hf H. simpl in Hf.
  repeat match type of Hf with _ \/ _ => destruct Hf as [<-|Hf] end;
    [ .. | contradiction];
    unfold summary_payload, summary_filter; compare_keys;
    rewrite (js_or_falsy _ _ H); reflexivity.
Qed.

Lemma detailed_report_falsy f args log :
  In f ["sortColumn"; "sortOrder"; "page"; "pageSize"; "exportType"] ->
  truthy (lookup f args) = false ->
  callTool rt world config "get_detailed_report" (Some args) log
  = callTool rt world config "get_detailed_report" (Some (remove_key f args)) log.
Proof.
  intros Hf H. unfold callTool, try_catch.
  change (dispatch rt world config "get_detailed_report" ?a)
    with (getDetailedReport rt world config a).
  unfold getDetailedReport, detailed_payload, detailed_filter; cbv zeta.
  simpl in Hf.
  repeat match type of Hf with _ \/ _ => destruct Hf as [<-|Hf] end;
    [ .. | contradiction]; compare_keys;
    rewrite (js_or_falsy _ _ H); reflexivity.
Qed.

Lemma summary_report_falsy f args log :
  In f ["sortColumn"; "sortOrder"; "exportType"] ->
  truthy (lookup f args) = false ->
  callTool rt world config "get_summary_report" (Some args) log
  = callTool rt world config "get_summary_report" (Some (remove_key f args)) log.
Proof.
  intros Hf H. unfold callTool, try_catch.
  change (dispatch rt world config "get_summary_report" ?a)
    with (getSummaryReport rt world config a).
  unfold getSummaryReport; cbv zeta.
  rewrite (summary_payload_falsy f args Hf H).
  simpl in Hf.
  repeat match type of Hf with _ \/ _ => destruct Hf as [<-|Hf] end;
    [ .. | contradiction]; compare_keys; reflexivity.
Qed.

Lemma stop_time_entry_falsy args log :
  truthy (lookup "end" args) = false ->
  callTool rt world config "stop_time_entry" (Some args) log
  = callTool rt world config "stop_time_entry" (Some (remove_key "end" args)) log.
Proof.
  intro H. unfold callTool, try_catch.
  change (dispatch rt world config "stop_time_entry" ?a)
    with (_ <- require a ["workspaceId"; "userId"]
                 "workspaceId and userId are required" ;;
          stopTimeEntry rt world config (bag a)).
  unfold bind at 1 2. unfold require, stopTimeEntry. cbv zeta.
  cbn [forallb opt_lookup bag]. compare_keys.
  rewrite (js_or_falsy _ _ H). reflexivity.
Qed.

Lemma page_size_default args :
  truthy (lookup "pageSize" args) = false -> page_size_sent rt args = JNum (Int 50).
Proof. intro H. unfold page_size_sent. now rewrite (js_or_falsy _ _ H). Qed.

Lemma detailed_filter_defaults reportData pageSize :
  let df := stringify_props (detailed_filter reportData pageSize) in
  (truthy (lookup "page" reportData) = false -> lookup "page" df = JNum (Int 1))
  /\ (pageSize = JNum (Int 50) -> lookup "pageSize" df = JNum (Int 50))
  /\ (truthy (lookup "sortColumn" reportData) = false ->
      lookup "sortColumn" df = JStr "DATE")
  /\ (truthy (lookup "sortOrder" reportData) = false ->
      lookup "sortOrder" df = JStr "DESCENDING").
Proof.
  repeat split; intro H; apply lookup_stringify_props; simpl lookup;
    rewrite ?(js_or_falsy _ _ H), ?H; reflexivity.
Qed.

Lemma summary_filter_defaults reportData :
  let sf := stringify_props (summary_filter reportData) in
  (truthy (lookup "sortColumn" reportData) = false ->
   lookup "sortColumn" sf = JStr "DURATION")
  /\ (truthy (lookup "sortOrder" reportData) = false ->
      lookup "sortOrder" sf = JStr "DESCENDING")
  /\ (truthy (lookup "groups" reportData) = false ->
      lookup "groups" sf = JArr [JStr "PROJECT"]).
Proof.
  repeat split; intro H; apply lookup_stringify_props; simpl lookup;
    rewrite (js_or_falsy _ _ H); reflexivity.
Qed.

Lemma stop_time_entry_request args log :
  apiKey config <> "" ->
  truthy (lookup "workspaceId" args) = true ->
  truthy (lookup "userId" args) = true ->
  stringable (lookup "workspaceId" args) = true ->
  stringable (lookup "userId" args) = true ->
  snd (callTool rt world config "stop_time_entry" (Some args) log)
  = (log ++ [request_for config
               ("/workspaces/" ++ ToString rt (lookup "workspaceId" args) ++ "/user/"
                  ++ ToString rt (lookup "userId" args) ++ "/time-entries")
               PATCH
               (JObj [("end", js_or (lookup "end" args)
                                (JStr (toISOString (clock world))))])
               None])%list.
Proof.
  intros Hkey Hw Hu Hsw Hsu. rewrite callTool_log.
  change (dispatch rt world config "stop_time_entry" (Some args))
    with (_ <- require (Some args) ["workspaceId"; "userId"]
                 "workspaceId and userId are required" ;;
          stopTimeEntry rt world config args).
  unfold bind at 1. rewrite require_true by (simpl; now rewrite Hw, Hu).
  unfold stopTimeEntry; cbv zeta.
  erewrite bind_ok by (now apply to_string_ok).
  erewrite bind_ok by (now apply to_string_ok).
  rewrite request_then_render by silence.
  destruct (String.eqb_spec (apiKey config) ""); [contradiction | reflexivity].
Qed.

End Defaults.

(** C10.  For the arguments the handlers default with [||], a falsy value
    is an omitted value: the invocation with the falsy value and the
    invocation without the argument have the same outcome and issue the
    same request.  So, when the identifiers convert and the request goes
    out, [get_detailed_report] sends [pageSize] 50 for a [pageSize] of 0
    and [page] 1 for a [page] of 0, [get_summary_report] sends
    [sortColumn] [DURATION] for an empty [sortColumn], and
    [stop_time_entry] sends the current instant for an empty [end]. *)
Theorem falsy_argument_is_omitted_argument :
  forall (rt : Runtime) (world : World) (config : ClockifyConfig)
         (args : JsObject) (log : list HttpRequest),
    apiKey config <> "" ->
    (forall f,
        In f ["sortColumn"; "sortOrder"; "page"; "pageSize"; "exportType"] ->
        truthy (lookup f args) = false ->
        callTool rt world config "get_detailed_report" (Some args) log
        = callTool rt world config "get_detailed_report" (Some (remove_key f args)) log)
    /\ (forall f,
          In f ["sortColumn"; "sortOrder"; "exportType"] ->
          truthy (lookup f args) = false ->
          callTool rt world config "get_summary_report" (Some args) log
          = callTool rt world config "get_summary_report" (Some (remove_key f args)) log)
    /\ (truthy (lookup "end" args) = false ->
        callTool rt world config "stop_time_entry" (Some args) log
        = callTool rt world config "stop_time_entry" (Some (remove_key "end" args)) log)
    /\ (stringable (lookup "workspaceId" args) = true ->
        stringable (lookup "pageSize" args) = true ->
        exists body df,
          snd (callTool rt world config "get_detailed_report" (Some args) log)
          = (log ++ [ {| req_url := reports_base ++ "/workspaces/"
                                      ++ ToString rt (lookup "workspaceId" args)
                                      ++ "/reports/detailed";
                         req_method := POST;
                         req_headers := [("X-Api-Key", apiKey config);
                                         ("Content-Type", "application/json")];
                         req_body := Some (JObj body) |} ])%list
          /\ lookup "detailedFilter" body = JObj df
          /\ (truthy (lookup "pageSize" args) = false ->
              lookup "pageSize" df = JNum (Int 50))
          /\ (truthy (lookup "page" args) = false -> lookup "page" df = JNum (Int 1)))
    /\ (stringable (lookup "workspaceId" args) = true ->
        exists body sf,
          snd (callTool rt world config "get_summary_report" (Some args) log)
          = (log ++ [ {| req_url := reports_base ++ "/workspaces/"
                                      ++ ToString rt (lookup "workspaceId" args)
                                      ++ "/reports/summary";
                         req_method := POST;
                         req_headers := [("X-Api-Key", apiKey config);
                                         ("Content-Type", "application/json")];
                         req_body := Some (JObj body) |} ])%list
          /\ lookup "summaryFilter" body = JObj sf
          /\ (truthy (lookup "sortColumn" args) = false ->
              lookup "sortColumn" sf = JStr "DURATION"))
    /\ (truthy (lookup "workspaceId" args) = true ->
        truthy (lookup "userId" args) = true ->
        stringable (lookup "workspaceId" args) = true ->
        stringable (lookup "userId" args) = true ->
        truthy (lookup "end" args) = false ->
        snd (callTool rt world config "stop_time_entry" (Some args) log)
        = (log ++ [ {| req_url := baseUrl config ++ "/workspaces/"
                                    ++ ToString rt (lookup "workspaceId" args)
                                    ++ "/user/" ++ ToString rt (lookup "userId" args)
                                    ++ "/time-entries";
                       req_method := PATCH;
                       req_headers := [("X-Api-Key", apiKey config);
                                       ("Content-Type", "application/json")];
                       req_body :=
                         Some (JObj [("end", JStr (toISOString (clock world)))]) |} ])%list).
Proof.
  intros rt world config args log Hkey.
  set (reportData := remove_key "workspaceId" args).
  assert (Hsame : forall k, (k =? "workspaceId")%string = false ->
                            lookup k reportData = lookup k args).
  { intros k Hk. unfold reportData. now rewrite lookup_remove_key, Hk. }
  split; [intros; now apply detailed_report_falsy|].
  split; [intros; now apply summary_report_falsy|].
  split; [intros; now apply stop_time_entry_falsy|].
  split; [|split].
  - intros Hws Hps.
    exists (stringify_props (detailed_payload reportData (page_size_sent rt args))),
      (stringify_props (detailed_filter reportData (page_size_sent rt args))).
    destruct (detailed_filter_defaults reportData (page_size_sent rt args))
      as (Hpage & Hsize & _).
    split; [|split; [apply detailed_filter_sent | split]].
    + rewrite detailed_report_request by assumption. do 2 f_equal.
      unfold request_for. f_equal.
      exact (stripped_body config "" POST
               (detailed_payload reportData (page_size_sent rt args)) None
               (detailed_payload_keys reportData (page_size_sent rt args))).
    + intro H. apply Hsize. now apply page_size_default.
    + intro H. apply Hpage. now rewrite (Hsame "page" eq_refl).
  - intro Hws.
    exists (stringify_props (summary_payload reportData)),
      (stringify_props (summary_filter reportData)).
    destruct (summary_filter_defaults reportData) as (Hcol & _).
    split; [|split; [apply summary_filter_sent|]].
    + rewrite summary_report_request by assumption. do 2 f_equal.
      unfold request_for. f_equal.
      exact (stripped_body config "" POST (summary_payload reportData) None
               (summary_payload_keys reportData)).
    + intro H. apply Hcol. now rewrite (Hsame "sortColumn" eq_refl).
  - intros Hw Hu Hsw Hsu He. rewrite stop_time_entry_request by assumption.
    do 2 f_equal. unfold request_for. now rewrite (js_or_falsy _ _ He).
Qed.

Lemma falsy_argument_is_omitted_argument_witness :
  apiKey configured <> ""
  /\ snd (run (callTool small_engine (scripted (answers 200 "{}") 1705276800000)
                 configured "stop_time_entry"
                 (Some [("workspaceId", JStr "w1"); ("userId", JStr "u1");
                        ("end", JStr "")])))
     = [ {| req_url := "https://api.clockify.me/api/v1/workspaces/w1/user/u1/time-entries";
            req_method := PATCH;
            req_headers := [("X-Api-Key", "secret"); ("Content-Type", "application/json")];
            req_body := Some (JObj [("end", JStr "2024-01-15T00:00:00.000Z")]) |} ]
  /\ callTool small_engine (scripted (answers 200 "{}") 0) configured
       "get_detailed_report"
       (Some [("workspaceId", JStr "w1"); ("pageSize", JNum (Int 0))]) []
     = callTool small_engine (scripted (answers 200 "{}") 0) configured
         "get_detailed_report" (Some [("workspaceId", JStr "w1")]) [].
Proof.
  assert (Hkey : apiKey configured <> "") by (simpl; discriminate).
  split; [exact Hkey|]. split.
  - destruct (falsy_argument_is_omitted_argument small_engine
                (scripted (answers 200 "{}") 1705276800000) configured
                [("workspaceId", JStr "w1"); ("userId", JStr "u1"); ("end", JStr "")]
                [] Hkey) as (_ & _ & _ & _ & _ & Hstop).
    exact (Hstop eq_refl eq_refl eq_refl eq_refl eq_refl).
  - destruct (falsy_argument_is_omitted_argument small_engine
                (scripted (answers 200 "{}") 0) configured
                [("workspaceId", JStr "w1"); ("pageSize", JNum (Int 0))]
                [] Hkey) as (Hdetailed & _).
    exact (Hdetailed "pageSize" (or_intror (or_intror (or_intror (or_introl eq_refl))))
             eq_refl).
Defined.

(** *** Dates of time entries *)

Lemma includes_char_app (c : ascii) (a b : string) :
  includes_char c (a ++ b) = includes_char c a || includes_char c b.
Proof.
  induction a as [|c' a IH]; simpl; [reflexivity|].
  destruct (Ascii.eqb c c'); [reflexivity | exact IH].
Qed.

(** An ISO-8601 instant has the date/time separator. *)
Lemma toISOString_has_T (t : Z) : includes_char "T"%char (toISOString t) = true.
Proof.
  unfold toISOString. destruct (civil_from_days (t / msPerDay)) as [[y m] d].
  rewrite !includes_char_app.
  replace (includes_char "T"%char "T") with true by reflexivity.
  now rewrite !orb_true_r.
Qed.

Lemma log_grows {A : Type} (log : list A) (x : A) : log <> (log ++ [x])%list.
Proof.
  intro H. apply (f_equal (@List.length A)) in H.
  rewrite length_app in H. simpl in H. lia.
Qed.

Section TimeEntryDates.

Variable rt : Runtime.
Variable world : World.
Variable config : ClockifyConfig.

Lemma normalize_required_frame k data data' log log' k' :
  normalize_required rt k data log = (Ok data', log') ->
  (k' =? k)%string = false ->
  lookup k' data' = lookup k' data.
Proof.
  unfold normalize_required, reserialize, bind. intros H Hk.
  destruct (includes_T (lookup k data) log) as [[[]|e] l]; simpl in H;
    try discriminate.
  - inversion H. now subst.
  - destruct (Date_construct rt (lookup k data) l) as [[d|e] l'];
      simpl in H; [|discriminate].
    destruct (Date_toISOString d l') as [[iso|e] l''];
      simpl in H; [|discriminate].
    inversion H. subst. now rewrite lookup_assign, Hk.
Qed.

Lemma normalize_if_present_frame k data data' log log' k' :
  normalize_if_present rt k data log = (Ok data', log') ->
  (k' =? k)%string = false ->
  lookup k' data' = lookup k' data.
Proof.
  unfold normalize_if_present. destruct (truthy (lookup k data)).
  - apply normalize_required_frame.
  - intros H _. inversion H. now subst.
Qed.

Lemma normalize_required_string k data data' log log' s :
  normalize_required rt k data log = (Ok data', log') ->
  lookup k data = JStr s ->
  date_field_sent rt false s (lookup k data').
Proof.
  unfold normalize_required, reserialize, Date_construct, bind. intros H Hs.
  rewrite Hs in H. cbn [includes_T to_primitive ret] in H. unfold date_field_sent.
  destruct (includes_char "T"%char s); cbn [negb andb] in H |- *.
  - inversion H. now subst.
  - destruct (new_Date rt (JStr s)) as [t|]; cbn [Date_toISOString ret throw] in H;
      [|discriminate].
    inversion H. subst. exists t. rewrite lookup_assign, String.eqb_refl.
    split; [reflexivity|]. split; [reflexivity | apply toISOString_has_T].
Qed.

Lemma normalize_if_present_string k data data' log log' s :
  normalize_if_present rt k data log = (Ok data', log') ->
  lookup k data = JStr s ->
  date_field_sent rt true s (lookup k data').
Proof.
  unfold normalize_if_present. intros H Hs. rewrite Hs in H. simpl in H.
  destruct (String.eqb_spec s "") as [E|Hne]; simpl in H.
  - inversion H. subst. unfold date_field_sent. simpl. exact Hs.
  - pose proof (normalize_required_string k data data' log log' s H Hs) as Hsent.
    unfold date_field_sent in *. simpl.
    destruct (includes_char "T"%char s); [exact Hsent|].
    destruct (String.eqb_spec s ""); [contradiction | exact Hsent].
Qed.

(** An invocation that issued a request got through both normalisation
    steps, and the request carries their result. *)
Lemma create_time_entry_sent args log req :
  snd (callTool rt world config "create_time_entry" (Some args) log)
  = (log ++ [req])%list ->
  exists data1 data2,
    normalize_required rt "start" (remove_key "workspaceId" args) log = (Ok data1, log)
    /\ normalize_if_present rt "end" data1 log = (Ok data2, log)
    /\ stringable (lookup "workspaceId" args) = true
    /\ req = request_for config
               ("/workspaces/" ++ ToString rt (lookup "workspaceId" args)
                  ++ "/time-entries") POST
               (JObj data2) None.
Proof.
  rewrite callTool_log.
  change (dispatch rt world config "create_time_entry" (Some args))
    with (_ <- require (Some args) ["workspaceId"] "workspaceId is required" ;;
          createTimeEntry rt world config args).
  unfold bind at 1.
  pose proof (silent_require (Some args) ["workspaceId"] "workspaceId is required" log)
    as Hq.
  destruct (require _ _ _ log) as [[[]|e] l]; simpl in Hq; subst l; simpl;
    [|intro H; now apply log_grows in H].
  unfold createTimeEntry; cbv zeta. unfold bind at 1.
  pose proof (silent_normalize_required rt "start" (remove_key "workspaceId" args) log)
    as H1.
  destruct (normalize_required rt "start" _ log) as [[data1|e] l] eqn:E1;
    simpl in H1; subst l; simpl; [|intro H; now apply log_grows in H].
  unfold bind at 1.
  pose proof (silent_normalize_if_present rt "end" data1 log) as H2.
  destruct (normalize_if_present rt "end" data1 log) as [[data2|e] l] eqn:E2;
    simpl in H2; subst l; simpl; [|intro H; now apply log_grows in H].
  unfold bind at 1.
  destruct (to_string_cases rt (lookup "workspaceId" args) log) as [[E3 Hs]|[E3 Hs]];
    rewrite E3; simpl; [|intro H; now apply log_grows in H].
  rewrite request_then_render by silence.
  destruct (apiKey config =? "")%string; intro H; [now apply log_grows in H|].
  apply app_inv_head in H. inversion H. now exists data1, data2.
Qed.

Lemma update_time_entry_sent args log req :
  snd (callTool rt world config "update_time_entry" (Some args) log)
  = (log ++ [req])%list ->
  exists data1 data2,
    normalize_if_present rt "start"
      (remove_key "timeEntryId" (remove_key "workspaceId" args)) log = (Ok data1, log)
    /\ normalize_if_present rt "end" data1 log = (Ok data2, log)
    /\ stringable (lookup "workspaceId" args) = true
    /\ stringable (lookup "timeEntryId" args) = true
    /\ req = request_for config
               ("/workspaces/" ++ ToString rt (lookup "workspaceId" args)
                  ++ "/time-entries/" ++ ToString rt (lookup "timeEntryId" args)) PUT
               (JObj data2) None.
Proof.
  rewrite callTool_log.
  change (dispatch rt world config "update_time_entry" (Some args))
    with (_ <- require (Some args) ["workspaceId"; "timeEntryId"]
                 "workspaceId and timeEntryId are required" ;;
          updateTimeEntry rt world config args).
  unfold bind at 1.
  pose proof (silent_require (Some args) ["workspaceId"; "timeEntryId"]
                "workspaceId and timeEntryId are required" log) as Hq.
  destruct (require _ _ _ log) as [[[]|e] l]; simpl in Hq; subst l; simpl;
    [|intro H; now apply log_grows in H].
  unfold updateTimeEntry; cbv zeta. unfold bind at 1.
  pose proof (silent_normalize_if_present rt "start"
                (remove_key "timeEntryId" (remove_key "workspaceId" args)) log) as H1.
  destruct (normalize_if_present rt "start" _ log) as [[data1|e] l] eqn:E1;
    simpl in H1; subst l; simpl; [|intro H; now apply log_grows in H].
  unfold bind at 1.
  pose proof (silent_normalize_if_present rt "end" data1 log) as H2.
  destruct (normalize_if_present rt "end" data1 log) as [[data2|e] l] eqn:E2;
    simpl in H2; subst l; simpl; [|intro H; now apply log_grows in H].
  unfold bind at 1.
  destruct (to_string_cases rt (lookup "workspaceId" args) log) as [[E3 Hs]|[E3 Hs]];
    rewrite E3; simpl; [|intro H; now apply log_grows in H].
  unfold bind at 1.
  destruct (to_string_cases rt (lookup "timeEntryId" args) log) as [[E4 Hs']|[E4 Hs']];
    rewrite E4; simpl; [|intro H; now apply log_grows in H].
  rewrite request_then_render by silence.
  destruct (apiKey config =? "")%string; intro H; [now apply log_grows in H|].
  apply app_inv_head in H. inversion H. now exists data1, data2.
Qed.

(** A string field goes into the body as it is. *)
Lemma date_field_in_body guarded s data k :
  date_field_sent rt guarded s (lookup k data) ->
  date_field_sent rt guarded s (lookup k (stringify_props data)).
Proof.
  unfold date_field_sent.
  destruct (includes_char "T"%char s); [|destruct (guarded && (s =? "")%string)].
  - intro H. apply lookup_stringify_props. now rewrite H.
  - intro H. apply lookup_stringify_props. now rewrite H.
  - intros [t [Ht [H HT]]]. exists t. split; [exact Ht|]. split; [|exact HT].
    apply lookup_stringify_props. now rewrite H.
Qed.

End TimeEntryDates.

(** *** One request at most *)

Section OneShot.

Variable rt : Runtime.
Variable world : World.
Variable config : ClockifyConfig.

Lemma one_shot_throw {A : Type} (e : Exn) : one_shot (@throw A e).
Proof. intro log. left. now exists e. Qed.

Lemma one_shot_request {A : Type} endpoint method data base (k : JsVal -> M A) :
  (forall v, silent (k v)) ->
  one_shot (bind (makeRequest rt world config endpoint method data base) k).
Proof.
  intros Hk log. destruct (String.eqb_spec (apiKey config) "") as [E|N].
  - left. exists config_error. now apply request_unconfigured.
  - right. eexists. rewrite request_then_render by exact Hk.
    destruct (String.eqb_spec (apiKey config) ""); [contradiction | reflexivity].
Qed.

Lemma one_shot_bind {A B : Type} (pre : M A) (k : A -> M B) :
  silent pre -> (forall a, one_shot (k a)) -> one_shot (bind pre k).
Proof.
  intros Hpre Hk log. unfold bind. specialize (Hpre log).
  destruct (pre log) as [[a|e] log']; simpl in Hpre; subst log'.
  - apply Hk.
  - left. now exists e.
Qed.

Lemma dispatch_one_shot name args : one_shot (dispatch rt world config name args).
Proof.
  unfold dispatch.
  repeat match goal with
         | |- context [name_is name ?l] => destruct (name_is name l)
         end;
    unfold getCurrentUser, getWorkspaces, getWorkspaceUsers, createTimeEntry,
      getTimeEntries, updateTimeEntry, deleteTimeEntry, stopTimeEntry, createProject,
      getProjects, getProject, updateProject, deleteProject, createTask, getTasks,
      getTask, updateTask, deleteTask, createClient, getClients, updateClient,
      deleteClient, createTag, getTags, updateTag, deleteTag, getDetailedReport,
      getSummaryReport; cbv zeta;
    repeat first
      [ apply one_shot_throw
      | apply one_shot_request; solve [silence]
      | apply one_shot_bind; [solve [silence] | intros]
      | match goal with
        | |- one_shot (match ?x with _ => _ end) => destruct x
        end ].
Qed.

(** Every invocation fails without a request or issues exactly one. *)
Lemma callTool_one_shot name args : one_shot (callTool rt world config name args).
Proof.
  intro log. destruct (dispatch_one_shot name args log) as [[e H]|[req H]].
  - left. unfold callTool, try_catch. rewrite H. eexists. reflexivity.
  - right. exists req. now rewrite callTool_log.
Qed.

End OneShot.

(** C3, amended.  Of a [create_time_entry] or [update_time_entry]
    invocation that issues its request: a [start] or [end] given as a
    string with a [T] goes out unchanged; one without a [T] goes out as
    the ISO-8601 instant of the date the engine parses it to, and that
    instant has a [T]; except that an empty [end], and for
    [update_time_entry] an empty [start], goes out unchanged.  An
    invocation whose [start] or [end] has no [T] and does not parse as a
    date (an empty one not being parsed where it goes out unchanged)
    fails without a request. *)
Theorem time_entry_dates_sent :
  forall (rt : Runtime) (world : World) (config : ClockifyConfig)
         (name : string) (args : JsObject) (log : list HttpRequest),
    name = "create_time_entry" \/ name = "update_time_entry" ->
    let guarded := (name =? "update_time_entry")%string in
    (forall req,
        snd (callTool rt world config name (Some args) log) = (log ++ [req])%list ->
        exists body,
          req_body req = Some (JObj body)
          /\ (forall s, lookup "start" args = JStr s ->
                        date_field_sent rt guarded s (lookup "start" body))
          /\ (forall s, lookup "end" args = JStr s ->
                        date_field_sent rt true s (lookup "end" body)))
    /\ (forall k s,
          k = "start" /\ (guarded = false \/ s <> "") \/ k = "end" /\ s <> "" ->
          lookup k args = JStr s ->
          includes_char "T"%char s = false ->
          new_Date rt (JStr s) = None ->
          exists e, callTool rt world config name (Some args) log = (Throw e, log)).
Proof.
  intros rt world config name args log Hname guarded.
  assert (Hsent :
    forall req,
      snd (callTool rt world config name (Some args) log) = (log ++ [req])%list ->
      exists body,
        req_body req = Some (JObj body)
        /\ (forall s, lookup "start" args = JStr s ->
                      date_field_sent rt guarded s (lookup "start" body))
        /\ (forall s, lookup "end" args = JStr s ->
                      date_field_sent rt true s (lookup "end" body))).
  { intros req Hreq. destruct Hname as [-> | ->].
    - apply create_time_entry_sent in Hreq as (d1 & d2 & H1 & H2 & _ & ->).
      exists (stringify_props d2). split; [reflexivity|]. split; intros s Hs.
      + apply date_field_in_body.
        rewrite (normalize_if_present_frame rt _ _ _ _ _ "start" H2) by reflexivity.
        apply (normalize_required_string rt _ _ _ _ _ _ H1).
        now rewrite lookup_remove_key.
      + apply date_field_in_body.
        apply (normalize_if_present_string rt _ _ _ _ _ _ H2).
        rewrite (normalize_required_frame rt _ _ _ _ _ "end" H1) by reflexivity.
        now rewrite lookup_remove_key.
    - apply update_time_entry_sent in Hreq as (d1 & d2 & H1 & H2 & _ & _ & ->).
      exists (stringify_props d2). split; [reflexivity|]. split; intros s Hs.
      + apply date_field_in_body.
        rewrite (normalize_if_present_frame rt _ _ _ _ _ "start" H2) by reflexivity.
        apply (normalize_if_present_string rt _ _ _ _ _ _ H1).
        now rewrite !lookup_remove_key.
      + apply date_field_in_body.
        apply (normalize_if_present_string rt _ _ _ _ _ _ H2).
        rewrite (normalize_if_present_frame rt _ _ _ _ _ "end" H1) by reflexivity.
        now rewrite !lookup_remove_key. }
  split; [exact Hsent|].
  intros k s Hk Hs HT Hnone.
  destruct (callTool_one_shot rt world config name (Some args) log) as [H|[req Hreq]];
    [exact H | exfalso].
  destruct (Hsent req Hreq) as (body & _ & Hstart & Hend).
  destruct Hk as [[-> Hg]|[-> Hne]].
  - specialize (Hstart s Hs). unfold date_field_sent in Hstart. rewrite HT in Hstart.
    destruct Hg as [Hg|Hne].
    + rewrite Hg in Hstart. cbn [andb] in Hstart.
      destruct Hstart as (t & Ht & _). congruence.
    + destruct (String.eqb_spec s ""); [contradiction|].
      rewrite andb_false_r in Hstart. destruct Hstart as (t & Ht & _). congruence.
  - specialize (Hend s Hs). unfold date_field_sent in Hend. rewrite HT in Hend.
    destruct (String.eqb_spec s ""); [contradiction|].
    cbn [andb] in Hend. destruct Hend as (t & Ht & _). congruence.
Qed.

Lemma time_entry_dates_sent_witness :
  ("create_time_entry" = "create_time_entry"
   \/ "create_time_entry" = "update_time_entry")
  /\ snd (run (callTool small_engine (scripted (answers 200 "{}") 0) configured
                 "create_time_entry"
                 (Some [("workspaceId", JStr "w1"); ("start", JStr "2024-01-15")])))
     = [ {| req_url := "https://api.clockify.me/api/v1/workspaces/w1/time-entries";
            req_method := POST;
            req_headers := [("X-Api-Key", "secret"); ("Content-Type", "application/json")];
            req_body := Some (JObj [("start", JStr "2024-01-15T00:00:00.000Z")]) |} ]
  /\ exists body,
       Some (JObj [("start", JStr "2024-01-15T00:00:00.000Z")]) = Some (JObj body)
       /\ date_field_sent small_engine false "2024-01-15" (lookup "start" body).
Proof.
  split; [now left|]. split; [reflexivity|].
  destruct (time_entry_dates_sent small_engine (scripted (answers 200 "{}") 0)
              configured "create_time_entry"
              [("workspaceId", JStr "w1"); ("start", JStr "2024-01-15")] []
              (or_introl eq_refl)) as [Hsent _].
  destruct (Hsent
              {| req_url := "https://api.clockify.me/api/v1/workspaces/w1/time-entries";
                 req_method := POST;
                 req_headers := [("X-Api-Key", "secret");
                                 ("Content-Type", "application/json")];
                 req_body := Some (JObj [("start", JStr "2024-01-15T00:00:00.000Z")]) |}
              eq_refl) as (body & Hbody & Hstart & _).
  exists body. split; [exact Hbody | exact (Hstart "2024-01-15" eq_refl)].
Defined.

(** Two values without a [T] that are not reserialized: an empty [start]
    of [update_time_entry] goes out as it is, and a [start] of
    [create_time_entry] that is no date makes the invocation fail before
    any request. *)
Lemma date_without_T_not_always_reserialized :
  includes_char "T"%char "" = false
  /\ snd (run (callTool small_engine (scripted (answers 200 "{}") 0) configured
                 "update_time_entry"
                 (Some [("workspaceId", JStr "w1"); ("timeEntryId", JStr "t1");
                        ("start", JStr "")])))
     = [ {| req_url := "https://api.clockify.me/api/v1/workspaces/w1/time-entries/t1";
            req_method := PUT;
            req_headers := [("X-Api-Key", "secret"); ("Content-Type", "application/json")];
            req_body := Some (JObj [("start", JStr "")]) |} ]
  /\ includes_char "T"%char "next Monday" = false
  /\ run (callTool small_engine (scripted (answers 200 "{}") 0) configured
            "create_time_entry"
            (Some [("workspaceId", JStr "w1"); ("start", JStr "next Monday")]))
     = (Throw (McpError InternalError "Tool execution failed: Invalid time value"), []).
Proof. repeat split. Qed.

(** ** Properties of every invocation *)

(** *** Every invocation: one request at most, one outcome shape *)

Section EveryInvocation.

Variable rt : Runtime.
Variable world : World.
Variable config : ClockifyConfig.

Lemma plain_result_bind {A : Type} (c : M A) (k : A -> M ToolResult) :
  (forall a, plain_result (k a)) -> plain_result (bind c k).
Proof.
  intros Hk log. unfold bind. destruct (c log) as [[a|e] l]; [apply Hk | exact I].
Qed.

Lemma plain_result_ret (t : string) : plain_result (ret (text_result t)).
Proof. intro log. reflexivity. Qed.

Lemma plain_result_throw (e : Exn) : plain_result (throw e).
Proof. intro log. exact I. Qed.

Lemma dispatch_plain_result name args :
  plain_result (dispatch rt world config name args).
Proof.
  unfold dispatch.
  repeat match goal with
         | |- context [name_is name ?l] => destruct (name_is name l)
         end;
    unfold_handlers; unfold render_time_entry;
    repeat first
      [ apply plain_result_ret
      | apply plain_result_throw
      | apply plain_result_bind; intros
      | match goal with
        | |- plain_result (match ?x with _ => _ end) => destruct x
        end ].
Qed.

End EveryInvocation.

(** X1.  Every tool invocation fails without a request or issues exactly
    one request; one that returns a result has issued exactly one. *)
Theorem invocation_issues_at_most_one_request :
  forall (rt : Runtime) (world : World) (config : ClockifyConfig)
         (name : string) (args : option JsObject) (log : list HttpRequest),
    ((exists e, callTool rt world config name args log = (Throw e, log))
     \/ exists req, snd (callTool rt world config name args log) = (log ++ [req])%list)
    /\ (forall r, fst (callTool rt world config name args log) = Ok r ->
                  exists req,
                    snd (callTool rt world config name args log) = (log ++ [req])%list).
Proof.
  intros rt world config name args log.
  pose proof (callTool_one_shot rt world config name args log) as H.
  split; [exact H|].
  intros r Hr. destruct H as [[e He]|H]; [|exact H].
  rewrite He in Hr. discriminate Hr.
Qed.

(** X2.  An invocation ends in one of two ways: a result whose [isError]
    is false, or a thrown [McpError].  No native error and no rejection of
    [fetch] leaves the dispatcher as it is, and no result is flagged as an
    error. *)
Theorem invocation_returns_plain_result_or_throws_McpError :
  forall (rt : Runtime) (world : World) (config : ClockifyConfig)
         (name : string) (args : option JsObject) (log : list HttpRequest),
    (exists r, fst (callTool rt world config name args log) = Ok r
               /\ isError r = false)
    \/ exists code message,
         fst (callTool rt world config name args log)
         = Throw (McpError code message).
Proof.
  intros rt world config name args log.
  pose proof (dispatch_plain_result rt world config name args log) as H.
  unfold callTool, try_catch.
  destruct (dispatch rt world config name args log) as [[r|e] l]; simpl in *.
  - left. now exists r.
  - right. destruct e; simpl; eauto.
Qed.

(** *** Transport failures *)

Section TransportFailure.

Variable rt : Runtime.
Variable world : World.
Variable config : ClockifyConfig.
Variable m : string.
Hypothesis has_key : apiKey config <> "".
Hypothesis rejects : forall req, remote world req = FetchFailed m.

Lemma makeRequest_rejected endpoint method data base log :
  makeRequest rt world config endpoint method data base log
  = (Throw (transport_error m),
     (log ++ [request_for config endpoint method data base])%list).
Proof. rewrite makeRequest_configured by assumption. now rewrite rejects. Qed.

Lemma stopped_by_throw {A : Type} (e e' : Exn) : stopped_by e (@throw A e').
Proof. intro log. now left. Qed.

Lemma stopped_by_request {A : Type} endpoint method data base (k : JsVal -> M A) :
  stopped_by (transport_error m)
    (bind (makeRequest rt world config endpoint method data base) k).
Proof.
  intro log. right. eexists. unfold bind. now rewrite makeRequest_rejected.
Qed.

Lemma stopped_by_bind {A B : Type} (e : Exn) (pre : M A) (k : A -> M B) :
  silent pre -> (forall a, stopped_by e (k a)) -> stopped_by e (bind pre k).
Proof.
  intros Hpre Hk log. unfold bind. specialize (Hpre log).
  destruct (pre log) as [[a|e'] log']; simpl in Hpre; subst log'.
  - apply Hk.
  - now left.
Qed.

Lemma dispatch_rejected name args :
  stopped_by (transport_error m) (dispatch rt world config name args).
Proof.
  unfold dispatch.
  repeat match goal with
         | |- context [name_is name ?l] => destruct (name_is name l)
         end;
    unfold_handlers;
    repeat first
      [ apply stopped_by_throw
      | apply stopped_by_request
      | apply stopped_by_bind; [solve [silence] | intros]
      | match goal with
        | |- stopped_by _ (match ?x with _ => _ end) => destruct x
        end ].
Qed.

End TransportFailure.

(** X3.  When [fetch] rejects (no response at all) with message [m],
    [makeRequest] throws the internal error [Request failed: m] after the
    one request, and that error is what every tool invocation that issued
    a request ends with: the dispatcher passes it on unchanged. *)
Theorem transport_failure_is_request_failed :
  forall (rt : Runtime) (world : World) (config : ClockifyConfig) (m : string),
    apiKey config <> "" ->
    (forall req, remote world req = FetchFailed m) ->
    (forall endpoint method data base log,
        makeRequest rt world config endpoint method data base log
        = (Throw (McpError InternalError ("Request failed: " ++ m)),
           (log ++ [request_for config endpoint method data base])%list))
    /\ (forall name args log,
          snd (callTool rt world config name args log) = log
          \/ exists req,
               callTool rt world config name args log
               = (Throw (McpError InternalError ("Request failed: " ++ m)),
                  (log ++ [req])%list)).
Proof.
  intros rt world config m Hkey Hrej. split.
  - intros. now apply makeRequest_rejected.
  - intros name args log. unfold callTool, try_catch.
    destruct (dispatch_rejected rt world config m Hkey Hrej name args log)
      as [H|[req H]].
    + left. destruct (dispatch rt world config name args log) as [[a|e] l];
        simpl in *; exact H.
    + right. exists req. now rewrite H.
Qed.

Lemma transport_failure_is_request_failed_witness :
  apiKey configured <> ""
  /\ run (callTool small_engine (scripted (FetchFailed "fetch failed") 0) configured
            "get_workspaces" None)
     = (Throw (McpError InternalError "Request failed: fetch failed"),
        [ {| req_url := "https://api.clockify.me/api/v1/workspaces";
             req_method := GET;
             req_headers := [("X-Api-Key", "secret"); ("Content-Type", "application/json")];
             req_body := None |} ]).
Proof.
  assert (Hkey : apiKey configured <> "") by (simpl; discriminate).
  split; [exact Hkey|].
  destruct (transport_failure_is_request_failed small_engine
              (scripted (FetchFailed "fetch failed") 0) configured "fetch failed"
              Hkey (fun _ => eq_refl)) as [_ H].
  destruct (H "get_workspaces" None []) as [Hnone|[req Hreq]].
  - vm_compute in Hnone. discriminate Hnone.
  - unfold run. rewrite Hreq. vm_compute in Hreq.
    injection Hreq as Hreq. rewrite <- Hreq. reflexivity.
Defined.

(** *** Catalogue names and the switch *)

Section Dispatched.

Variable rt : Runtime.
Variable world : World.
Variable config : ClockifyConfig.

Lemma dispatched_ret {A : Type} (a : A) : dispatched (ret a).
Proof. intros log m H. discriminate H. Qed.

Lemma dispatched_native {A : Type} (f : Fault) : dispatched (@throw A (NativeError f)).
Proof. intros log m H. discriminate H. Qed.

Lemma dispatched_bind {A B : Type} (c : M A) (k : A -> M B) :
  dispatched c -> (forall a, dispatched (k a)) -> dispatched (bind c k).
Proof.
  intros Hc Hk log m. unfold bind. specialize (Hc log m).
  destruct (c log) as [[a|e] l]; simpl in *; [apply Hk|].
  intro E. apply Hc. inversion E. reflexivity.
Qed.

Lemma dispatched_mapM {A B : Type} (f : A -> M B) (l : list A) :
  (forall a, dispatched (f a)) -> dispatched (mapM f l).
Proof.
  intro Hf. induction l; simpl.
  - apply dispatched_ret.
  - apply dispatched_bind; [apply Hf|]. intro. apply dispatched_bind; [assumption|].
    intro. apply dispatched_ret.
Qed.

Lemma dispatched_read v k : dispatched (read v k).
Proof.
  unfold read. destruct (is_nullish v); [apply dispatched_native | apply dispatched_ret].
Qed.

Lemma dispatched_map_lines xs (f : JsVal -> M string) :
  (forall a, dispatched (f a)) -> dispatched (map_lines xs f).
Proof.
  intro Hf. destruct xs; simpl; try apply dispatched_native. now apply dispatched_mapM.
Qed.

Lemma dispatched_includes_T v : dispatched (includes_T v).
Proof. destruct v; simpl; first [apply dispatched_native | apply dispatched_ret]. Qed.

Lemma dispatched_to_string v : dispatched (to_string rt v).
Proof.
  unfold to_string. destruct (stringable v);
    [apply dispatched_ret | apply dispatched_native].
Qed.

Lemma dispatched_shown (c : M JsVal) : dispatched c -> dispatched (shown rt c).
Proof.
  intro H. unfold shown. apply dispatched_bind; [exact H|].
  intro. apply dispatched_to_string.
Qed.

Lemma dispatched_read_or v k d : dispatched (read_or v k d).
Proof.
  unfold read_or. apply dispatched_bind; [apply dispatched_read|].
  intro. apply dispatched_ret.
Qed.

Lemma dispatched_to_primitive v : dispatched (to_primitive rt v).
Proof.
  destruct v; simpl; try apply dispatched_ret;
    (apply dispatched_bind; [apply dispatched_to_string | intro; apply dispatched_ret]).
Qed.

Lemma dispatched_Math_min a b : dispatched (Math_min rt a b).
Proof.
  unfold Math_min, ToNumber.
  repeat first [ apply dispatched_ret | apply dispatched_to_primitive
               | apply dispatched_bind; intros ].
Qed.

Lemma dispatched_for_each {A S : Type} (f : S -> A -> M S) (l : list A) (s : S) :
  (forall s a, dispatched (f s a)) -> dispatched (for_each f l s).
Proof.
  intro Hf. revert s. induction l as [|a l IH]; intro s; simpl.
  - apply dispatched_ret.
  - apply dispatched_bind; [apply Hf | intro; apply IH].
Qed.

Lemma dispatched_build_query params : dispatched (build_query rt params).
Proof.
  unfold build_query. apply dispatched_for_each. intros q kv.
  unfold append_defined. destruct (is_nullish (snd kv)); [apply dispatched_ret|].
  apply dispatched_bind; [apply dispatched_to_string | intro; apply dispatched_ret].
Qed.

Lemma dispatched_join_opt v : dispatched (join_opt rt v).
Proof.
  destruct v; simpl; try first [apply dispatched_native | apply dispatched_ret].
  destruct (forallb stringable _); [apply dispatched_ret | apply dispatched_native].
Qed.

Lemma dispatched_tasks_path workspaceId projectId :
  dispatched (tasks_path rt workspaceId projectId).
Proof.
  unfold tasks_path.
  repeat first [ apply dispatched_ret | apply dispatched_to_string
               | apply dispatched_bind; intros ].
Qed.

Lemma dispatched_task_path workspaceId projectId taskId :
  dispatched (task_path rt workspaceId projectId taskId).
Proof.
  unfold task_path.
  repeat first [ apply dispatched_ret | apply dispatched_to_string
               | apply dispatched_tasks_path | apply dispatched_bind; intros ].
Qed.

Lemma dispatched_normalize_required k data :
  dispatched (normalize_required rt k data).
Proof.
  unfold normalize_required, reserialize.
  apply dispatched_bind; [apply dispatched_includes_T|].
  intros []; simpl; [apply dispatched_ret|].
  apply dispatched_bind.
  { unfold Date_construct. apply dispatched_bind; [apply dispatched_to_primitive|].
    intro. apply dispatched_ret. }
  intro d. apply dispatched_bind; [|intro; apply dispatched_ret].
  destruct d; simpl; [apply dispatched_ret | apply dispatched_native].
Qed.

Lemma dispatched_normalize_if_present k data :
  dispatched (normalize_if_present rt k data).
Proof.
  unfold normalize_if_present. destruct (truthy _);
    [apply dispatched_normalize_required | apply dispatched_ret].
Qed.

Lemma dispatched_require args keys msg : dispatched (require args keys msg).
Proof.
  unfold require. destruct (forallb _ _); [apply dispatched_ret|].
  intros log m H. discriminate H.
Qed.

Lemma dispatched_makeRequest endpoint method data base :
  dispatched (makeRequest rt world config endpoint method data base).
Proof.
  intros log m. destruct (String.eqb_spec (apiKey config) "") as [E|N].
  - rewrite makeRequest_unconfigured by exact E. discriminate.
  - rewrite makeRequest_configured by exact N. simpl.
    destruct (remote world _) as [msg|r]; [discriminate|].
    destruct (response_ok r); [|discriminate].
    destruct (JSON_parse rt (body_text r)); discriminate.
Qed.

Lemma handlers_dispatched name args :
  In name tool_names -> dispatched (dispatch rt world config name args).
Proof.
  intro Hin. unfold tool_names in Hin. simpl in Hin.
  repeat match type of Hin with _ \/ _ => destruct Hin as [<-|Hin] end;
    [ .. | contradiction];
    take_case; unfold_handlers; unfold render_time_entry;
    repeat first
      [ apply dispatched_ret
      | apply dispatched_native
      | apply dispatched_read
      | apply dispatched_read_or
      | apply dispatched_to_string
      | apply dispatched_shown
      | apply dispatched_Math_min
      | apply dispatched_build_query
      | apply dispatched_tasks_path
      | apply dispatched_task_path
      | apply dispatched_require
      | apply dispatched_makeRequest
      | apply dispatched_normalize_required
      | apply dispatched_normalize_if_present
      | apply dispatched_join_opt
      | apply dispatched_map_lines; intros
      | apply dispatched_bind; intros
      | match goal with
        | |- dispatched (match ?x with _ => _ end) => destruct x
        end ].
Qed.

End Dispatched.

(** X4.  Every name of the catalogue has a case in the switch: invoking
    it never ends in the method-not-found error, whatever the arguments,
    the configuration and the remote's answer. *)
Theorem catalogue_names_are_dispatched :
  forall (rt : Runtime) (world : World) (config : ClockifyConfig)
         (name : string) (args : option JsObject) (log : list HttpRequest)
         (message : string),
    In name tool_names ->
    fst (callTool rt world config name args log)
    <> Throw (McpError MethodNotFound message).
Proof.
  intros rt world config name args log message Hin.
  pose proof (handlers_dispatched rt world config name args Hin log) as H.
  unfold callTool, try_catch.
  destruct (dispatch rt world config name args log) as [[r|e] l]; simpl in *.
  - discriminate.
  - destruct e as [code msg|f|msg]; simpl; try discriminate.
    intro E. apply (H msg). now inversion E.
Qed.

Lemma catalogue_names_are_dispatched_witness :
  In "delete_tag" tool_names
  /\ fst (run (callTool small_engine (scripted (answers 200 "{}") 0) configured
                 "delete_tag" None))
     <> Throw (McpError MethodNotFound "Unknown tool: delete_tag").
Proof.
  assert (Hin : In "delete_tag" tool_names) by (simpl; tauto).
  split; [exact Hin|].
  exact (catalogue_names_are_dispatched small_engine
           (scripted (answers 200 "{}") 0) configured "delete_tag" None []
           "Unknown tool: delete_tag" Hin).
Defined.

(** *** Guards of the switch *)

(** X5.  Apart from the two report tools, the switch guards every
    mandatory identifier of the catalogue: when such an argument is
    missing or falsy (or there is no argument object), the invocation
    throws an invalid-parameters error and issues no request, with or
    without an API key. *)
Theorem missing_identifier_is_invalid_params :
  forall (rt : Runtime) (world : World) (config : ClockifyConfig)
         (d : ToolDescriptor) (k : string) (args : option JsObject)
         (log : list HttpRequest),
    In d catalogue ->
    In k (required d) ->
    In k ["workspaceId"; "projectId"; "taskId"; "timeEntryId"; "userId";
          "clientId"; "tagId"] ->
    ~ In (tool_name d) ["get_detailed_report"; "get_summary_report"] ->
    truthy (opt_lookup k args) = false ->
    exists message,
      callTool rt world config (tool_name d) args log
      = (Throw (McpError InvalidParams message), log).
Proof.
  intros rt world config d k args log Hd Hk Hid Hnr Hf.
  unfold catalogue in Hd. simpl in Hd.
  repeat match type of Hd with _ \/ _ => destruct Hd as [<-|Hd] end;
    [ .. | contradiction];
    simpl in Hk, Hnr;
    repeat match type of Hk with _ \/ _ => destruct Hk as [<-|Hk] end;
    try contradiction;
    try (exfalso; simpl in Hid; intuition discriminate);
    try (exfalso; apply Hnr; tauto);
    eexists; cbn [tool_name]; unfold callTool, try_catch; take_case; unfold bind;
    (rewrite require_false;
     [ reflexivity
     | cbn [forallb]; rewrite Hf;
       repeat match goal with
              | |- context [truthy ?x] => destruct (truthy x)
              end; reflexivity ]).
Qed.

Lemma missing_identifier_is_invalid_params_witness :
  In {| tool_name := "get_task";
        properties := ["workspaceId"; "projectId"; "taskId"];
        required := ["workspaceId"; "projectId"; "taskId"] |} catalogue
  /\ run (callTool small_engine (scripted (answers 200 "{}") 0) configured "get_task"
            (Some [("workspaceId", JStr "w1"); ("projectId", JStr "p1");
                   ("taskId", JStr "")]))
     = (Throw (McpError InvalidParams "workspaceId, projectId and taskId are required"),
        []).
Proof.
  assert (Hd : In {| tool_name := "get_task";
                     properties := ["workspaceId"; "projectId"; "taskId"];
                     required := ["workspaceId"; "projectId"; "taskId"] |} catalogue)
    by (unfold catalogue; do 15 right; left; reflexivity).
  split; [exact Hd|].
  destruct (missing_identifier_is_invalid_params small_engine
              (scripted (answers 200 "{}") 0) configured _ "taskId"
              (Some [("workspaceId", JStr "w1"); ("projectId", JStr "p1");
                     ("taskId", JStr "")]) [] Hd)
    as [message H].
  - simpl; tauto.
  - simpl; tauto.
  - simpl. intuition discriminate.
  - reflexivity.
  - unfold run. cbn [tool_name] in H. rewrite H.
    vm_compute in H. injection H as H. rewrite <- H. reflexivity.
Defined.

(** *** What goes out *)

Lemma issued {A : Type} (P : HttpRequest -> Prop) (c : M A) log req :
  requests_satisfy P c -> snd (c log) = (log ++ [req])%list -> P req.
Proof.
  intros Hc Hreq. destruct (Hc log) as [H|[req' [H HP]]].
  - rewrite H in Hreq. now apply log_grows in Hreq.
  - rewrite H in Hreq. apply app_inv_head in Hreq. inversion Hreq. now subst.
Qed.

Lemma requests_satisfy_throw {A : Type} (P : HttpRequest -> Prop) (e : Exn) :
  requests_satisfy P (@throw A e).
Proof. intro log. now left. Qed.

Lemma requests_satisfy_bind {A B : Type} (P : HttpRequest -> Prop)
    (pre : M A) (k : A -> M B) :
  silent pre -> (forall a, requests_satisfy P (k a)) -> requests_satisfy P (bind pre k).
Proof.
  intros Hpre Hk log. unfold bind. specialize (Hpre log).
  destruct (pre log) as [[a|e] log']; simpl in Hpre; subst log'.
  - apply Hk.
  - now left.
Qed.

Section WhatGoesOut.

Variable rt : Runtime.
Variable world : World.
Variable config : ClockifyConfig.

Lemma requests_satisfy_request {A : Type} (P : HttpRequest -> Prop)
    endpoint method data base (k : JsVal -> M A) :
  (forall v, silent (k v)) ->
  (apiKey config <> "" -> P (request_for config endpoint method data base)) ->
  requests_satisfy P (bind (makeRequest rt world config endpoint method data base) k).
Proof.
  intros Hk HP log. rewrite request_then_render by exact Hk.
  destruct (String.eqb_spec (apiKey config) "") as [E|N]; [now left|].
  right. eexists. split; [reflexivity | now apply HP].
Qed.

Lemma callTool_issued (P : HttpRequest -> Prop) name args log req :
  requests_satisfy P (dispatch rt world config name args) ->
  snd (callTool rt world config name args log) = (log ++ [req])%list ->
  P req.
Proof. intros HP Hreq. rewrite callTool_log in Hreq. exact (issued _ _ _ _ HP Hreq). Qed.

End WhatGoesOut.

(** Splits a handler into its silent steps and its one call of
    [makeRequest], leaving what is to be shown of the request. *)
Ltac follow_request :=
  unfold_handlers;
  repeat first
    [ apply requests_satisfy_throw
    | apply requests_satisfy_bind; [solve [silence] | intros]
    | match goal with
      | |- requests_satisfy _ (match ?x with _ => _ end) => destruct x
      end ];
  try (apply requests_satisfy_request; [solve [silence] | intro]).

(** X6.  Every request of every tool carries the configured API key and
    the JSON content type, and goes to the report-service base URL when
    the tool is one of the two reports and to the configured base URL
    otherwise; the key, which is not empty, is sent nowhere else. *)
Theorem requests_carry_key_to_known_base :
  forall (rt : Runtime) (world : World) (config : ClockifyConfig)
         (name : string) (args : option JsObject) (log : list HttpRequest)
         (req : HttpRequest),
    snd (callTool rt world config name args log) = (log ++ [req])%list ->
    apiKey config <> ""
    /\ req_headers req = [("X-Api-Key", apiKey config);
                          ("Content-Type", "application/json")]
    /\ exists endpoint,
         req_url req
         = (if (name =? "get_detailed_report")%string
               || (name =? "get_summary_report")%string
            then reports_base else baseUrl config) ++ endpoint.
Proof.
  intros rt world config name args log req Hreq.
  pattern req. eapply callTool_issued; [|exact Hreq]. unfold dispatch, name_is.
  repeat match goal with
         | |- context [(name =? ?l)%string] =>
             destruct (String.eqb_spec name l) as [->|?]
         end;
    cbn [String.eqb Ascii.eqb Bool.eqb orb];
    follow_request;
    (split; [assumption | split; [reflexivity | eexists; reflexivity]]).
Qed.

Lemma requests_carry_key_to_known_base_witness :
  snd (run (callTool small_engine (scripted (answers 200 "{}") 0) configured
              "get_summary_report" (Some [("workspaceId", JStr "w1")])))
  = ([] ++ [request_for configured "/workspaces/w1/reports/summary" POST
              (JObj (strip_undefined (summary_payload [])))
              (Some reports_base)])%list
  /\ req_url (request_for configured "/workspaces/w1/reports/summary" POST
                (JObj (strip_undefined (summary_payload [])))
                (Some reports_base))
     = "https://reports.api.clockify.me/v1/workspaces/w1/reports/summary"
  /\ req_headers (request_for configured "/workspaces/w1/reports/summary" POST
                    (JObj (strip_undefined (summary_payload [])))
                    (Some reports_base))
     = [("X-Api-Key", "secret"); ("Content-Type", "application/json")].
Proof.
  assert (H : snd (run (callTool small_engine (scripted (answers 200 "{}") 0) configured
                          "get_summary_report" (Some [("workspaceId", JStr "w1")])))
              = ([] ++ [request_for configured "/workspaces/w1/reports/summary" POST
                          (JObj (strip_undefined (summary_payload [])))
                          (Some reports_base)])%list) by reflexivity.
  split; [exact H|]. split; [reflexivity|].
  destruct (requests_carry_key_to_known_base small_engine
              (scripted (answers 200 "{}") 0) configured "get_summary_report"
              (Some [("workspaceId", JStr "w1")]) [] _ H) as (_ & Hh & _).
  exact Hh.
Defined.

(** X7.  The HTTP method and the presence of a body follow the kind of
    tool: a read other than a report is a GET without body, a delete is
    a DELETE without body, a create or a report is a POST with a JSON
    object, an update is a PUT with a JSON object, and stopping the
    running entry is a PATCH with a JSON object. *)
Theorem method_and_body_by_kind_of_tool :
  forall (rt : Runtime) (world : World) (config : ClockifyConfig)
         (name : string) (args : option JsObject) (log : list HttpRequest)
         (req : HttpRequest),
    snd (callTool rt world config name args log) = (log ++ [req])%list ->
    (In name ["get_current_user"; "get_workspaces"; "get_workspace_users";
              "get_time_entries"; "get_projects"; "get_project"; "get_tasks";
              "get_task"; "get_clients"; "get_tags"] ->
     req_method req = GET /\ req_body req = None)
    /\ (In name ["delete_time_entry"; "delete_project"; "delete_task";
                 "delete_client"; "delete_tag"] ->
        req_method req = DELETE /\ req_body req = None)
    /\ (In name ["create_time_entry"; "create_project"; "create_task";
                 "create_client"; "create_tag"; "get_detailed_report";
                 "get_summary_report"] ->
        req_method req = POST /\ exists body, req_body req = Some (JObj body))
    /\ (In name ["update_time_entry"; "update_project"; "update_task";
                 "update_client"; "update_tag"] ->
        req_method req = PUT /\ exists body, req_body req = Some (JObj body))
    /\ (name = "stop_time_entry" ->
        req_method req = PATCH /\ exists body, req_body req = Some (JObj body)).
Proof.
  intros rt world config name args log req Hreq.
  (split; [|split; [|split; [|split]]]); intro Hin; simpl in Hin;
    repeat match type of Hin with _ \/ _ => destruct Hin as [<-|Hin] end;
    try contradiction; try subst name;
    pattern req; (eapply callTool_issued; [|exact Hreq]);
    take_case; follow_request;
    (split; [reflexivity | first [reflexivity | eexists; reflexivity]]).
Qed.

Lemma method_and_body_by_kind_of_tool_witness :
  snd (run (callTool small_engine (scripted (answers 200 "{}") 0) configured
              "delete_client"
              (Some [("workspaceId", JStr "w1"); ("clientId", JStr "c1")])))
  = ([] ++ [ {| req_url := "https://api.clockify.me/api/v1/workspaces/w1/clients/c1";
                req_method := DELETE;
                req_headers := [("X-Api-Key", "secret");
                                ("Content-Type", "application/json")];
                req_body := None |} ])%list
  /\ In "delete_client" ["delete_time_entry"; "delete_project"; "delete_task";
                         "delete_client"; "delete_tag"]
  /\ req_method
       {| req_url := "https://api.clockify.me/api/v1/workspaces/w1/clients/c1";
          req_method := DELETE;
          req_headers := [("X-Api-Key", "secret");
                          ("Content-Type", "application/json")];
          req_body := None |} = DELETE.
Proof.
  assert (H : snd (run (callTool small_engine (scripted (answers 200 "{}") 0)
                          configured "delete_client"
                          (Some [("workspaceId", JStr "w1"); ("clientId", JStr "c1")])))
              = ([] ++ [ {| req_url :=
                              "https://api.clockify.me/api/v1/workspaces/w1/clients/c1";
                            req_method := DELETE;
                            req_headers := [("X-Api-Key", "secret");
                                            ("Content-Type", "application/json")];
                            req_body := None |} ])%list) by reflexivity.
  assert (Hin : In "delete_client" ["delete_time_entry"; "delete_project";
                                    "delete_task"; "delete_client"; "delete_tag"])
    by (simpl; tauto).
  split; [exact H|]. split; [exact Hin|].
  destruct (method_and_body_by_kind_of_tool small_engine
              (scripted (answers 200 "{}") 0) configured "delete_client"
              (Some [("workspaceId", JStr "w1"); ("clientId", JStr "c1")]) [] _ H)
    as (_ & Hdel & _).
  exact (proj1 (Hdel Hin)).
Defined.

(** *** Identifiers stay in the path *)

Lemma remove_keys_without (ids : list string) (o : JsObject) :
  fold_left (fun acc k => remove_key k acc) ids o = without ids o.
Proof.
  revert o. induction ids as [|id ids IH]; intro o; simpl.
  - unfold without. simpl. induction o as [|kv o IHo]; simpl; [reflexivity|].
    now rewrite <- IHo at 1.
  - rewrite IH. unfold without. rewrite remove_key_filter, filter_twice.
    apply filter_ext. intros [k v]. simpl. rewrite (String.eqb_sym id k).
    now destruct (k =? id)%string.
Qed.

(** X8.  A create or an update of a project, task, client or tag sends as
    its body the JSON text of the arguments without the identifiers that
    went into the path: no identifier is repeated in the body, and every
    other argument is passed on as it came, in its place. *)
Theorem write_body_is_arguments_without_identifiers :
  forall (rt : Runtime) (world : World) (config : ClockifyConfig)
         (name : string) (ids : list string) (args : option JsObject)
         (log : list HttpRequest) (req : HttpRequest),
    In (name, ids)
       [("create_project", ["workspaceId"]);
        ("update_project", ["workspaceId"; "projectId"]);
        ("create_task", ["workspaceId"; "projectId"]);
        ("update_task", ["workspaceId"; "projectId"; "taskId"]);
        ("create_client", ["workspaceId"]);
        ("update_client", ["workspaceId"; "clientId"]);
        ("create_tag", ["workspaceId"]);
        ("update_tag", ["workspaceId"; "tagId"])] ->
    snd (callTool rt world config name args log) = (log ++ [req])%list ->
    req_body req = JSON_stringify (JObj (without ids (bag args))).
Proof.
  intros rt world config name ids args log req Hin Hreq. simpl in Hin.
  repeat match type of Hin with _ \/ _ => destruct Hin as [E|Hin] end;
    try contradiction; inversion E; subst name ids; clear E;
    pattern req; (eapply callTool_issued; [|exact Hreq]);
    take_case; follow_request;
    unfold request_for; cbn [req_body truthy];
    rewrite <- remove_keys_without; reflexivity.
Qed.

Lemma write_body_is_arguments_without_identifiers_witness :
  snd (run (callTool small_engine (scripted (answers 200 "{}") 0) configured
              "update_task"
              (Some [("workspaceId", JStr "w1"); ("name", JStr "Review");
                     ("projectId", JStr "p1"); ("taskId", JStr "t1");
                     ("status", JStr "DONE")])))
  = ([] ++ [ {| req_url :=
                  "https://api.clockify.me/api/v1/workspaces/w1/projects/p1/tasks/t1";
                req_method := PUT;
                req_headers := [("X-Api-Key", "secret");
                                ("Content-Type", "application/json")];
                req_body := Some (JObj [("name", JStr "Review");
                                        ("status", JStr "DONE")]) |} ])%list
  /\ Some (JObj [("name", JStr "Review"); ("status", JStr "DONE")])
     = JSON_stringify
         (JObj (without ["workspaceId"; "projectId"; "taskId"]
                  [("workspaceId", JStr "w1"); ("name", JStr "Review");
                   ("projectId", JStr "p1"); ("taskId", JStr "t1");
                   ("status", JStr "DONE")])).
Proof.
  assert (H : snd (run (callTool small_engine (scripted (answers 200 "{}") 0)
                          configured "update_task"
                          (Some [("workspaceId", JStr "w1"); ("name", JStr "Review");
                                 ("projectId", JStr "p1"); ("taskId", JStr "t1");
                                 ("status", JStr "DONE")])))
              = ([] ++ [ {| req_url :=
                              "https://api.clockify.me/api/v1/workspaces/w1/projects/p1/tasks/t1";
                            req_method := PUT;
                            req_headers := [("X-Api-Key", "secret");
                                            ("Content-Type", "application/json")];
                            req_body := Some (JObj [("name", JStr "Review");
                                                    ("status", JStr "DONE")]) |} ])%list)
    by reflexivity.
  split; [exact H|].
  refine (write_body_is_arguments_without_identifiers small_engine
            (scripted (answers 200 "{}") 0) configured "update_task"
            ["workspaceId"; "projectId"; "taskId"] _ [] _ _ H).
  simpl. tauto.
Defined.

(** *** List requests *)

(** What a step that returned has returned. *)
Lemma to_string_inv rt v s (l l' : list HttpRequest) :
  to_string rt v l = (Ok s, l') -> s = ToString rt v /\ stringable v = true.
Proof.
  unfold to_string. destruct (stringable v); intro H; inversion H. now split.
Qed.

Lemma build_query_inv rt params q (l l' : list HttpRequest) :
  build_query rt params l = (Ok q, l') ->
  q = query_of rt params /\ all_stringable params = true.
Proof.
  unfold build_query. rewrite for_each_append_defined.
  destruct (all_stringable params); intro H; inversion H. now split.
Qed.

Lemma bind_inv {A B : Type} (c : M A) (k : A -> M B) b (l l' : list HttpRequest) :
  bind c k l = (Ok b, l') -> exists a l1, c l = (Ok a, l1) /\ k a l1 = (Ok b, l').
Proof.
  unfold bind. destruct (c l) as [[a|e] l1]; intro H; [|discriminate].
  now exists a, l1.
Qed.

Lemma ret_inv {A : Type} (a b : A) (l l' : list HttpRequest) :
  ret a l = (Ok b, l') -> b = a.
Proof. intro H. now inversion H. Qed.

Lemma tasks_path_inv rt workspaceId projectId s (l l' : list HttpRequest) :
  tasks_path rt workspaceId projectId l = (Ok s, l') ->
  s = "/workspaces/" ++ ToString rt workspaceId
        ++ "/projects/" ++ ToString rt projectId ++ "/tasks"
  /\ stringable workspaceId = true /\ stringable projectId = true.
Proof.
  unfold tasks_path. intro H.
  apply bind_inv in H as (ws & l1 & Hws & H). apply to_string_inv in Hws as [-> Hw].
  apply bind_inv in H as (pid & l2 & Hpid & H). apply to_string_inv in Hpid as [-> Hp].
  apply ret_inv in H. now subst.
Qed.

(** As [requests_satisfy_bind], keeping what the silent steps returned. *)
Lemma requests_satisfy_after {A B : Type} (P : HttpRequest -> Prop)
    (pre : M A) (k : A -> M B) :
  silent pre ->
  (forall a, (exists l, pre l = (Ok a, l)) -> requests_satisfy P (k a)) ->
  requests_satisfy P (bind pre k).
Proof.
  intros Hpre Hk log. unfold bind. pose proof (Hpre log) as Hlog.
  destruct (pre log) as [[a|e] log'] eqn:E; simpl in Hlog; subst log'.
  - apply Hk. now exists log.
  - now left.
Qed.

(** As [follow_request], with the values of the steps before the request
    among the hypotheses. *)
Ltac follow_request_from :=
  unfold_handlers;
  repeat first
    [ apply requests_satisfy_throw
    | apply requests_satisfy_after; [solve [silence] | intros ? [? ?]]
    | match goal with
      | |- requests_satisfy _ (match ?x with _ => _ end) => destruct x
      end ];
  try (apply requests_satisfy_request; [solve [silence] | intro]);
  repeat match goal with
         | H : to_string _ _ _ = (Ok _, _) |- _ =>
             apply to_string_inv in H as [-> ?]
         | H : build_query _ _ _ = (Ok _, _) |- _ =>
             apply build_query_inv in H as [-> ?]
         | H : tasks_path _ _ _ _ = (Ok _, _) |- _ =>
             apply tasks_path_inv in H as (-> & ? & ?)
         end.

(** X9.  A request of [get_time_entries] asks for the entries of one user
    when [userId] is truthy and for the entries of the workspace
    otherwise; either way neither [workspaceId] nor [userId] is a query
    parameter, and every other argument that is neither [null] nor
    [undefined] is one, in the enumeration order of the arguments, its
    value the string [String(value)] gives.  The request goes out only
    when [workspaceId] and the other arguments convert to a string. *)
Theorem get_time_entries_request :
  forall (rt : Runtime) (world : World) (config : ClockifyConfig)
         (args : option JsObject) (log : list HttpRequest) (req : HttpRequest),
    snd (callTool rt world config "get_time_entries" args log) = (log ++ [req])%list ->
    req_url req
    = baseUrl config
        ++ with_query
             (if truthy (arg "userId" args)
              then "/workspaces/" ++ ToString rt (arg "workspaceId" args)
                     ++ "/user/" ++ ToString rt (arg "userId" args) ++ "/time-entries"
              else "/workspaces/" ++ ToString rt (arg "workspaceId" args)
                     ++ "/time-entries")
             (query_of rt (without ["workspaceId"; "userId"] (bag args)))
    /\ req_method req = GET
    /\ req_body req = None
    /\ stringable (arg "workspaceId" args) = true
    /\ all_stringable (without ["workspaceId"; "userId"] (bag args)) = true.
Proof.
  intros rt world config args log req Hreq.
  pattern req; (eapply callTool_issued; [|exact Hreq]).
  take_case. follow_request_from.
  unfold request_for; cbn [req_url req_method req_body truthy].
  change (remove_key "userId" (remove_key "workspaceId" (bag args)))
    with (fold_left (fun acc k => remove_key k acc) ["workspaceId"; "userId"] (bag args))
    in *.
  rewrite remove_keys_without in *.
  assert (Ew : lookup "workspaceId" (bag args) = arg "workspaceId" args)
    by (destruct args; reflexivity).
  assert (Eu : lookup "userId" (bag args) = arg "userId" args)
    by (destruct args; reflexivity).
  rewrite Ew, Eu in *.
  match goal with
  | H : (if truthy (arg "userId" args) then _ else _) _ = (Ok _, _) |- _ =>
      destruct (truthy (arg "userId" args));
      apply bind_inv in H as (ws & l1 & Hws & H);
      apply to_string_inv in Hws as [-> Hw];
      [ apply bind_inv in H as (user & l2 & Hu & H);
        apply to_string_inv in Hu as [-> _] | ];
      apply ret_inv in H; subst
  end; repeat split; assumption.
Qed.

Lemma get_time_entries_request_witness :
  snd (run (callTool small_engine (scripted (answers 200 "[]") 0) configured
              "get_time_entries"
              (Some [("workspaceId", JStr "w1"); ("userId", JStr "u1");
                     ("start", JStr "2024-01-01T00:00:00Z"); ("project", JNull);
                     ("page", JNum (Int 2))])))
  = ([] ++ [ {| req_url :=
                  "https://api.clockify.me/api/v1/workspaces/w1/user/u1/time-entries?start=2024-01-01T00%3A00%3A00Z&page=2";
                req_method := GET;
                req_headers := [("X-Api-Key", "secret");
                                ("Content-Type", "application/json")];
                req_body := None |} ])%list
  /\ "https://api.clockify.me/api/v1/workspaces/w1/user/u1/time-entries?start=2024-01-01T00%3A00%3A00Z&page=2"
     = baseUrl configured
         ++ with_query "/workspaces/w1/user/u1/time-entries"
              (query_of small_engine (without ["workspaceId"; "userId"]
                           [("workspaceId", JStr "w1"); ("userId", JStr "u1");
                            ("start", JStr "2024-01-01T00:00:00Z"); ("project", JNull);
                            ("page", JNum (Int 2))])).
Proof.
  assert (H : snd (run (callTool small_engine (scripted (answers 200 "[]") 0)
                          configured "get_time_entries"
                          (Some [("workspaceId", JStr "w1"); ("userId", JStr "u1");
                                 ("start", JStr "2024-01-01T00:00:00Z");
                                 ("project", JNull); ("page", JNum (Int 2))])))
              = ([] ++ [ {| req_url :=
                              "https://api.clockify.me/api/v1/workspaces/w1/user/u1/time-entries?start=2024-01-01T00%3A00%3A00Z&page=2";
                            req_method := GET;
                            req_headers := [("X-Api-Key", "secret");
                                            ("Content-Type", "application/json")];
                            req_body := None |} ])%list) by reflexivity.
  split; [exact H|].
  exact (proj1 (get_time_entries_request small_engine
                  (scripted (answers 200 "[]") 0) configured _ [] _ H)).
Defined.

(** X10.  A request of [get_tasks], [get_clients] or [get_tags] has the
    identifiers in the path and nowhere else; every other argument that
    is neither [null] nor [undefined] is one query parameter, in the
    enumeration order of the arguments, its value the string
    [String(value)] gives.  The request goes out only when the other
    arguments convert to a string. *)
Theorem list_request_urls :
  forall (rt : Runtime) (world : World) (config : ClockifyConfig)
         (name : string) (args : option JsObject) (log : list HttpRequest)
         (req : HttpRequest),
    snd (callTool rt world config name args log) = (log ++ [req])%list ->
    (name = "get_tasks" ->
     req_url req
     = baseUrl config
         ++ with_query
              ("/workspaces/" ++ ToString rt (arg "workspaceId" args)
                 ++ "/projects/" ++ ToString rt (arg "projectId" args) ++ "/tasks")
              (query_of rt (without ["workspaceId"; "projectId"] (bag args)))
     /\ all_stringable (without ["workspaceId"; "projectId"] (bag args)) = true)
    /\ (name = "get_clients" ->
        req_url req
        = baseUrl config
            ++ with_query
                 ("/workspaces/" ++ ToString rt (arg "workspaceId" args) ++ "/clients")
                 (query_of rt (without ["workspaceId"] (bag args)))
        /\ all_stringable (without ["workspaceId"] (bag args)) = true)
    /\ (name = "get_tags" ->
        req_url req
        = baseUrl config
            ++ with_query
                 ("/workspaces/" ++ ToString rt (arg "workspaceId" args) ++ "/tags")
                 (query_of rt (without ["workspaceId"] (bag args)))
        /\ all_stringable (without ["workspaceId"] (bag args)) = true).
Proof.
  intros rt world config name args log req Hreq.
  (split; [|split]); intros ->;
    pattern req; (eapply callTool_issued; [|exact Hreq]);
    take_case; follow_request_from;
    unfold request_for; cbn [req_url];
    rewrite <- remove_keys_without;
    (split; [destruct args; reflexivity | assumption]).
Qed.

Lemma list_request_urls_witness :
  snd (run (callTool small_engine (scripted (answers 200 "[]") 0) configured
              "get_tasks"
              (Some [("workspaceId", JStr "w1"); ("projectId", JStr "p1");
                     ("is-active", JBool true); ("name", JStr "a b")])))
  = ([] ++ [ {| req_url :=
                  "https://api.clockify.me/api/v1/workspaces/w1/projects/p1/tasks?is-active=true&name=a+b";
                req_method := GET;
                req_headers := [("X-Api-Key", "secret");
                                ("Content-Type", "application/json")];
                req_body := None |} ])%list
  /\ "https://api.clockify.me/api/v1/workspaces/w1/projects/p1/tasks?is-active=true&name=a+b"
     = baseUrl configured
         ++ with_query "/workspaces/w1/projects/p1/tasks"
              (query_of small_engine (without ["workspaceId"; "projectId"]
                           [("workspaceId", JStr "w1"); ("projectId", JStr "p1");
                            ("is-active", JBool true); ("name", JStr "a b")])).
Proof.
  assert (H : snd (run (callTool small_engine (scripted (answers 200 "[]") 0)
                          configured "get_tasks"
                          (Some [("workspaceId", JStr "w1"); ("projectId", JStr "p1");
                                 ("is-active", JBool true); ("name", JStr "a b")])))
              = ([] ++ [ {| req_url :=
                              "https://api.clockify.me/api/v1/workspaces/w1/projects/p1/tasks?is-active=true&name=a+b";
                            req_method := GET;
                            req_headers := [("X-Api-Key", "secret");
                                            ("Content-Type", "application/json")];
                            req_body := None |} ])%list) by reflexivity.
  split; [exact H|].
  exact (proj1 (proj1 (list_request_urls small_engine (scripted (answers 200 "[]") 0)
                         configured "get_tasks" _ [] _ H) eq_refl)).
Defined.

(** *** The query string *)

Lemma append_not_empty (a b : string) : a <> "" -> a ++ b <> "".
Proof. destruct a; [congruence | discriminate]. Qed.

Lemma pair_not_empty (k v : string) : form_encode k ++ "=" ++ form_encode v <> "".
Proof. destruct (form_encode k); discriminate. Qed.

Lemma params_toString_empty (q : URLSearchParams) :
  params_toString q = "" <-> q = [].
Proof.
  split; [|now intros ->].
  destruct q as [|[k v] q]; [reflexivity|]. unfold params_toString, join. simpl.
  intro H. exfalso. destruct q as [|kv q].
  - now apply pair_not_empty in H.
  - apply (append_not_empty _ _ (pair_not_empty k v)) in H. exact H.
Qed.

Lemma query_of_empty rt (params : JsObject) :
  query_of rt params = [] <-> forall k v, In (k, v) params -> is_nullish v = true.
Proof.
  unfold query_of. induction params as [|[k v] params IH]; simpl.
  - split; [intros _ ? ? [] | reflexivity].
  - destruct (is_nullish v) eqn:E; simpl.
    + rewrite IH. split.
      * intros H k' v' [E'|Hin]; [now inversion E'; subst | now apply (H k')].
      * intros H k' v' Hin. apply (H k'). now right.
    + split; [discriminate|]. intro H. specialize (H k v (or_introl eq_refl)). congruence.
Qed.

(** X11.  The loop over the remaining arguments of a list request stops
    with a TypeError at a value that has no string.  When every value
    converts, the URL has a question mark exactly when some remaining
    argument is neither [null] nor [undefined]: with none the URL is the
    bare endpoint (no dangling [?]), and an argument that is an empty
    string, [false] or [0] still makes a parameter, its value the string
    [String(value)] gives. *)
Theorem query_string_only_with_parameters :
  forall (rt : Runtime) (endpoint : string) (params : JsObject)
         (log : list HttpRequest),
    (all_stringable params = false ->
     build_query rt params log = (Throw (NativeError NotPrimitive), log))
    /\ (all_stringable params = true ->
        exists q,
          build_query rt params log = (Ok q, log)
          /\ ((forall k v, In (k, v) params -> is_nullish v = true) ->
              with_query endpoint q = endpoint)
          /\ (forall k v, In (k, v) params -> is_nullish v = false ->
                with_query endpoint q = endpoint ++ "?" ++ params_toString q
                /\ params_toString q <> ""
                /\ In (k, ToString rt v) q)).
Proof.
  intros rt endpoint params log. split; [apply build_query_throws|].
  intro Hall. exists (query_of rt params).
  split; [now apply build_query_ok|]. split.
  - intro H. apply (query_of_empty rt) in H. now rewrite H.
  - intros k v Hin Hv.
    assert (Hq : In (k, ToString rt v) (query_of rt params)).
    { unfold query_of. apply in_map_iff. exists (k, v). split; [reflexivity|].
      apply filter_In. split; [assumption | simpl; now rewrite Hv]. }
    assert (Hne : params_toString (query_of rt params) <> "").
    { intro E. apply params_toString_empty in E. rewrite E in Hq. destruct Hq. }
    repeat split; try assumption.
    unfold with_query. cbv zeta.
    destruct (String.eqb_spec (params_toString (query_of rt params)) "");
      [contradiction | reflexivity].
Qed.

Lemma query_string_only_with_parameters_witness :
  all_stringable [("archived", JBool false); ("name", JStr ""); ("page", JNull)] = true
  /\ exists q,
       run (build_query small_engine
              [("archived", JBool false); ("name", JStr ""); ("page", JNull)])
       = (Ok q, [])
       /\ with_query "/workspaces/w1/projects" q
          = "/workspaces/w1/projects?archived=false&name=".
Proof.
  split; [reflexivity|].
  destruct (query_string_only_with_parameters small_engine "/workspaces/w1/projects"
              [("archived", JBool false); ("name", JStr ""); ("page", JNull)] [])
    as [_ H].
  destruct (H eq_refl) as (q & Hq & _ & _).
  exists q. split; [exact Hq|].
  injection Hq as <-. reflexivity.
Defined.

(** *** Stopping the running entry *)

(** X12.  A request of [stop_time_entry] is a PATCH to the user's time
    entries, the two identifiers written into the path as the strings
    [String(value)] gives, which goes out only when both convert.  Its
    body has the one key [end]: a truthy [end] argument goes out as it
    came, without the ISO normalisation the create and update tools apply,
    and otherwise the body carries the clock's current instant; no other
    argument reaches the body. *)
Theorem stop_time_entry_sends_end_as_given :
  forall (rt : Runtime) (world : World) (config : ClockifyConfig)
         (args : option JsObject) (log : list HttpRequest) (req : HttpRequest),
    snd (callTool rt world config "stop_time_entry" args log) = (log ++ [req])%list ->
    req_url req
    = baseUrl config ++ "/workspaces/" ++ ToString rt (arg "workspaceId" args)
        ++ "/user/" ++ ToString rt (arg "userId" args) ++ "/time-entries"
    /\ stringable (arg "workspaceId" args) = true
    /\ stringable (arg "userId" args) = true
    /\ req_method req = PATCH
    /\ (truthy (arg "end" args) = true ->
        exists j, JSON_stringify (arg "end" args) = Some j
                  /\ req_body req = Some (JObj [("end", j)]))
    /\ (truthy (arg "end" args) = false ->
        req_body req = Some (JObj [("end", JStr (toISOString (clock world)))])).
Proof.
  intros rt world config args log req Hreq.
  pattern req; (eapply callTool_issued; [|exact Hreq]).
  take_case. follow_request_from.
  unfold request_for; cbn [req_url req_method req_body truthy].
  assert (E : lookup "end" (bag args) = arg "end" args) by (destruct args; reflexivity).
  rewrite E. split; [destruct args; reflexivity|].
  split; [destruct args; assumption|]. split; [destruct args; assumption|].
  split; [reflexivity|]. split.
  - intro Ht. destruct (truthy_stringify _ Ht) as [j Hj]. exists j. split; [exact Hj|].
    unfold js_or. rewrite Ht. cbn [JSON_stringify]. now rewrite Hj.
  - intro Hf. unfold js_or. now rewrite Hf.
Qed.

Lemma stop_time_entry_sends_end_as_given_witness :
  snd (run (callTool small_engine (scripted (answers 200 "{}") 0) configured
              "stop_time_entry"
              (Some [("workspaceId", JStr "w1"); ("userId", JStr "u1");
                     ("end", JStr "2024-03-01")])))
  = ([] ++ [ {| req_url :=
                  "https://api.clockify.me/api/v1/workspaces/w1/user/u1/time-entries";
                req_method := PATCH;
                req_headers := [("X-Api-Key", "secret");
                                ("Content-Type", "application/json")];
                req_body := Some (JObj [("end", JStr "2024-03-01")]) |} ])%list
  /\ exists j, JSON_stringify (JStr "2024-03-01") = Some j
               /\ Some (JObj [("end", JStr "2024-03-01")]) = Some (JObj [("end", j)]).
Proof.
  assert (H : snd (run (callTool small_engine (scripted (answers 200 "{}") 0)
                          configured "stop_time_entry"
                          (Some [("workspaceId", JStr "w1"); ("userId", JStr "u1");
                                 ("end", JStr "2024-03-01")])))
              = ([] ++ [ {| req_url :=
                              "https://api.clockify.me/api/v1/workspaces/w1/user/u1/time-entries";
                            req_method := PATCH;
                            req_headers := [("X-Api-Key", "secret");
                                            ("Content-Type", "application/json")];
                            req_body := Some (JObj [("end", JStr "2024-03-01")]) |} ])%list)
    by reflexivity.
  split; [exact H|].
  destruct (stop_time_entry_sends_end_as_given small_engine
              (scripted (answers 200 "{}") 0) configured _ [] _ H)
    as (_ & _ & _ & _ & Hend & _).
  exact (Hend eq_refl).
Defined.

(** *** Report filters by identifier *)

Section ReportFilters.

Variable rt : Runtime.

Lemma ids_filter_sent (payload reportData : JsObject) (f : string) :
  NoDup (map fst payload) ->
  lookup f payload = ids_filter (lookup f reportData) ->
  In f (map fst payload) ->
  (truthy (lookup f reportData) = true ->
   exists j, JSON_stringify (lookup f reportData) = Some j
             /\ lookup f (stringify_props payload) = JObj [("ids", j)])
  /\ (truthy (lookup f reportData) = false ->
      ~ In f (map fst (stringify_props payload))).
Proof.
  intros Hnd Hf Hin. unfold ids_filter in Hf. split; intro Ht; rewrite Ht in Hf.
  - destruct (truthy_stringify _ Ht) as [j Hj]. exists j. split; [exact Hj|].
    apply lookup_stringify_props. rewrite Hf. cbn [JSON_stringify]. now rewrite Hj.
  - intro H. apply in_map_iff in H as [[k j] [E H]]. simpl in E. subst k.
    apply stringify_props_In in H as [v [Hv Hj]].
    rewrite (NoDup_lookup _ _ _ Hnd Hv) in Hf. subst v. discriminate.
Qed.

End ReportFilters.

(** X13.  In the body of either report each of [users], [clients],
    [projects], [tasks] and [tags] is the object [{ids: v}] when the
    argument [v] is truthy (an empty array is) and is absent when the
    argument is falsy or missing. *)
Theorem report_id_filters :
  forall (rt : Runtime) (world : World) (config : ClockifyConfig)
         (name f : string) (args : JsObject) (log : list HttpRequest)
         (req : HttpRequest),
    In name ["get_detailed_report"; "get_summary_report"] ->
    In f ["users"; "clients"; "projects"; "tasks"; "tags"] ->
    snd (callTool rt world config name (Some args) log) = (log ++ [req])%list ->
    exists body,
      req_body req = Some (JObj body)
      /\ (truthy (lookup f args) = true ->
          exists j, JSON_stringify (lookup f args) = Some j
                    /\ lookup f body = JObj [("ids", j)])
      /\ (truthy (lookup f args) = false -> ~ In f (map fst body)).
Proof.
  intros rt world config name f args log req Hname Hf Hreq.
  assert (Hlook : lookup f (remove_key "workspaceId" args) = lookup f args).
  { simpl in Hf.
    repeat match type of Hf with _ \/ _ => destruct Hf as [<-|Hf] end;
      [ .. | contradiction]; now compare_keys. }
  rewrite <- Hlook.
  pattern req; (eapply callTool_issued; [|exact Hreq]).
  simpl in Hname. destruct Hname as [<-|[<-|[]]]; take_case; follow_request.
  - eexists.
    split; [apply stripped_body, detailed_payload_keys|].
    apply ids_filter_sent; [apply detailed_payload_keys | | ];
      simpl in Hf;
      repeat match type of Hf with _ \/ _ => destruct Hf as [<-|Hf] end;
      try contradiction; first [reflexivity | simpl; tauto].
  - exists (stringify_props (summary_payload (remove_key "workspaceId" args))).
    split; [apply stripped_body, summary_payload_keys|].
    apply ids_filter_sent; [apply summary_payload_keys | | ];
      simpl in Hf;
      repeat match type of Hf with _ \/ _ => destruct Hf as [<-|Hf] end;
      try contradiction; first [reflexivity | simpl; tauto].
Qed.

Lemma report_id_filters_witness :
  snd (run (callTool small_engine (scripted (answers 200 "{}") 0) configured
              "get_detailed_report"
              (Some [("workspaceId", JStr "w1");
                     ("dateRangeStart", JStr "2024-01-01T00:00:00Z");
                     ("dateRangeEnd", JStr "2024-01-31T23:59:59Z");
                     ("projects", JArr [JStr "p1"; JStr "p2"]);
                     ("users", JArr [])])))
  = ([] ++ [request_for configured "/workspaces/w1/reports/detailed" POST
              (JObj (strip_undefined
                       (detailed_payload
                          [("dateRangeStart", JStr "2024-01-01T00:00:00Z");
                           ("dateRangeEnd", JStr "2024-01-31T23:59:59Z");
                           ("projects", JArr [JStr "p1"; JStr "p2"]);
                           ("users", JArr [])]
                          (JNum (Int 50)))))
              (Some reports_base)])%list
  /\ exists body,
       req_body (request_for configured "/workspaces/w1/reports/detailed" POST
                   (JObj (strip_undefined
                            (detailed_payload
                               [("dateRangeStart", JStr "2024-01-01T00:00:00Z");
                                ("dateRangeEnd", JStr "2024-01-31T23:59:59Z");
                                ("projects", JArr [JStr "p1"; JStr "p2"]);
                                ("users", JArr [])]
                               (JNum (Int 50)))))
                   (Some reports_base))
       = Some (JObj body)
       /\ lookup "users" body = JObj [("ids", JArr [])].
Proof.
  assert (H : snd (run (callTool small_engine (scripted (answers 200 "{}") 0)
                          configured "get_detailed_report"
                          (Some [("workspaceId", JStr "w1");
                                 ("dateRangeStart", JStr "2024-01-01T00:00:00Z");
                                 ("dateRangeEnd", JStr "2024-01-31T23:59:59Z");
                                 ("projects", JArr [JStr "p1"; JStr "p2"]);
                                 ("users", JArr [])])))
              = ([] ++ [request_for configured "/workspaces/w1/reports/detailed" POST
                          (JObj (strip_undefined
                                   (detailed_payload
                                      [("dateRangeStart", JStr "2024-01-01T00:00:00Z");
                                       ("dateRangeEnd", JStr "2024-01-31T23:59:59Z");
                                       ("projects", JArr [JStr "p1"; JStr "p2"]);
                                       ("users", JArr [])]
                                      (JNum (Int 50)))))
                          (Some reports_base)])%list) by reflexivity.
  split; [exact H|].
  destruct (report_id_filters small_engine (scripted (answers 200 "{}") 0) configured
              "get_detailed_report" "users" _ [] _
              (or_introl eq_refl) (or_introl eq_refl) H)
    as (body & Hbody & Hyes & _).
  exists body. split; [exact Hbody|].
  destruct (Hyes eq_refl) as (j & Hj & Hsent).
  injection Hj as <-. exact Hsent.
Defined.

(** *** A success answer that is no JSON *)

Section Unparsable.

Variable rt : Runtime.
Variable world : World.
Variable config : ClockifyConfig.
Variable r : Response.
Hypothesis has_key : apiKey config <> "".
Hypothesis answers_r : forall req, remote world req = FetchResponse r.
Hypothesis is_ok : response_ok r = true.
Hypothesis no_json : JSON_parse rt (body_text r) = None.

Lemma makeRequest_unparsable endpoint method data base log :
  makeRequest rt world config endpoint method data base log
  = (Throw (NativeError (BadJson (body_text r))),
     (log ++ [request_for config endpoint method data base])%list).
Proof.
  rewrite makeRequest_configured by assumption.
  now rewrite answers_r, is_ok, no_json.
Qed.

Lemma stopped_by_unparsable {A : Type} endpoint method data base (k : JsVal -> M A) :
  stopped_by (NativeError (BadJson (body_text r)))
    (bind (makeRequest rt world config endpoint method data base) k).
Proof.
  intro log. right. eexists. unfold bind. now rewrite makeRequest_unparsable.
Qed.

Lemma dispatch_unparsable name args :
  stopped_by (NativeError (BadJson (body_text r))) (dispatch rt world config name args).
Proof.
  unfold dispatch.
  repeat match goal with
         | |- context [name_is name ?l] => destruct (name_is name l)
         end;
    unfold_handlers;
    repeat first
      [ apply stopped_by_throw
      | apply stopped_by_unparsable
      | apply stopped_by_bind; [solve [silence] | intros]
      | match goal with
        | |- stopped_by _ (match ?x with _ => _ end) => destruct x
        end ].
Qed.

End Unparsable.

(** X14.  When the remote answers with a success status and a body that
    is no JSON text (the empty body of a 204 is one), every tool
    invocation that issued its request fails with the internal error
    [Tool execution failed: ...] of the dispatcher, not with
    [Request failed: ...]: [makeRequest] returns the promise of
    [response.json()] without awaiting it, so the rejection passes its
    [catch] block by.  The request has gone out all the same. *)
Theorem unparsable_success_body_fails_the_tool :
  forall (rt : Runtime) (world : World) (config : ClockifyConfig) (r : Response),
    apiKey config <> "" ->
    (forall req, remote world req = FetchResponse r) ->
    response_ok r = true ->
    JSON_parse rt (body_text r) = None ->
    forall name args log,
      snd (callTool rt world config name args log) = log
      \/ exists req,
           callTool rt world config name args log
           = (Throw (McpError InternalError
                       ("Tool execution failed: "
                          ++ fault_message rt (BadJson (body_text r)))),
              (log ++ [req])%list).
Proof.
  intros rt world config r Hkey Hans Hok Hno name args log.
  unfold callTool, try_catch.
  destruct (dispatch_unparsable rt world config r Hkey Hans Hok Hno name args log)
    as [H|[req H]].
  - left. destruct (dispatch rt world config name args log) as [[v|e] log'];
      simpl in *; assumption.
  - right. exists req. rewrite H. reflexivity.
Qed.

Lemma unparsable_success_body_fails_the_tool_witness :
  apiKey configured <> ""
  /\ exists req,
       run (callTool small_engine (scripted (answers 204 "") 0) configured
              "delete_tag" (Some [("workspaceId", JStr "w1"); ("tagId", JStr "g1")]))
       = (Throw (McpError InternalError
                   ("Tool execution failed: "
                      ++ fault_message small_engine (BadJson ""))),
          [req]).
Proof.
  assert (Hkey : apiKey configured <> "") by (simpl; discriminate).
  split; [exact Hkey|].
  destruct (unparsable_success_body_fails_the_tool small_engine
              (scripted (answers 204 "") 0) configured
              {| status := 204; body_text := "" |}
              Hkey (fun _ => eq_refl) eq_refl eq_refl
              "delete_tag" (Some [("workspaceId", JStr "w1"); ("tagId", JStr "g1")]) [])
    as [H|[req H]].
  - discriminate H.
  - exists req. exact H.
Defined.

(** *** Date-only strings *)

Lemma In_upto (lo : Z) (n : nat) (z : Z) :
  lo <= z < lo + Z.of_nat n -> In z (upto lo n).
Proof.
  intro H. unfold upto. apply in_map_iff. exists (Z.to_nat (z - lo)).
  split; [lia|]. apply in_seq. lia.
Qed.

Lemma months_checked :
  forallb (fun m => forallb (month_day_ok m) (upto 1 31)) (upto 1 12) = true.
Proof. vm_compute. reflexivity. Qed.

Lemma years_checked : forallb year_ok (upto 0 400) = true.
Proof. vm_compute. reflexivity. Qed.

Lemma month_day_checked (m d : Z) :
  1 <= m <= 12 -> 1 <= d <= 31 -> month_day_ok m d = true.
Proof.
  intros Hm Hd. pose proof months_checked as H.
  rewrite forallb_forall in H. specialize (H m (In_upto 1 12 m ltac:(lia))).
  rewrite forallb_forall in H. exact (H d (In_upto 1 31 d ltac:(lia))).
Qed.

Lemma year_checked (yoe : Z) : 0 <= yoe < 400 -> year_ok yoe = true.
Proof.
  intro Hy. pose proof years_checked as H.
  rewrite forallb_forall in H. exact (H yoe (In_upto 0 400 yoe ltac:(lia))).
Qed.

Lemma days_in_month_le (y m : Z) :
  days_in_month 1 m <= days_in_month y m <= days_in_month 0 m
  /\ days_in_month 0 m <= 31
  /\ (days_in_month 1 m < days_in_month y m -> m = 2 /\ days_in_month y m = 29).
Proof.
  destruct (Z.eqb_spec m 2) as [->|Hne].
  - change (days_in_month 1 2) with 28. change (days_in_month 0 2) with 29.
    assert (H : days_in_month y 2 = 28 \/ days_in_month y 2 = 29).
    { unfold days_in_month. cbn [Z.eqb Pos.eqb].
      match goal with |- context [if ?b then _ else _] => destruct b end; tauto. }
    lia.
  - assert (H : forall z, days_in_month z m = days_in_month 0 m).
    { intro z. unfold days_in_month. apply Z.eqb_neq in Hne. now rewrite Hne. }
    rewrite (H 1), (H y).
    assert (days_in_month 0 m <= 31); [|lia].
    unfold days_in_month.
    repeat match goal with |- context [if ?b then _ else _] => destruct b end; lia.
Qed.

Lemma days_in_month_era (era w m : Z) :
  days_in_month (era * 400 + w) m = days_in_month w m.
Proof.
  unfold days_in_month.
  replace ((era * 400 + w) mod 4) with (w mod 4)
    by (Z.div_mod_to_equations; lia).
  replace ((era * 400 + w) mod 100) with (w mod 100)
    by (Z.div_mod_to_equations; lia).
  replace ((era * 400 + w) mod 400) with (w mod 400)
    by (Z.div_mod_to_equations; lia).
  reflexivity.
Qed.

Lemma years_before_mono (a b : Z) : a <= b -> years_before a <= years_before b.
Proof. intro H. unfold years_before. Z.div_mod_to_equations. lia. Qed.

(** The year of the era is found again from any of its days. *)
Lemma yoe_of_year_start (yoe doy : Z) :
  0 <= yoe < 400 ->
  0 <= doy <= 364 \/ doy = 365 /\ days_in_month (yoe + 1) 2 = 29 ->
  yoe_of (year_start yoe + doy) = yoe /\ 0 <= year_start yoe + doy < 146097.
Proof.
  intros Hy Hdoy. pose proof (year_checked yoe Hy) as H. unfold year_ok in H.
  cbv zeta in H.
  apply andb_prop in H as [H Hleap]. apply andb_prop in H as [H Hhi].
  apply andb_prop in H as [H Hlo]. apply andb_prop in H as [H0 H364].
  apply Z.leb_le in H0, Hlo. apply Z.ltb_lt in H364, Hhi.
  destruct Hdoy as [Hdoy|[-> Hl]].
  - split; [|lia]. unfold yoe_of.
    replace ((year_start yoe + doy) / 146096) with 0
      by (Z.div_mod_to_equations; lia).
    pose proof (years_before_mono (year_start yoe) (year_start yoe + doy) ltac:(lia)).
    pose proof (years_before_mono (year_start yoe + doy) (year_start yoe + 364)
                  ltac:(lia)).
    Z.div_mod_to_equations. lia.
  - rewrite Hl in Hleap. cbn [Z.eqb Pos.eqb] in Hleap.
    apply andb_prop in Hleap as [E U]. apply Z.eqb_eq in E. apply Z.ltb_lt in U.
    split; [exact E | lia].
Qed.

Lemma civil_from_days_era (era doe : Z) :
  0 <= doe < 146097 ->
  civil_from_days (era * 146097 + doe - 719468)
  = let yoe := yoe_of doe in
    let '(m, d) := month_day_of (doe - year_start yoe) in
    ((if m <=? 2 then yoe + era * 400 + 1 else yoe + era * 400), m, d).
Proof.
  intro H. unfold civil_from_days, yoe_of, years_before, month_day_of, year_start.
  cbv zeta.
  replace (era * 146097 + doe - 719468 + 719468) with (era * 146097 + doe) by lia.
  replace ((era * 146097 + doe) / 146097) with era
    by (Z.div_mod_to_equations; lia).
  replace (era * 146097 + doe - era * 146097) with doe by lia.
  replace (365 * ((doe - doe / 1460 + doe / 36524 - doe / 146096) / 365))
    with ((doe - doe / 1460 + doe / 36524 - doe / 146096) / 365 * 365) by lia.
  reflexivity.
Qed.

(** The date of the day number of a date of the calendar is that date. *)
Lemma civil_round_trip (y m d : Z) :
  1 <= m <= 12 -> 1 <= d <= days_in_month y m ->
  civil_from_days (days_from_civil y m d) = (y, m, d)
  /\ (y - 1) / 400 * 146097 - 719468 <= days_from_civil y m d
     < y / 400 * 146097 + 146097 - 719468.
Proof.
  intros Hm Hd.
  pose proof (days_in_month_le y m) as (Hlen & H31 & Hfeb).
  remember (if m <=? 2 then 1 else 0) as adj eqn:Eadj.
  remember ((y - adj) / 400) as era eqn:Eera.
  remember (y - adj - era * 400) as yoe eqn:Eyoe.
  assert (Hyoe : 0 <= yoe < 400)
    by (subst yoe era; Z.div_mod_to_equations; lia).
  assert (Hy : y = era * 400 + (yoe + adj)) by lia.
  assert (Hdfc : days_from_civil y m d
                 = era * 146097 + (year_start yoe + doy_of m d) - 719468).
  { unfold days_from_civil, year_start, doy_of. cbv zeta.
    replace (if m <=? 2 then y - 1 else y) with (y - adj)
      by (subst adj; destruct (m <=? 2); lia).
    rewrite <- Eera, <- Eyoe. lia. }
  pose proof (month_day_checked m d Hm ltac:(lia)) as Hmd. unfold month_day_ok in Hmd.
  destruct (Z.leb_spec d (days_in_month 0 m)) as [_|]; [|lia].
  cbv zeta in Hmd.
  destruct (month_day_of (doy_of m d)) as [m' d'] eqn:Emd.
  apply andb_prop in Hmd as [Hmd Hlast]. apply andb_prop in Hmd as [Hmd U].
  apply andb_prop in Hmd as [Hmd L]. apply andb_prop in Hmd as [E1 E2].
  apply Z.eqb_eq in E1, E2. apply Z.leb_le in L, U. subst m' d'.
  assert (Hdoy : 0 <= doy_of m d <= 364
                 \/ doy_of m d = 365 /\ days_in_month (yoe + 1) 2 = 29).
  { destruct (Z.leb_spec d (days_in_month 1 m)) as [_|Hgt].
    - left. apply Z.leb_le in Hlast. lia.
    - right. apply Z.eqb_eq in Hlast. split; [exact Hlast|].
      destruct (Hfeb ltac:(lia)) as [-> H29].
      rewrite Hy, days_in_month_era in H29. subst adj. exact H29. }
  destruct (yoe_of_year_start yoe (doy_of m d) Hyoe Hdoy) as [Hback Hrange].
  split.
  - rewrite Hdfc, civil_from_days_era by exact Hrange. cbv zeta. rewrite Hback.
    replace (year_start yoe + doy_of m d - year_start yoe) with (doy_of m d) by lia.
    rewrite Emd. subst adj. destruct (m <=? 2); f_equal; f_equal; lia.
  - rewrite Hdfc.
    assert ((y - 1) / 400 <= era <= y / 400)
      by (subst era adj; destruct (m <=? 2); Z.div_mod_to_equations; lia).
    lia.
Qed.

Lemma digit_val_char (c : ascii) (v : Z) :
  digit_val c = Some v -> 0 <= v <= 9 /\ c = digit_char v.
Proof.
  destruct c as [[] [] [] [] [] [] [] []]; intro H; vm_compute in H;
    try discriminate; inversion H; subst; split; try reflexivity; lia.
Qed.

Lemma digit_char_low (a b : Z) :
  0 <= b <= 9 -> digit_char (a * 10 + b) = digit_char b /\ (a * 10 + b) / 10 = a.
Proof.
  intro H. unfold digit_char.
  replace ((a * 10 + b) mod 10) with (b mod 10) by (Z.div_mod_to_equations; lia).
  split; [reflexivity | Z.div_mod_to_equations; lia].
Qed.

Lemma pad_two (a b : Z) :
  0 <= b <= 9 ->
  pad 2 (a * 10 + b) = String (digit_char a) (String (digit_char b) EmptyString).
Proof.
  intro Hb. cbn [pad]. destruct (digit_char_low a b Hb) as [-> ->]. reflexivity.
Qed.

Lemma pad_four (a b c d : Z) :
  0 <= b <= 9 -> 0 <= c <= 9 -> 0 <= d <= 9 ->
  pad 4 (((a * 10 + b) * 10 + c) * 10 + d)
  = String (digit_char a)
      (String (digit_char b) (String (digit_char c) (String (digit_char d) EmptyString))).
Proof.
  intros Hb Hc Hd. cbn [pad].
  destruct (digit_char_low ((a * 10 + b) * 10 + c) d Hd) as [-> ->].
  destruct (digit_char_low (a * 10 + b) c Hc) as [-> ->].
  destruct (digit_char_low a b Hb) as [-> ->]. reflexivity.
Qed.

(** What a date-only string is made of. *)
Lemma parse_iso_date_shape (s : string) (t : Z) :
  parse_iso_date s = Some t ->
  exists y m d,
    0 <= y <= 9999 /\ 1 <= m <= 12 /\ 1 <= d <= days_in_month y m
    /\ t = days_from_civil y m d * msPerDay
    /\ s = pad 4 y ++ "-" ++ pad 2 m ++ "-" ++ pad 2 d.
Proof.
  unfold parse_iso_date. intro H.
  rewrite <- (string_of_list_ascii_of_string s).
  destruct (list_ascii_of_string s) as [|y1 [|y2 [|y3 [|y4 [|s1 [|m1 [|m2 [|s2 [|d1 [|d2 [|]]]]]]]]]]];
    try discriminate.
  destruct (Ascii.eqb_spec s1 "-"%char) as [->|]; [|discriminate].
  destruct (Ascii.eqb_spec s2 "-"%char) as [->|]; [|discriminate].
  cbn [andb digits_val] in H.
  destruct (digit_val y1) as [a1|] eqn:A1; [|discriminate].
  destruct (digit_val y2) as [a2|] eqn:A2; [|discriminate].
  destruct (digit_val y3) as [a3|] eqn:A3; [|discriminate].
  destruct (digit_val y4) as [a4|] eqn:A4; [|discriminate].
  destruct (digit_val m1) as [b1|] eqn:B1; [|discriminate].
  destruct (digit_val m2) as [b2|] eqn:B2; [|discriminate].
  destruct (digit_val d1) as [c1|] eqn:C1; [|discriminate].
  destruct (digit_val d2) as [c2|] eqn:C2; [|discriminate].
  apply digit_val_char in A1 as [? ->], A2 as [? ->], A3 as [? ->], A4 as [? ->].
  apply digit_val_char in B1 as [? ->], B2 as [? ->], C1 as [? ->], C2 as [? ->].
  cbv beta iota in H. rewrite !Z.mul_0_l, !Z.add_0_l in H.
  match type of H with (if ?b then _ else _) = _ => destruct b eqn:V end;
    [|discriminate].
  apply andb_prop in V as [V V4]. apply andb_prop in V as [V V3].
  apply andb_prop in V as [V1 V2].
  apply Z.leb_le in V1, V2, V3, V4. inversion H as [Ht].
  eexists _, _, _. split; [|split; [|split; [|split; [reflexivity|]]]].
  4: { rewrite pad_four, !pad_two by assumption. reflexivity. }
  - lia.
  - lia.
  - lia.
Qed.

Lemma no_T_in_digits (n : Z) : includes_char "T"%char (String (digit_char n) "") = false.
Proof.
  unfold digit_char.
  assert (H : 0 <= n mod 10 < 10) by (apply Z.mod_pos_bound; lia).
  assert (E : exists i, (i < 10)%nat /\ Z.to_nat (n mod 10) = i)
    by (exists (Z.to_nat (n mod 10)); split; [lia | reflexivity]).
  destruct E as [i [Hi ->]].
  do 10 (destruct i as [|i]; [reflexivity|]). lia.
Qed.

Lemma pad_no_T (w : nat) (n : Z) : includes_char "T"%char (pad w n) = false.
Proof.
  revert n. induction w as [|w IH]; intro n; [reflexivity|].
  cbn [pad]. now rewrite includes_char_app, IH, no_T_in_digits.
Qed.

Lemma append_assoc (a b c : string) : (a ++ b) ++ c = a ++ b ++ c.
Proof. induction a as [|x a IH]; cbn [append]; [reflexivity | now rewrite IH]. Qed.

Section DateOnly.

Variable rt : Runtime.

(** The instant of a date-only string and the text sent for it. *)
Lemma date_only_instant (s : string) (t : Z) :
  parse_iso_date s = Some t ->
  includes_char "T"%char s = false
  /\ s <> ""
  /\ new_Date rt (JStr s) = Some t
  /\ toISOString t = s ++ "T00:00:00.000Z".
Proof.
  intro H. pose proof H as Hparse.
  apply parse_iso_date_shape in H as (y & m & d & Hy & Hm & Hd & Ht & Hs).
  destruct (civil_round_trip y m d Hm Hd) as [Hback Hrange].
  split; [|split; [|split]].
  - rewrite Hs, !includes_char_app, !pad_no_T. reflexivity.
  - intro E. rewrite E in Hparse. discriminate.
  - unfold new_Date, Date_parse. rewrite Hparse. unfold time_clip.
    destruct (Z.leb_spec (Z.abs t) 8640000000000000) as [|Hbig]; [reflexivity|].
    exfalso. rewrite Ht in Hbig. unfold msPerDay in Hbig.
    assert (-1 <= (y - 1) / 400) by (Z.div_mod_to_equations; lia).
    assert (y / 400 <= 24) by (Z.div_mod_to_equations; lia).
    lia.
  - rewrite Ht. unfold toISOString. rewrite Z.div_mul by (unfold msPerDay; lia).
    rewrite Hback, Z.mod_mul by (unfold msPerDay; lia).
    destruct (Z.leb_spec 0 y) as [_|]; [|lia].
    destruct (Z.leb_spec y 9999) as [_|]; [|lia].
    cbn [andb]. rewrite Hs, !append_assoc. reflexivity.
Qed.

End DateOnly.

(** *** The data of a time-entry request *)

Lemma assign_keys (k k' : string) (v : JsVal) (o : JsObject) :
  In k' (map fst (assign k v o)) -> k' = k \/ In k' (map fst o).
Proof.
  induction o as [|[k0 v0] o IH]; simpl.
  - intros [E|[]]. now left.
  - destruct (k =? k0)%string eqn:E; simpl.
    + apply String.eqb_eq in E. subst k0. tauto.
    + intros [E'|H]; [tauto|]. apply IH in H. tauto.
Qed.

Lemma remove_key_keys (k k' : string) (o : JsObject) :
  In k (map fst (remove_key k' o)) -> k <> k' /\ In k (map fst o).
Proof.
  intro H. apply in_map_iff in H as [[k0 v] [E H]]. simpl in E. subst k0.
  apply remove_key_In in H as [H Hne]. split; [exact Hne|].
  apply in_map_iff. now exists (k, v).
Qed.

Section TimeEntryData.

Variable rt : Runtime.
Variable world : World.
Variable config : ClockifyConfig.

Lemma normalize_required_keys k data data' log log' k' :
  normalize_required rt k data log = (Ok data', log') ->
  In k' (map fst data') -> k' = k \/ In k' (map fst data).
Proof.
  unfold normalize_required, reserialize, bind. intro H.
  destruct (includes_T (lookup k data) log) as [[[]|e] l]; simpl in H;
    try discriminate.
  - inversion H. subst. tauto.
  - destruct (Date_construct rt (lookup k data) l) as [[d|e] l'];
      simpl in H; [|discriminate].
    destruct (Date_toISOString d l') as [[iso|e] l''];
      simpl in H; [|discriminate].
    inversion H. subst. apply assign_keys.
Qed.

Lemma normalize_if_present_keys k data data' log log' k' :
  normalize_if_present rt k data log = (Ok data', log') ->
  In k' (map fst data') -> k' = k \/ In k' (map fst data).
Proof.
  unfold normalize_if_present. destruct (truthy (lookup k data)).
  - apply normalize_required_keys.
  - intro H. inversion H. subst. tauto.
Qed.

(** What the data of a [create_time_entry] request is, field by field. *)
Lemma create_time_entry_data args log req :
  snd (callTool rt world config "create_time_entry" (Some args) log)
  = (log ++ [req])%list ->
  exists data,
    req_body req = Some (JObj (stringify_props data))
    /\ (forall s, lookup "start" args = JStr s ->
                  date_field_sent rt false s (lookup "start" data))
    /\ (forall s, lookup "end" args = JStr s ->
                  date_field_sent rt true s (lookup "end" data))
    /\ (forall k, (k =? "start")%string = false -> (k =? "end")%string = false ->
                  lookup k data = lookup k (remove_key "workspaceId" args))
    /\ (forall k, In k (map fst data) ->
                  k = "start" \/ k = "end"
                  \/ In k (map fst (remove_key "workspaceId" args))).
Proof.
  intro Hreq.
  apply create_time_entry_sent in Hreq as (d1 & d2 & H1 & H2 & _ & ->).
  exists d2. split; [reflexivity|]. split; [|split; [|split]].
  - intros s Hs.
    rewrite (normalize_if_present_frame rt _ _ _ _ _ "start" H2 eq_refl).
    apply (normalize_required_string rt _ _ _ _ _ s H1). compare_keys. exact Hs.
  - intros s Hs. apply (normalize_if_present_string rt _ _ _ _ _ s H2).
    rewrite (normalize_required_frame rt _ _ _ _ _ "end" H1 eq_refl).
    compare_keys. exact Hs.
  - intros k Hk1 Hk2.
    rewrite (normalize_if_present_frame rt _ _ _ _ _ k H2 Hk2).
    exact (normalize_required_frame rt _ _ _ _ _ k H1 Hk1).
  - intros k Hin.
    apply (normalize_if_present_keys _ _ _ _ _ _ H2) in Hin as [->|Hin]; [tauto|].
    apply (normalize_required_keys _ _ _ _ _ _ H1) in Hin as [->|Hin]; tauto.
Qed.

(** The same for [update_time_entry], whose [start] is guarded as its
    [end] is. *)
Lemma update_time_entry_data args log req :
  snd (callTool rt world config "update_time_entry" (Some args) log)
  = (log ++ [req])%list ->
  exists data,
    req_body req = Some (JObj (stringify_props data))
    /\ (forall s, lookup "start" args = JStr s ->
                  date_field_sent rt true s (lookup "start" data))
    /\ (forall s, lookup "end" args = JStr s ->
                  date_field_sent rt true s (lookup "end" data))
    /\ (forall k, (k =? "start")%string = false -> (k =? "end")%string = false ->
                  lookup k data
                  = lookup k (remove_key "timeEntryId" (remove_key "workspaceId" args)))
    /\ (forall k, In k (map fst data) ->
                  k = "start" \/ k = "end"
                  \/ In k (map fst (remove_key "timeEntryId"
                                      (remove_key "workspaceId" args)))).
Proof.
  intro Hreq.
  apply update_time_entry_sent in Hreq as (d1 & d2 & H1 & H2 & _ & _ & ->).
  exists d2. split; [reflexivity|]. split; [|split; [|split]].
  - intros s Hs.
    rewrite (normalize_if_present_frame rt _ _ _ _ _ "start" H2 eq_refl).
    apply (normalize_if_present_string rt _ _ _ _ _ s H1). compare_keys. exact Hs.
  - intros s Hs. apply (normalize_if_present_string rt _ _ _ _ _ s H2).
    rewrite (normalize_if_present_frame rt _ _ _ _ _ "end" H1 eq_refl).
    compare_keys. exact Hs.
  - intros k Hk1 Hk2.
    rewrite (normalize_if_present_frame rt _ _ _ _ _ k H2 Hk2).
    exact (normalize_if_present_frame rt _ _ _ _ _ k H1 Hk1).
  - intros k Hin.
    apply (normalize_if_present_keys _ _ _ _ _ _ H2) in Hin as [->|Hin]; [tauto|].
    apply (normalize_if_present_keys _ _ _ _ _ _ H1) in Hin as [->|Hin]; tauto.
Qed.

Lemma date_only_field_sent (guarded : bool) (s : string) (t : Z) (sent : JsVal) :
  parse_iso_date s = Some t ->
  date_field_sent rt guarded s sent ->
  sent = JStr (s ++ "T00:00:00.000Z").
Proof.
  intros Hparse Hsent.
  destruct (date_only_instant rt s t Hparse) as (HT & Hne & Hnew & Hiso).
  unfold date_field_sent in Hsent. rewrite HT in Hsent.
  destruct (String.eqb_spec s "") as [E|_]; [contradiction|].
  rewrite andb_false_r in Hsent. destruct Hsent as (t' & Ht' & -> & _).
  rewrite Hnew in Ht'. inversion Ht'. subst t'. now rewrite Hiso.
Qed.

End TimeEntryData.

(** X15.  A [start] or [end] given to [create_time_entry] or
    [update_time_entry] as a date of the calendar in the form
    [YYYY-MM-DD] goes out as the midnight that begins that day in UTC:
    the same text followed by [T00:00:00.000Z].  The date is neither
    shifted by a time zone nor rewritten. *)
Theorem date_only_is_sent_as_utc_midnight :
  forall (rt : Runtime) (world : World) (config : ClockifyConfig)
         (name k : string) (args : JsObject) (log : list HttpRequest)
         (req : HttpRequest) (s : string) (t : Z),
    In name ["create_time_entry"; "update_time_entry"] ->
    In k ["start"; "end"] ->
    lookup k args = JStr s ->
    parse_iso_date s = Some t ->
    snd (callTool rt world config name (Some args) log) = (log ++ [req])%list ->
    exists body,
      req_body req = Some (JObj body)
      /\ lookup k body = JStr (s ++ "T00:00:00.000Z").
Proof.
  intros rt world config name k args log req s t Hname Hk Hs Hparse Hreq.
  assert (Hdata : exists data g1,
             req_body req = Some (JObj (stringify_props data))
             /\ (forall s, lookup "start" args = JStr s ->
                           date_field_sent rt g1 s (lookup "start" data))
             /\ (forall s, lookup "end" args = JStr s ->
                           date_field_sent rt true s (lookup "end" data))).
  { simpl in Hname. destruct Hname as [<-|[<-|[]]].
    - apply create_time_entry_data in Hreq as (data & Hb & H1 & H2 & _).
      now exists data, false.
    - apply update_time_entry_data in Hreq as (data & Hb & H1 & H2 & _).
      now exists data, true. }
  destruct Hdata as (data & g1 & Hbody & Hstart & Hend).
  exists (stringify_props data). split; [exact Hbody|].
  apply lookup_stringify_props.
  simpl in Hk. destruct Hk as [<-|[<-|[]]].
  - now rewrite (date_only_field_sent rt g1 s t _ Hparse (Hstart s Hs)).
  - now rewrite (date_only_field_sent rt true s t _ Hparse (Hend s Hs)).
Qed.

Lemma date_only_is_sent_as_utc_midnight_witness :
  snd (run (callTool small_engine (scripted (answers 200 "{}") 0) configured
              "create_time_entry"
              (Some [("workspaceId", JStr "w1"); ("start", JStr "2024-02-29");
                     ("description", JStr "Leap day")])))
  = ([] ++ [ {| req_url := "https://api.clockify.me/api/v1/workspaces/w1/time-entries";
                req_method := POST;
                req_headers := [("X-Api-Key", "secret");
                                ("Content-Type", "application/json")];
                req_body := Some (JObj [("start", JStr "2024-02-29T00:00:00.000Z");
                                        ("description", JStr "Leap day")]) |} ])%list
  /\ parse_iso_date "2024-02-29" = Some 1709164800000
  /\ exists body,
       Some (JObj [("start", JStr "2024-02-29T00:00:00.000Z");
                   ("description", JStr "Leap day")])
       = Some (JObj body)
       /\ lookup "start" body = JStr ("2024-02-29" ++ "T00:00:00.000Z").
Proof.
  assert (H : snd (run (callTool small_engine (scripted (answers 200 "{}") 0)
                          configured "create_time_entry"
                          (Some [("workspaceId", JStr "w1");
                                 ("start", JStr "2024-02-29");
                                 ("description", JStr "Leap day")])))
              = ([] ++ [ {| req_url :=
                              "https://api.clockify.me/api/v1/workspaces/w1/time-entries";
                            req_method := POST;
                            req_headers := [("X-Api-Key", "secret");
                                            ("Content-Type", "application/json")];
                            req_body :=
                              Some (JObj [("start", JStr "2024-02-29T00:00:00.000Z");
                                          ("description", JStr "Leap day")]) |} ])%list)
    by reflexivity.
  assert (Hp : parse_iso_date "2024-02-29" = Some 1709164800000) by reflexivity.
  split; [exact H|]. split; [exact Hp|].
  exact (date_only_is_sent_as_utc_midnight small_engine
           (scripted (answers 200 "{}") 0) configured "create_time_entry" "start"
           [("workspaceId", JStr "w1"); ("start", JStr "2024-02-29");
            ("description", JStr "Leap day")]
           [] _ "2024-02-29" 1709164800000
           (or_introl eq_refl) (or_introl eq_refl) eq_refl Hp H).
Defined.

(** X16.  The body of a [create_time_entry] or [update_time_entry]
    request never has the identifiers that went into the path, and every
    argument other than those, [start] and [end] is in the body as it
    came. *)
Theorem time_entry_body_keeps_other_fields :
  forall (rt : Runtime) (world : World) (config : ClockifyConfig)
         (name : string) (ids : list string) (args : JsObject)
         (log : list HttpRequest) (req : HttpRequest),
    In (name, ids) [("create_time_entry", ["workspaceId"]);
                    ("update_time_entry", ["workspaceId"; "timeEntryId"])] ->
    snd (callTool rt world config name (Some args) log) = (log ++ [req])%list ->
    exists body,
      req_body req = Some (JObj body)
      /\ (forall k, In k ids -> ~ In k (map fst body))
      /\ (forall k j, ~ In k ids -> k <> "start" -> k <> "end" ->
                      JSON_stringify (lookup k args) = Some j ->
                      lookup k body = j).
Proof.
  intros rt world config name ids args log req Hin Hreq.
  assert (Hdata : exists data,
             req_body req = Some (JObj (stringify_props data))
             /\ (forall k, (k =? "start")%string = false ->
                           (k =? "end")%string = false ->
                           lookup k data = lookup k (without ids args))
             /\ (forall k, In k (map fst data) ->
                           k = "start" \/ k = "end"
                           \/ In k (map fst (without ids args)))).
  { simpl in Hin. destruct Hin as [E|[E|[]]]; inversion E; subst name ids; clear E;
      rewrite <- remove_keys_without.
    - apply create_time_entry_data in Hreq as (data & Hb & _ & _ & H3 & H4).
      now exists data.
    - apply update_time_entry_data in Hreq as (data & Hb & _ & _ & H3 & H4).
      now exists data. }
  destruct Hdata as (data & Hbody & Hframe & Hkeys).
  assert (Hids : In "workspaceId" ids /\ ~ In "start" ids /\ ~ In "end" ids).
  { simpl in Hin. destruct Hin as [E|[E|[]]]; inversion E; subst; simpl;
      repeat split; try tauto; intuition discriminate. }
  exists (stringify_props data). split; [exact Hbody|]. split.
  - intros k Hk Hin'. apply stringify_props_keys, Hkeys in Hin'.
    destruct Hin' as [->|[->|Hin']]; [tauto | tauto |].
    apply in_map_iff in Hin' as [[k' v] [E Hin']]. simpl in E. subst k'.
    apply filter_In in Hin' as [_ Hf]. simpl in Hf.
    apply negb_true_iff in Hf.
    assert (Ht : existsb (String.eqb k) ids = true)
      by (apply existsb_exists; exists k; split; [exact Hk | apply String.eqb_refl]).
    congruence.
  - intros k j Hk Hs He Hj. apply lookup_stringify_props.
    rewrite Hframe by (now apply String.eqb_neq).
    assert (E : lookup k (without ids args) = lookup k args); [|now rewrite E].
    rewrite <- remove_keys_without.
    simpl in Hin. destruct Hin as [E|[E|[]]]; inversion E; subst name ids; clear E;
      simpl in Hk |- *; rewrite ?lookup_remove_key;
      repeat match goal with
             | |- context [(k =? ?l)%string] =>
                 destruct (String.eqb_spec k l); [exfalso; subst; intuition congruence|]
             end; reflexivity.
Qed.

Lemma time_entry_body_keeps_other_fields_witness :
  snd (run (callTool small_engine (scripted (answers 200 "{}") 0) configured
              "update_time_entry"
              (Some [("workspaceId", JStr "w1"); ("timeEntryId", JStr "e1");
                     ("description", JStr "Review"); ("billable", JBool true)])))
  = ([] ++ [ {| req_url :=
                  "https://api.clockify.me/api/v1/workspaces/w1/time-entries/e1";
                req_method := PUT;
                req_headers := [("X-Api-Key", "secret");
                                ("Content-Type", "application/json")];
                req_body := Some (JObj [("description", JStr "Review");
                                        ("billable", JBool true)]) |} ])%list
  /\ exists body,
       Some (JObj [("description", JStr "Review"); ("billable", JBool true)])
       = Some (JObj body)
       /\ lookup "billable" body = JBool true
       /\ ~ In "timeEntryId" (map fst body).
Proof.
  assert (H : snd (run (callTool small_engine (scripted (answers 200 "{}") 0)
                          configured "update_time_entry"
                          (Some [("workspaceId", JStr "w1"); ("timeEntryId", JStr "e1");
                                 ("description", JStr "Review");
                                 ("billable", JBool true)])))
              = ([] ++ [ {| req_url :=
                              "https://api.clockify.me/api/v1/workspaces/w1/time-entries/e1";
                            req_method := PUT;
                            req_headers := [("X-Api-Key", "secret");
                                            ("Content-Type", "application/json")];
                            req_body := Some (JObj [("description", JStr "Review");
                                                    ("billable", JBool true)]) |} ])%list)
    by reflexivity.
  split; [exact H|].
  destruct (time_entry_body_keeps_other_fields small_engine
              (scripted (answers 200 "{}") 0) configured "update_time_entry"
              ["workspaceId"; "timeEntryId"]
              [("workspaceId", JStr "w1"); ("timeEntryId", JStr "e1");
               ("description", JStr "Review"); ("billable", JBool true)]
              [] _ (or_intror (or_introl eq_refl)) H)
    as (body & Hbody & Hids & Hrest).
  exists body. split; [exact Hbody|]. split.
  - apply Hrest; [simpl; intuition discriminate | discriminate | discriminate
                 | reflexivity].
  - apply Hids. simpl. tauto.
Defined.

(** *** Rendering the answer *)

Lemma plain_stringable : forall v, plain v = true -> stringable v = true.
Proof.
  fix IH 1. intros [| | | | |l|o]; simpl; try reflexivity.
  - induction l as [|x l IHl]; simpl; [reflexivity|].
    intro H. apply andb_prop in H as [Hx Hl]. rewrite (IH x Hx). now apply IHl.
  - intro H. now apply andb_prop in H as [H _].
Qed.

Lemma plain_lookup (k : string) (o : JsObject) :
  plain (JObj o) = true -> plain (lookup k o) = true.
Proof.
  simpl. intro H. apply andb_prop in H as [_ H].
  induction o as [|[k' x] o IH]; simpl in *; [reflexivity|].
  apply andb_prop in H as [Hx Ho].
  destruct (_ =? _)%string; [exact Hx | now apply IH].
Qed.

Lemma plain_get_prop (v : JsVal) (k : string) :
  plain v = true -> plain (get_prop v k) = true.
Proof.
  destruct v; try reflexivity; intro H.
  - simpl. now destruct (k =? "length")%string.
  - simpl. now destruct (k =? "length")%string.
  - now apply plain_lookup.
Qed.

Lemma plain_read_opt (v : JsVal) (k : string) :
  plain v = true -> plain (read_opt v k) = true.
Proof.
  intro H. unfold read_opt. destruct (is_nullish v); [reflexivity|].
  now apply plain_get_prop.
Qed.

Lemma plain_first_opt (v : JsVal) : plain v = true -> plain (first_opt v) = true.
Proof.
  destruct v as [| | | |s|l|o]; try reflexivity; intro H.
  - now destruct s.
  - destruct l as [|x l]; [reflexivity|]. simpl in *.
    now apply andb_prop in H as [H _].
  - now apply (plain_lookup "0").
Qed.

Lemma plain_js_or (a d : JsVal) :
  plain a = true -> plain d = true -> plain (js_or a d) = true.
Proof. intros Ha Hd. unfold js_or. now destruct (truthy a). Qed.

(** A value that was read and converts is shown as its string. *)
Lemma shown_ok rt (c : M JsVal) (v : JsVal) (log : list HttpRequest) :
  c log = (Ok v, log) -> stringable v = true ->
  shown rt c log = (Ok (ToString rt v), log).
Proof.
  intros Hc Hv. unfold shown. erewrite bind_ok by exact Hc. now apply to_string_ok.
Qed.

(** Shows that a value read from a plain answer converts. *)
Ltac solve_plain :=
  apply plain_stringable; unfold total_time;
  repeat first
    [ assumption
    | reflexivity
    | apply plain_js_or
    | apply plain_read_opt
    | apply plain_first_opt
    | apply plain_get_prop
    | apply plain_lookup ].

(** One step of a renderer: a conversion of an identifier that has
    converted before, or of a value read from a plain answer. *)
Ltac render_step :=
  erewrite bind_ok
    by first [ apply to_string_ok; assumption
             | apply shown_ok; [reflexivity | solve_plain] ].

Lemma mapM_objects (f : JsVal -> M string) (l : list JsVal) :
  forallb is_object l = true ->
  forallb plain l = true ->
  (forall o log, plain (JObj o) = true ->
                 f (JObj o) log = (Ok (line_of f (JObj o)), log)) ->
  forall log, mapM f l log = (Ok (map (line_of f) l), log).
Proof.
  intros Hl Hp Hf. induction l as [|x l IH]; intro log; [reflexivity|].
  simpl in Hl, Hp. apply andb_prop in Hl as [Hx Hl]. apply andb_prop in Hp as [Hpx Hp].
  destruct x; try discriminate.
  cbn [mapM map]. unfold bind. rewrite (Hf _ _ Hpx), (IH Hl Hp). reflexivity.
Qed.

Section Rendered.

Variable rt : Runtime.
Variable world : World.
Variable config : ClockifyConfig.
Variable r : Response.
Variable v : JsVal.
Hypothesis has_key : apiKey config <> "".
Hypothesis answers_r : forall req, remote world req = FetchResponse r.
Hypothesis is_ok : response_ok r = true.
Hypothesis parses : JSON_parse rt (body_text r) = Some v.

Lemma makeRequest_answered endpoint method data base log :
  makeRequest rt world config endpoint method data base log
  = (Ok v, (log ++ [request_for config endpoint method data base])%list).
Proof.
  rewrite makeRequest_configured by assumption.
  now rewrite answers_r, is_ok, parses.
Qed.

Lemma answered_throw (e : Exn) : answered (throw e).
Proof. intro log. now left. Qed.

Lemma answered_after {A : Type} (pre : M A) (k : A -> M ToolResult) :
  silent pre ->
  (forall a, (exists l, pre l = (Ok a, l)) -> answered (k a)) ->
  answered (bind pre k).
Proof.
  intros Hpre Hk log. unfold bind. pose proof (Hpre log) as Hlog.
  destruct (pre log) as [[a|e] log'] eqn:E; simpl in Hlog; subst log'.
  - apply Hk. now exists log.
  - now left.
Qed.

Lemma answered_request endpoint method data base (k : JsVal -> M ToolResult) :
  (forall log, exists res, k v log = (Ok res, log) /\ isError res = false) ->
  answered (bind (makeRequest rt world config endpoint method data base) k).
Proof.
  intros Hk log. right. unfold bind. rewrite makeRequest_answered.
  destruct (Hk (log ++ [request_for config endpoint method data base])%list)
    as (res & -> & Hres).
  eauto.
Qed.

End Rendered.

Lemma task_path_inv rt workspaceId projectId taskId s (l l' : list HttpRequest) :
  task_path rt workspaceId projectId taskId l = (Ok s, l') ->
  stringable workspaceId = true /\ stringable projectId = true
  /\ stringable taskId = true.
Proof.
  unfold task_path. intro H.
  apply bind_inv in H as (path & l1 & Hpath & H).
  apply tasks_path_inv in Hpath as (_ & Hw & Hp).
  apply bind_inv in H as (tid & l2 & Htid & H). apply to_string_inv in Htid as [_ Ht].
  now repeat split.
Qed.

(** Splits a handler into its silent steps, keeping what they returned,
    and leaves the rendering of the answer. *)
Ltac follow_answer :=
  unfold_handlers;
  repeat first
    [ apply answered_throw
    | apply answered_after; [solve [silence] | intros ? [? ?]]
    | match goal with
      | |- answered (match ?x with _ => _ end) => destruct x
      end ];
  try (eapply answered_request; try eassumption; intro);
  repeat match goal with
         | H : to_string _ _ _ = (Ok _, _) |- _ =>
             apply to_string_inv in H as [-> ?]
         | H : tasks_path _ _ _ _ = (Ok _, _) |- _ =>
             apply tasks_path_inv in H as (-> & ? & ?)
         | H : task_path _ _ _ _ _ = (Ok _, _) |- _ =>
             apply task_path_inv in H as (? & ? & ?)
         end.

(** X17.  What a success answer has to be for a tool to report success
    after its request.  A delete reports success on any JSON answer.  A
    tool that shows one user, project, task, client or tag does on any
    JSON object that is plain (no object inside it has a property named
    [toString]), a missing field being shown as [undefined] or its
    default; so does the detailed report when the two dates of its
    arguments convert to a string; and a tool that lists workspaces,
    users, projects, tasks, clients or tags does on any plain array of
    JSON objects. *)
Theorem answer_is_rendered :
  forall (rt : Runtime) (world : World) (config : ClockifyConfig)
         (r : Response) (v : JsVal),
    apiKey config <> "" ->
    (forall req, remote world req = FetchResponse r) ->
    response_ok r = true ->
    JSON_parse rt (body_text r) = Some v ->
    forall (name : string) (args : option JsObject) (log : list HttpRequest),
      In name ["delete_time_entry"; "delete_project"; "delete_task"; "delete_client";
               "delete_tag"]
      \/ In name ["get_current_user"; "create_project"; "get_project"; "update_project";
                  "create_task"; "get_task"; "update_task"; "create_client";
                  "update_client"; "create_tag"; "update_tag"]
         /\ is_object v = true /\ plain v = true
      \/ name = "get_detailed_report"
         /\ is_object v = true /\ plain v = true
         /\ stringable (arg "dateRangeStart" args) = true
         /\ stringable (arg "dateRangeEnd" args) = true
      \/ In name ["get_workspaces"; "get_workspace_users"; "get_projects"; "get_tasks";
                  "get_clients"; "get_tags"]
         /\ (exists l, v = JArr l /\ forallb is_object l = true) /\ plain v = true ->
      snd (callTool rt world config name args log) = log
      \/ exists req res,
           callTool rt world config name args log = (Ok res, (log ++ [req])%list)
           /\ isError res = false.
Proof.
  intros rt world config r v Hkey Hans Hok Hparse name args log Hname.
  assert (H : answered (dispatch rt world config name args)).
  { destruct Hname
      as [Hin|[(Hin & Hv & Hp)|[(-> & Hv & Hp & Hfirst & Hlast)
                                |(Hin & (l & -> & Hl) & Hp)]]].
    - simpl in Hin.
      repeat match type of Hin with _ \/ _ => destruct Hin as [<-|Hin] end;
        try contradiction; take_case; follow_answer;
        (eexists; split; [repeat render_step; reflexivity | reflexivity]).
    - destruct v; try discriminate. simpl in Hin.
      repeat match type of Hin with _ \/ _ => destruct Hin as [<-|Hin] end;
        try contradiction; take_case; follow_answer;
        (eexists; split; [repeat render_step; reflexivity | reflexivity]).
    - destruct v; try discriminate. take_case.
      destruct args as [a|]; [|apply answered_throw].
      cbn [arg opt_lookup] in Hfirst, Hlast.
      assert (Hf : stringable (lookup "dateRangeStart" (remove_key "workspaceId" a))
                   = true) by now compare_keys.
      assert (Hl : stringable (lookup "dateRangeEnd" (remove_key "workspaceId" a))
                   = true) by now compare_keys.
      follow_answer.
      eexists; split; [repeat render_step; reflexivity | reflexivity].
    - simpl in Hin. simpl in Hp.
      repeat match type of Hin with _ \/ _ => destruct Hin as [<-|Hin] end;
        try contradiction; take_case; follow_answer;
        (eexists; split;
         [ erewrite bind_ok by reflexivity;
           erewrite bind_ok
             by (apply mapM_objects; [assumption | assumption |];
                 intros o' log' Hp'; unfold line_of; cbv beta;
                 repeat render_step; reflexivity);
           reflexivity
         | reflexivity ]). }
  unfold callTool, try_catch.
  destruct (H log) as [E|(req & res & E & Hres)].
  - left. destruct (dispatch rt world config name args log) as [[a|e] log'];
      simpl in *; assumption.
  - right. exists req, res. rewrite E. now split.
Qed.

Lemma answer_is_rendered_witness :
  apiKey configured <> ""
  /\ exists req,
       run (callTool small_engine (scripted (answers 200 "{}") 0) configured
              "get_project" (Some [("workspaceId", JStr "w1"); ("projectId", JStr "p1")]))
       = (Ok (text_result
                ("Project Details:" ++ nl ++ "Name: undefined" ++ nl
                   ++ "ID: undefined" ++ nl ++ "Client: No client" ++ nl
                   ++ "Public: undefined" ++ nl ++ "Billable: undefined" ++ nl
                   ++ "Color: undefined" ++ nl ++ "Archived: undefined")),
          [req]).
Proof.
  assert (Hkey : apiKey configured <> "") by (simpl; discriminate).
  split; [exact Hkey|].
  destruct (answer_is_rendered small_engine (scripted (answers 200 "{}") 0) configured
              {| status := 200; body_text := "{}" |} (JObj [])
              Hkey (fun _ => eq_refl) eq_refl eq_refl
              "get_project" (Some [("workspaceId", JStr "w1"); ("projectId", JStr "p1")])
              [] (or_intror (or_introl (conj (or_intror (or_intror (or_introl eq_refl)))
                                          (conj eq_refl eq_refl)))))
    as [H|(req & res & H & _)].
  - discriminate H.
  - exists req. unfold run.
    rewrite H. f_equal.
    assert (E : fst (callTool small_engine (scripted (answers 200 "{}") 0) configured
                       "get_project"
                       (Some [("workspaceId", JStr "w1"); ("projectId", JStr "p1")]) [])
                = Ok res) by now rewrite H.
    vm_compute in E. now inversion E.
Defined.

(** *** A time entry without its interval *)

Section WithoutInterval.

Variable rt : Runtime.
Variable world : World.
Variable config : ClockifyConfig.
Variable r : Response.
Variable o : JsObject.
Hypothesis has_key : apiKey config <> "".
Hypothesis answers_r : forall req, remote world req = FetchResponse r.
Hypothesis is_ok : response_ok r = true.
Hypothesis parses : JSON_parse rt (body_text r) = Some (JObj o).
Hypothesis no_interval : is_nullish (lookup "timeInterval" o) = true.

Lemma fails_after_throw {A : Type} (P : Fault -> Prop) (e : Exn) :
  fails_after P (@throw A e).
Proof. intro log. now left. Qed.

Lemma fails_after_bind {A B : Type} (P : Fault -> Prop) (pre : M A) (k : A -> M B) :
  silent pre -> (forall a, fails_after P (k a)) -> fails_after P (bind pre k).
Proof.
  intros Hpre Hk log. unfold bind. specialize (Hpre log).
  destruct (pre log) as [[a|e] log']; simpl in Hpre; subst log'.
  - apply Hk.
  - now left.
Qed.

Lemma fails_after_answer {A : Type} (P : Fault -> Prop) endpoint method data base
    (k : JsVal -> M A) :
  (forall log, exists fault, k (JObj o) log = (Throw (NativeError fault), log)
                             /\ P fault) ->
  fails_after P (bind (makeRequest rt world config endpoint method data base) k).
Proof.
  intros Hk log. right. unfold bind.
  rewrite (makeRequest_answered rt world config r (JObj o)) by assumption.
  destruct (Hk (log ++ [request_for config endpoint method data base])%list)
    as (fault & E & HP).
  eauto.
Qed.

(** The first values of the text convert or stop the rendering; the
    interval stops it when they have converted. *)
Lemma render_time_entry_stops headline log :
  exists fault,
    render_time_entry rt headline (JObj o) log = (Throw (NativeError fault), log)
    /\ (fault = NullishAccess (lookup "timeInterval" o) "start" \/ fault = NotPrimitive)
    /\ (plain (JObj o) = true ->
        fault = NullishAccess (lookup "timeInterval" o) "start").
Proof.
  unfold render_time_entry.
  destruct (stringable (lookup "id" o)) eqn:Hid.
  - erewrite bind_ok by (apply shown_ok; [reflexivity | exact Hid]).
    destruct (stringable (js_or (lookup "description" o) (JStr "No description")))
      eqn:Hd.
    + erewrite bind_ok by (apply shown_ok; [reflexivity | exact Hd]).
      eexists. split; [|split; [now left | reflexivity]].
      apply bind_throw. unfold shown. apply bind_throw.
      unfold bind, read. cbn [is_nullish get_prop ret]. now rewrite no_interval.
    + exists NotPrimitive. split; [|split; [now right|]].
      * apply bind_throw. unfold shown.
        erewrite bind_ok by reflexivity. now apply to_string_throws.
      * intro Hp. exfalso.
        assert (stringable (js_or (lookup "description" o) (JStr "No description"))
                = true) by solve_plain.
        congruence.
  - exists NotPrimitive. split; [|split; [now right|]].
    + apply bind_throw. unfold shown.
      erewrite bind_ok by reflexivity. now apply to_string_throws.
    + intro Hp. exfalso.
      assert (stringable (lookup "id" o) = true) by solve_plain.
      congruence.
Qed.

End WithoutInterval.

(** X18.  The three tools that write a time entry read the interval of
    the entry the remote answers with.  When the answer is a JSON object
    whose [timeInterval] is missing or [null], an invocation that sent its
    request fails with the internal error [Tool execution failed: ...]:
    the entry has been written, and the tool reports a failure.  The
    error is the TypeError of the read on the missing interval when the
    values the text shows before the interval convert to a string (the
    answer is plain and, for [stop_time_entry], so is its [end]
    argument); otherwise it is the TypeError of the first conversion that
    fails. *)
Theorem time_entry_answer_without_interval_fails :
  forall (rt : Runtime) (world : World) (config : ClockifyConfig)
         (r : Response) (o : JsObject),
    apiKey config <> "" ->
    (forall req, remote world req = FetchResponse r) ->
    response_ok r = true ->
    JSON_parse rt (body_text r) = Some (JObj o) ->
    is_nullish (lookup "timeInterval" o) = true ->
    forall (name prop : string) (args : option JsObject) (log : list HttpRequest),
      In (name, prop) [("create_time_entry", "start"); ("update_time_entry", "start");
                       ("stop_time_entry", "duration")] ->
      snd (callTool rt world config name args log) = log
      \/ exists req fault,
           callTool rt world config name args log
           = (Throw (McpError InternalError
                       ("Tool execution failed: " ++ fault_message rt fault)),
              (log ++ [req])%list)
           /\ (fault = NullishAccess (lookup "timeInterval" o) prop
               \/ fault = NotPrimitive)
           /\ (plain (JObj o) = true -> stringable (arg "end" args) = true ->
               fault = NullishAccess (lookup "timeInterval" o) prop).
Proof.
  intros rt world config r o Hkey Hans Hok Hparse Hno name prop args log Hin.
  assert (H : fails_after
                (fun fault =>
                   (fault = NullishAccess (lookup "timeInterval" o) prop
                    \/ fault = NotPrimitive)
                   /\ (plain (JObj o) = true -> stringable (arg "end" args) = true ->
                       fault = NullishAccess (lookup "timeInterval" o) prop))
                (dispatch rt world config name args)).
  { simpl in Hin. destruct Hin as [E|[E|[E|[]]]]; inversion E; subst name prop; clear E;
      take_case; unfold_handlers;
      repeat first
        [ apply fails_after_throw
        | apply fails_after_bind; [solve [silence] | intros] ];
      (eapply fails_after_answer; try eassumption; intro log').
    - destruct (render_time_entry_stops rt o Hno "Time entry created successfully!" log')
        as (fault & E & Hor & Hp).
      exists fault. split; [exact E|]. split; [exact Hor|]. intros H _. now apply Hp.
    - destruct (render_time_entry_stops rt o Hno "Time entry updated successfully!" log')
        as (fault & E & Hor & Hp).
      exists fault. split; [exact E|]. split; [exact Hor|]. intros H _. now apply Hp.
    - assert (Eend : lookup "end" (bag args) = arg "end" args)
        by (destruct args; reflexivity).
      rewrite Eend.
      destruct (stringable (js_or (arg "end" args) (JStr (toISOString (clock world)))))
        eqn:Hend.
      + erewrite bind_ok by (now apply to_string_ok).
        eexists. split; [|split; [now left | reflexivity]].
        apply bind_throw. unfold shown. apply bind_throw.
        unfold bind, read. cbn [is_nullish get_prop ret]. now rewrite Hno.
      + exists NotPrimitive. split; [|split; [now right|]].
        * apply bind_throw. now apply to_string_throws.
        * intros _ Hs. exfalso.
          rewrite js_or_stringable in Hend by (exact Hs || reflexivity).
          discriminate. }
  unfold callTool, try_catch.
  destruct (H log) as [E|(req & fault & E & HP)].
  - left. destruct (dispatch rt world config name args log) as [[a|e] log'];
      simpl in *; assumption.
  - right. exists req, fault. rewrite E. split; [reflexivity | exact HP].
Qed.

Lemma time_entry_answer_without_interval_fails_witness :
  apiKey configured <> ""
  /\ exists req,
       run (callTool small_engine (scripted (answers 200 "{}") 0) configured
              "stop_time_entry" (Some [("workspaceId", JStr "w1"); ("userId", JStr "u1")]))
       = (Throw (McpError InternalError
                   ("Tool execution failed: "
                      ++ fault_message small_engine (NullishAccess JUndefined "duration"))),
          [req]).
Proof.
  assert (Hkey : apiKey configured <> "") by (simpl; discriminate).
  split; [exact Hkey|].
  destruct (time_entry_answer_without_interval_fails small_engine
              (scripted (answers 200 "{}") 0) configured
              {| status := 200; body_text := "{}" |} []
              Hkey (fun _ => eq_refl) eq_refl eq_refl eq_refl
              "stop_time_entry" "duration"
              (Some [("workspaceId", JStr "w1"); ("userId", JStr "u1")]) []
              (or_intror (or_intror (or_introl eq_refl))))
    as [H|(req & fault & H & _ & Hfault)].
  - discriminate H.
  - exists req. rewrite (Hfault eq_refl eq_refl) in H. exact H.
Defined.

(** *** The characters of a query string *)

Lemma chars_app (a b : string) :
  list_ascii_of_string (a ++ b)
  = (list_ascii_of_string a ++ list_ascii_of_string b)%list.
Proof. induction a as [|c a IH]; simpl; [reflexivity | now rewrite IH]. Qed.

Lemma hex_digit_safe (n : nat) : form_safe (hex_digit n) = true.
Proof. unfold hex_digit. do 16 (destruct n as [|n]; [reflexivity|]). destruct n; reflexivity. Qed.

Lemma query_char_safe (c : ascii) : form_safe c = true -> query_char c = true.
Proof. intro H. unfold query_char. now rewrite H. Qed.

Lemma form_encode_chars (s : string) (c : ascii) :
  In c (list_ascii_of_string (form_encode s)) -> query_char c = true.
Proof.
  induction s as [|x s IH]; simpl; [tauto|].
  rewrite chars_app, in_app_iff. intros [H|H]; [|now apply IH].
  unfold form_encode_byte in H. destruct (form_safe x) eqn:Hx.
  - simpl in H. destruct H as [<-|[]]. now apply query_char_safe.
  - destruct (Ascii.eqb x " "); simpl in H.
    + destruct H as [<-|[]]. reflexivity.
    + destruct H as [<-|[<-|[<-|[]]]];
        [reflexivity | apply query_char_safe, hex_digit_safe
         | apply query_char_safe, hex_digit_safe].
Qed.

Lemma params_toString_chars (q : URLSearchParams) (c : ascii) :
  In c (list_ascii_of_string (params_toString q)) -> query_char c = true.
Proof.
  unfold params_toString, join.
  induction q as [|[k v] q IH]; [simpl; tauto|].
  assert (Hpair : In c (list_ascii_of_string (form_encode k ++ "=" ++ form_encode v)) ->
                  query_char c = true).
  { rewrite !chars_app, !in_app_iff. intros [H|[H|H]].
    - now apply form_encode_chars in H.
    - simpl in H. destruct H as [<-|[]]. reflexivity.
    - now apply form_encode_chars in H. }
  destruct q as [|kv q]; [exact Hpair|].
  change (String.concat "&" (map ?f ((k, v) :: kv :: q)))
    with (f (k, v) ++ "&" ++ String.concat "&" (map f (kv :: q))).
  cbv beta. cbn [fst snd].
  rewrite (chars_app (form_encode k ++ "=" ++ form_encode v)), in_app_iff.
  rewrite (chars_app "&"), in_app_iff. intros [H|[H|H]].
  - now apply Hpair.
  - simpl in H. destruct H as [<-|[]]. reflexivity.
  - now apply IH.
Qed.

Lemma append_empty (a : string) : a ++ "" = a.
Proof. induction a as [|c a IH]; simpl; [reflexivity | now rewrite IH]. Qed.

(** X19.  Whatever the parameters of a list request are (in particular
    those its loop has built from the remaining arguments), what follows
    the endpoint in the URL is nothing, or a question mark and a text made
    only of letters, digits, [* - . _ + %] and the separators [=] and [&]:
    an argument cannot put a space, a [#], a [/] or a second [?] into the
    URL, nor a parameter of its own making. *)
Theorem query_string_is_form_encoded :
  forall (endpoint : string) (q : URLSearchParams),
    with_query endpoint q = endpoint
    \/ exists qs,
         with_query endpoint q = endpoint ++ "?" ++ qs
         /\ forall c, In c (list_ascii_of_string qs) -> query_char c = true.
Proof.
  intros endpoint q. unfold with_query. cbv zeta.
  destruct (params_toString q =? "")%string; [now left|].
  right. eexists. split; [reflexivity|]. apply params_toString_chars.
Qed.

(** *** The groups of a summary report *)

(** X20.  [get_summary_report] joins its [groups] argument for the text
    it returns, after the request.  When [workspaceId] converts to a
    string, so that the request goes out, a [groups] that is neither
    absent nor an array (a single group name given as a string, say) does
    not stop the request, which carries it when it is truthy; whatever
    the remote answers with success, the invocation then fails with the
    internal error [Tool execution failed: ...]. *)
Theorem summary_groups_that_is_no_array_fails :
  forall (rt : Runtime) (world : World) (config : ClockifyConfig)
         (r : Response) (v : JsVal) (args : JsObject) (log : list HttpRequest),
    apiKey config <> "" ->
    (forall req, remote world req = FetchResponse r) ->
    response_ok r = true ->
    JSON_parse rt (body_text r) = Some v ->
    stringable (lookup "workspaceId" args) = true ->
    is_nullish (lookup "groups" args) = false ->
    is_array (lookup "groups" args) = false ->
    callTool rt world config "get_summary_report" (Some args) log
    = (Throw (McpError InternalError
                ("Tool execution failed: "
                   ++ fault_message rt (NotCallable (lookup "groups" args) "join"))),
       (log ++ [request_for config
                  ("/workspaces/" ++ ToString rt (lookup "workspaceId" args)
                     ++ "/reports/summary") POST
                  (JObj (strip_undefined (summary_payload (remove_key "workspaceId" args))))
                  (Some reports_base)])%list).
Proof.
  intros rt world config r v args log Hkey Hans Hok Hparse Hws Hnn Harr.
  apply callTool_native.
  change (dispatch rt world config "get_summary_report" (Some args))
    with (getSummaryReport rt world config (Some args)).
  unfold getSummaryReport; cbv zeta.
  erewrite bind_ok by (now apply to_string_ok).
  unfold bind at 1.
  rewrite (makeRequest_answered rt world config r v Hkey Hans Hok Hparse).
  apply bind_throw. unfold shown. apply bind_throw. apply bind_throw.
  compare_keys.
  destruct (lookup "groups" args); try discriminate; reflexivity.
Qed.

Lemma summary_groups_that_is_no_array_fails_witness :
  apiKey configured <> ""
  /\ exists req,
       run (callTool small_engine (scripted (answers 200 "{}") 0) configured
              "get_summary_report"
              (Some [("workspaceId", JStr "w1");
                     ("dateRangeStart", JStr "2024-01-01T00:00:00Z");
                     ("dateRangeEnd", JStr "2024-01-31T23:59:59Z");
                     ("groups", JStr "USER")]))
       = (Throw (McpError InternalError "Tool execution failed: TypeError"), [req]).
Proof.
  assert (Hkey : apiKey configured <> "") by (simpl; discriminate).
  split; [exact Hkey|].
  eexists.
  exact (summary_groups_that_is_no_array_fails small_engine
           (scripted (answers 200 "{}") 0) configured
           {| status := 200; body_text := "{}" |} (JObj [])
           [("workspaceId", JStr "w1");
            ("dateRangeStart", JStr "2024-01-01T00:00:00Z");
            ("dateRangeEnd", JStr "2024-01-31T23:59:59Z");
            ("groups", JStr "USER")] []
           Hkey (fun _ => eq_refl) eq_refl eq_refl eq_refl eq_refl eq_refl).
Defined.
